(** * GEOAGENT orchestrator: plan synthesis and the dependency-gated loop

    A shallow embedding of [geospatial_agents/orchestrator_langgraph.py]:
    the quantity extractor [_extract_number], the keyword-driven plan
    builder [_create_smart_default_workflow], the planner node
    [_plan_workflow], the router condition [_should_continue], the eight
    [_execute_*] nodes and the entry point [execute].

    Conventions.
    - Request text is modelled as a [string] of ASCII characters; the
      character classes of the regular expressions ([\s], [\w], [\d]) are
      the ASCII ones.
    - A Python dict that the code only reads by key is an association list
      in insertion order.
    - The values of a step dict have the types the orchestrator reads them
      at: strings, a dict, a list of integers.
    - The eight agents, the planning reply of the language model and the
      [word2number] converter are collaborators outside the orchestrator;
      they are taken as parameters, each with the ways it can fail.
    - The graph is run as [_build_workflow] compiles it: planner, then
      router, then the node the condition names, then router again.  Three
      rules of the graph library decide what a run computes.  A node
      returns the state dict, and each key of it is written back to its
      channel; the channel of [messages] is declared with the reducer
      [operator.add], and the node has appended to the very list the
      channel holds, so the list is added to itself.  The condition of a
      conditional edge is only asked for a label: what it assigns to the
      state is not written back.  A label the dict of conditional edges has
      no entry for raises [KeyError].  The number of steps a run may take is
      a parameter of the library, and so of [invoke] here.  The limit the
      interpreter puts on the depth of recursion is not modelled. *)

From Stdlib Require Import String Ascii List ZArith Bool Arith Lia.
From Stdlib Require Import DecimalString DecimalNat.
Import ListNotations.
Local Open Scope string_scope.
Local Open Scope list_scope.
Local Open Scope nat_scope.

(** ** Python strings *)

Module PyStr.

(** [c.lower()] on an ASCII character. *)
Definition lower_char (c : ascii) : ascii :=
  let n := nat_of_ascii c in
  if (65 <=? n) && (n <=? 90) then ascii_of_nat (n + 32) else c.

(** [s.lower()] *)
Fixpoint lower (s : string) : string :=
  match s with
  | EmptyString => EmptyString
  | String c r => String (lower_char c) (lower r)
  end.

(** [needle in hay] *)
Fixpoint contains (needle hay : string) : bool :=
  if String.prefix needle hay then true
  else match hay with
       | EmptyString => false
       | String _ r => contains needle r
       end.

Fixpoint last_char (s : string) : option ascii :=
  match s with
  | EmptyString => None
  | String c EmptyString => Some c
  | String _ r => last_char r
  end.

Fixpoint rev_onto (s acc : string) : string :=
  match s with
  | EmptyString => acc
  | String c r => rev_onto r (String c acc)
  end.

Definition rev (s : string) : string := rev_onto s EmptyString.

(** [s.endswith(suffix)] *)
Definition endswith (suffix s : string) : bool :=
  String.prefix (rev suffix) (rev s).

(** [s.replace(old, new)] for a non-empty [old]: the occurrences are taken
    left to right and do not overlap.  [skip] counts the characters of an
    occurrence still to be dropped. *)
Fixpoint replace_from (old new : string) (skip : nat) (s : string) : string :=
  match s with
  | EmptyString => EmptyString
  | String c r =>
      match skip with
      | S k => replace_from old new k r
      | O =>
          if String.prefix old s
          then (new ++ replace_from old new (String.length old - 1) r)%string
          else String c (replace_from old new 0 r)
      end
  end.

Definition replace (old new s : string) : string := replace_from old new 0 s.

(** [sep.join(l)] *)
Definition join (sep : string) (l : list string) : string := String.concat sep l.

(** [str(n)] for a non-negative integer. *)
Definition str_of_nat (n : nat) : string := NilEmpty.string_of_uint (Nat.to_uint n).

(** Longest prefix of [s] whose characters satisfy [p]. *)
Fixpoint take_while (p : ascii -> bool) (s : string) : string :=
  match s with
  | EmptyString => EmptyString
  | String c r => if p c then String c (take_while p r) else EmptyString
  end.

(** The character at offset [n], [None] past the end. *)
Definition char_at (n : nat) (s : string) : option ascii := String.get n s.

End PyStr.

(** ** The regular expressions of the orchestrator *)

Module Re.

Definition code (c : ascii) : nat := nat_of_ascii c.

(** [\d] *)
Definition is_digit (c : ascii) : bool := (48 <=? code c) && (code c <=? 57).

(** [\w] : letters, digits and the underscore. *)
Definition is_word (c : ascii) : bool :=
  is_digit c
  || ((65 <=? code c) && (code c <=? 90))
  || ((97 <=? code c) && (code c <=? 122))
  || (code c =? 95).

(** [\s] : tab, line feed, vertical tab, form feed, carriage return, the
    four separators 28..31 and the space. *)
Definition is_space (c : ascii) : bool :=
  ((9 <=? code c) && (code c <=? 13))
  || ((28 <=? code c) && (code c <=? 31))
  || (code c =? 32).

Definition is_word_opt (c : option ascii) : bool :=
  match c with Some a => is_word a | None => false end.

(** [\b] between the characters [before] and [after] ([None] at either end
    of the text). *)
Definition boundary (before after : option ascii) : bool :=
  xorb (is_word_opt before) (is_word_opt after).

(** [re.findall] for a pattern that never matches the empty string.  The
    text is scanned left to right; [m prev s] is the text matched at the
    current position, if any, where [prev] is the character just before it.
    After a match the scan resumes behind it: [skip] counts the characters
    of the match still to be passed. *)
Fixpoint scan (m : option ascii -> string -> option string)
    (skip : nat) (prev : option ascii) (s : string) : list string :=
  match s with
  | EmptyString => []
  | String c r =>
      match skip with
      | S k => scan m k (Some c) r
      | O =>
          match m prev s with
          | Some tok => tok :: scan m (String.length tok - 1) (Some c) r
          | None => scan m 0 (Some c) r
          end
      end
  end.

Definition findall (m : option ascii -> string -> option string) (s : string)
  : list string := scan m 0 None s.

(** *** The URL pattern of [_extract_urls]: [http], an optional [s], [://],
    then one or more characters of the class below. *)

(** Every character except white space and the eleven characters with the
    codes listed: less-than, greater-than, double quote, the two braces, the
    bar, the backslash, the caret, the backquote and the two brackets. *)
Definition is_url_char (c : ascii) : bool :=
  negb (is_space c
        || existsb (Nat.eqb (code c)) [60; 62; 34; 123; 125; 124; 92; 94; 96; 91; 93]).

(** [lit] followed by one or more [is_url_char]. *)
Definition url_after (lit s : string) : option string :=
  if String.prefix lit s then
    let body := PyStr.take_while is_url_char
                  (String.substring (String.length lit)
                     (String.length s - String.length lit) s) in
    match body with
    | EmptyString => None
    | _ => Some (lit ++ body)%string
    end
  else None.

(** The optional [s] is tried first, as a greedy [?] does. *)
Definition match_url (_ : option ascii) (s : string) : option string :=
  match url_after "https://" s with
  | Some tok => Some tok
  | None => url_after "http://" s
  end.

(** *** [\b(\d+)\b] *)

(** [\d+\b] at the head of [s].  The [+] is greedy: another digit is taken
    first, and only when the rest then fails does the run end here, where
    the closing [\b] is tried. *)
Fixpoint digits_then_boundary (s : string) : option string :=
  match s with
  | EmptyString => None
  | String c r =>
      if is_digit c then
        match digits_then_boundary r with
        | Some tok => Some (String c tok)
        | None =>
            if boundary (Some c) (PyStr.char_at 0 r)
            then Some (String c EmptyString)
            else None
        end
      else None
  end.

Definition match_number (prev : option ascii) (s : string) : option string :=
  if boundary prev (PyStr.char_at 0 s) then digits_then_boundary s else None.

(** *** [\b(one|two|...|thousand)\b] *)

Definition number_words : list string :=
  [ "one"; "two"; "three"; "four"; "five"; "six"; "seven"; "eight"; "nine";
    "ten"; "eleven"; "twelve"; "thirteen"; "fourteen"; "fifteen"; "sixteen";
    "seventeen"; "eighteen"; "nineteen"; "twenty"; "thirty"; "forty"; "fifty";
    "hundred"; "thousand" ].

(** The alternatives are tried in the order the pattern lists them. *)
Definition match_number_word (prev : option ascii) (s : string) : option string :=
  if boundary prev (PyStr.char_at 0 s) then
    find (fun w =>
            String.prefix w s
            && boundary (PyStr.last_char w) (PyStr.char_at (String.length w) s))
         number_words
  else None.

End Re.

(** [int(s)] for a string of decimal digits. *)
Definition int_of_digits (s : string) : Z :=
  fold_left (fun acc c => (acc * 10 + Z.of_nat (Re.code c - 48))%Z)
            (list_ascii_of_string s) 0%Z.

(** Outcome of a call that may raise: [Raised msg] carries [str(e)]. *)
Inductive Exc (A : Type) : Type :=
| Returned (a : A)
| Raised (msg : string).
Arguments Returned {A} a.
Arguments Raised {A} msg.

(** What a call of [w2n.word_to_num] does: it returns a number, raises
    [ValueError], or raises some other exception. *)
Inductive Conversion : Type :=
| Converted (z : Z)
| ValueError
| OtherError (msg : string).

Section Extractor.

(** [w2n.word_to_num] of the [word2number] package: [None] when the package
    cannot be imported ([ImportError]). *)
Variable w2n : option (string -> Conversion).

(** [number_str] of [_extract_number]: the phrase handed to the converter. *)
Definition number_str (text : string) : option string :=
  let text_lower := PyStr.lower text in
  let number_phrases := Re.findall Re.match_number_word text_lower in
  match number_phrases with
  | [] => None
  | _ => Some (PyStr.join " " (firstn 3 number_phrases))
  end.

(** The [except] clause names [ImportError] and [ValueError]: any other
    exception of the converter leaves the function. *)
Definition _extract_number (text : string) : Exc (option Z) :=
  let numbers := Re.findall Re.match_number text in
  match numbers with
  | n :: _ => Returned (Some (int_of_digits n))
  | [] =>
      match w2n with
      | None => Returned None
      | Some word_to_num =>
          match number_str text with
          | Some phrase =>
              match word_to_num phrase with
              | Converted z => Returned (Some z)
              | ValueError => Returned None
              | OtherError msg => Raised msg
              end
          | None => Returned None
          end
      end
  end.

End Extractor.

Definition _extract_urls (text : string) : list string :=
  Re.findall Re.match_url text.

(** ** Plans *)

(** The values the orchestrator puts into parameter dicts and receives from
    the agents. *)
#[local] Set Warnings "-register-all".
Inductive PyVal : Type :=
| VNone
| VInt (z : Z)
| VStr (s : string)
| VList (l : list PyVal)
| VDict (d : list (string * PyVal)).

Definition Dict := list (string * PyVal).

(** [d.get(k)] *)
Fixpoint dict_get (k : string) (d : Dict) : option PyVal :=
  match d with
  | [] => None
  | (k', v) :: r => if String.eqb k k' then Some v else dict_get k r
  end.

(** [k in d] *)
Definition dict_mem (k : string) (d : Dict) : bool :=
  match dict_get k d with Some _ => true | None => false end.

(** [d[k] = v]: an existing key keeps its place, a new one goes last. *)
Fixpoint dict_set (k : string) (v : PyVal) (d : Dict) : Dict :=
  match d with
  | [] => [(k, v)]
  | (k', v') :: r =>
      if String.eqb k k' then (k, v) :: r else (k', v') :: dict_set k v r
  end.

(** [d.update(e)] *)
Definition dict_update (d e : Dict) : Dict :=
  fold_left (fun acc kv => dict_set (fst kv) (snd kv) acc) e d.

(** One step of a workflow plan: the dict with the keys [step_type],
    [description], [parameters] and [dependencies].  The orchestrator reads
    [step_type] with two defaults, so the key may be absent here; each of
    the other three is read with one default only and is held at it when
    the dict lacks the key: the empty string, the empty dict, the empty
    list. *)
Record Task : Type := mkStep {
  step_type_key : option string;
  description : string;
  parameters : Dict;
  dependencies : list Z
}.

(** [step.get("step_type", "")], as the condition reads it; the comparison
    [step.get("step_type") == "search"] of the planner agrees with it. *)
Definition step_type (step : Task) : string :=
  match step_type_key step with
  | Some ty => ty
  | None => EmptyString
  end.

(** A step dict that has its [step_type]. *)
Abbreviation mkTask ty desc params deps := (mkStep (Some ty) desc params deps).

Definition Plan := list Task.

(** ** The heuristic plan builder *)

Definition _is_huggingface_url (url : string) : bool :=
  PyStr.contains "huggingface.co" (PyStr.lower url)
  && PyStr.contains "/datasets/" (PyStr.lower url).

Definition _convert_github_blob_url (url : string) : string :=
  if PyStr.contains "github.com" url && PyStr.contains "/blob/" url then
    if PyStr.endswith "/" url then url
    else
      let url := PyStr.replace "github.com" "raw.githubusercontent.com" url in
      let url := PyStr.replace "/blob/" "/" url in
      url
  else url.

(** The body of the loop over [urls] in the download block: a HuggingFace
    URL is kept as it is, any other goes through
    [_convert_github_blob_url]. *)
Definition attached_url (url : string) : string :=
  if _is_huggingface_url url then url else _convert_github_blob_url url.

(** Truth value of an [Optional[int]]: [None] and [0] are false. *)
Definition int_truthy (o : option Z) : bool :=
  match o with
  | Some z => negb (z =? 0)%Z
  | None => false
  end.

(** [any(keyword in text for keyword in keywords)] *)
Definition any_keyword (keywords : list string) (text : string) : bool :=
  existsb (fun keyword => PyStr.contains keyword text) keywords.

(** [any(step.get("step_type") in kinds for step in workflow)] *)
Definition any_step_of (kinds : list string) (workflow : Plan) : bool :=
  existsb (fun step => existsb (String.eqb (step_type step)) kinds) workflow.

(** [workflow[0].get("step_type") == kind] guarded by [workflow] being
    non-empty. *)
Definition first_is (kind : string) (workflow : Plan) : bool :=
  match workflow with
  | step :: _ => String.eqb (step_type step) kind
  | [] => false
  end.

Definition nonempty {A : Type} (l : list A) : bool :=
  match l with [] => false | _ => true end.

(** [[len(workflow) - 1] if workflow else []] *)
Definition dep_on_last (workflow : Plan) : list Z :=
  if nonempty workflow then [Z.of_nat (List.length workflow - 1)] else [].

(** [converted_urls[0] if len(converted_urls) == 1 else converted_urls] *)
Definition url_value (converted_urls : list string) : PyVal :=
  match converted_urls with
  | [u] => VStr u
  | _ => VList (map VStr converted_urls)
  end.

Definition download_keywords : list string :=
  ["download"; "get"; "fetch"; "retrieve"; "obtain"].
Definition process_keywords : list string :=
  ["process"; "analyze"; "transform"; "reproject"; "clip"; "calculate"; "compute"].
Definition viz_keywords : list string :=
  ["visualize"; "map"; "plot"; "show"; "display"; "create map"; "risk map"].
Definition export_keywords : list string :=
  ["export"; "save"; "output"].

Section SmartDefault.

Variable user_request : string.
Variable requested_limit : option Z.

Definition request_lower : string := PyStr.lower user_request.

(** [requested_limit if requested_limit else 10] *)
Definition default_limit : Z :=
  match requested_limit with
  | Some z => if int_truthy (Some z) then z else 10%Z
  | None => 10%Z
  end.

Definition urls : list string := _extract_urls user_request.
Definition has_url : bool := nonempty urls.

Definition search_step : Task :=
  mkTask "search"
         ("Search for geospatial datasets related to: " ++ user_request)%string
         [("query", VStr user_request); ("limit", VInt default_limit)]
         [].

(** The test that opens the builder: no URL, and the text has no
    [download] or has [search]. *)
Definition wants_search : bool :=
  negb has_url
  && (negb (PyStr.contains "download" request_lower)
      || PyStr.contains "search" request_lower).

Definition add_search (workflow : Plan) : Plan :=
  if wants_search then workflow ++ [search_step] else workflow.

(** [converted_urls] of the download block. *)
Definition converted_urls_checked : list string := map attached_url urls.

Definition add_download (workflow : Plan) : Plan :=
  if any_keyword download_keywords request_lower || has_url then
    let download_params : Dict := [("limit", VInt (Z.min default_limit 5))] in
    let download_params :=
      if has_url then
        download_params ++ [("url", url_value converted_urls_checked);
                            ("urls", VList (map VStr converted_urls_checked))]
      else download_params in
    workflow ++
      [mkTask "download"
              (if has_url then "Download from URL"
               else "Download the identified datasets")
              download_params
              (if nonempty workflow && negb has_url then [0%Z] else [])]
  else workflow.

Definition add_process (workflow : Plan) : Plan :=
  if any_keyword process_keywords request_lower then
    workflow ++
      [mkTask "process"
              ("Process the downloaded data: " ++ user_request)%string
              []
              (dep_on_last workflow)]
  else workflow.

(** The download step put in front of a visualization or an export that has
    no data step before it. *)
Definition data_step (purpose : string) (workflow : Plan) : Task :=
  mkTask "download"
         ("Download datasets needed for " ++ purpose)%string
         [("limit", VInt (Z.min default_limit 5))]
         (if first_is "search" workflow then [0%Z] else []).

Definition add_visualization (workflow : Plan) : Plan :=
  if any_keyword viz_keywords request_lower then
    let has_data_step := any_step_of ["download"; "process"; "analysis"] workflow in
    let workflow :=
      if negb has_data_step && negb has_url
      then workflow ++ [data_step "visualization" workflow]
      else workflow in
    workflow ++
      [mkTask "visualization" "Create visualization of the results" []
              (dep_on_last workflow)]
  else workflow.

Definition add_export (workflow : Plan) : Plan :=
  if any_keyword export_keywords request_lower then
    let has_data_step :=
      any_step_of ["download"; "process"; "analysis"; "visualization"] workflow in
    let workflow :=
      if negb has_data_step && negb has_url
      then workflow ++ [data_step "export" workflow]
      else workflow in
    workflow ++
      [mkTask "export" "Export the results" [("format", VStr "geojson")]
              (dep_on_last workflow)]
  else workflow.

(** The URL list of the two later branches, which do not test for
    HuggingFace. *)
Definition converted_urls_plain : list string :=
  map _convert_github_blob_url urls.

(** [if not workflow or (len(workflow) == 1 and workflow[0]["step_type"] ==
    "search")], then [if "download" in request_lower]. *)
Definition add_late_download (workflow : Plan) : Plan :=
  if negb (nonempty workflow)
     || ((List.length workflow =? 1) && first_is "search" workflow) then
    if PyStr.contains "download" request_lower then
      let download_params : Dict := [("limit", VInt (Z.min default_limit 5))] in
      let download_params :=
        if has_url then
          download_params ++ [("url", url_value converted_urls_plain);
                              ("urls", VList (map VStr converted_urls_plain))]
        else download_params in
      workflow ++
        [mkTask "download"
                (if has_url then "Download from URL"
                 else "Download the identified datasets")
                download_params
                (if nonempty workflow then [0%Z] else [])]
    else workflow
  else workflow.

Definition url_only_plan : Plan :=
  [mkTask "download" "Download dataset from URL"
          [("url", url_value converted_urls_plain);
           ("urls", VList (map VStr converted_urls_plain))]
          []].

(** The list [workflow] after the six appending blocks. *)
Definition built_workflow : Plan :=
  add_late_download
    (add_export (add_visualization (add_process (add_download (add_search []))))).

Definition _create_smart_default_workflow : Plan :=
  let workflow := built_workflow in
  if has_url && negb (nonempty workflow) then url_only_plan
  else if nonempty workflow then workflow
  else [search_step].

End SmartDefault.

(** ** Workflow state *)

Inductive Message : Type :=
| HumanMessage (content : string)
| AIMessage (content : string).

(** The [WorkflowState] dict, one field per key. *)
Record WorkflowState : Type := mkState {
  user_request : string;
  workflow_plan : Plan;
  current_step : nat;
  total_steps : nat;
  search_results : list PyVal;
  downloaded_data : Dict;
  processed_data : Dict;
  spatial_queries : list PyVal;
  transformations : list PyVal;
  analysis_results : Dict;
  visualizations : list string;
  exports : list string;
  errors : list string;
  messages : list Message;
  final_outputs : list string
}.

(** Assignments [state[key] = v]. *)
Definition set_workflow_plan (v : Plan) (state : WorkflowState) : WorkflowState :=
  mkState (user_request state) v (current_step state) (total_steps state)
         (search_results state) (downloaded_data state) (processed_data state)
         (spatial_queries state) (transformations state)
         (analysis_results state) (visualizations state) (exports state)
         (errors state) (messages state) (final_outputs state).

Definition set_current_step (v : nat) (state : WorkflowState) : WorkflowState :=
  mkState (user_request state) (workflow_plan state) v (total_steps state)
         (search_results state) (downloaded_data state) (processed_data state)
         (spatial_queries state) (transformations state)
         (analysis_results state) (visualizations state) (exports state)
         (errors state) (messages state) (final_outputs state).

Definition set_total_steps (v : nat) (state : WorkflowState) : WorkflowState :=
  mkState (user_request state) (workflow_plan state) (current_step state) v
         (search_results state) (downloaded_data state) (processed_data state)
         (spatial_queries state) (transformations state)
         (analysis_results state) (visualizations state) (exports state)
         (errors state) (messages state) (final_outputs state).

Definition set_search_results (v : list PyVal) (state : WorkflowState) : WorkflowState :=
  mkState (user_request state) (workflow_plan state) (current_step state)
         (total_steps state) v (downloaded_data state) (processed_data state)
         (spatial_queries state) (transformations state)
         (analysis_results state) (visualizations state) (exports state)
         (errors state) (messages state) (final_outputs state).

Definition set_downloaded_data (v : Dict) (state : WorkflowState) : WorkflowState :=
  mkState (user_request state) (workflow_plan state) (current_step state)
         (total_steps state) (search_results state) v (processed_data state)
         (spatial_queries state) (transformations state)
         (analysis_results state) (visualizations state) (exports state)
         (errors state) (messages state) (final_outputs state).

Definition set_processed_data (v : Dict) (state : WorkflowState) : WorkflowState :=
  mkState (user_request state) (workflow_plan state) (current_step state)
         (total_steps state) (search_results state) (downloaded_data state) v
         (spatial_queries state) (transformations state)
         (analysis_results state) (visualizations state) (exports state)
         (errors state) (messages state) (final_outputs state).

Definition set_analysis_results (v : Dict) (state : WorkflowState) : WorkflowState :=
  mkState (user_request state) (workflow_plan state) (current_step state)
         (total_steps state) (search_results state) (downloaded_data state)
         (processed_data state) (spatial_queries state)
         (transformations state) v (visualizations state) (exports state)
         (errors state) (messages state) (final_outputs state).

Definition set_visualizations (v : list string) (state : WorkflowState) : WorkflowState :=
  mkState (user_request state) (workflow_plan state) (current_step state)
         (total_steps state) (search_results state) (downloaded_data state)
         (processed_data state) (spatial_queries state)
         (transformations state) (analysis_results state) v (exports state)
         (errors state) (messages state) (final_outputs state).

Definition set_exports (v : list string) (state : WorkflowState) : WorkflowState :=
  mkState (user_request state) (workflow_plan state) (current_step state)
         (total_steps state) (search_results state) (downloaded_data state)
         (processed_data state) (spatial_queries state)
         (transformations state) (analysis_results state)
         (visualizations state) v (errors state) (messages state)
         (final_outputs state).

Definition set_errors (v : list string) (state : WorkflowState) : WorkflowState :=
  mkState (user_request state) (workflow_plan state) (current_step state)
         (total_steps state) (search_results state) (downloaded_data state)
         (processed_data state) (spatial_queries state)
         (transformations state) (analysis_results state)
         (visualizations state) (exports state) v (messages state)
         (final_outputs state).

Definition set_messages (v : list Message) (state : WorkflowState) : WorkflowState :=
  mkState (user_request state) (workflow_plan state) (current_step state)
         (total_steps state) (search_results state) (downloaded_data state)
         (processed_data state) (spatial_queries state)
         (transformations state) (analysis_results state)
         (visualizations state) (exports state) (errors state) v
         (final_outputs state).

Definition set_final_outputs (v : list string) (state : WorkflowState) : WorkflowState :=
  mkState (user_request state) (workflow_plan state) (current_step state)
         (total_steps state) (search_results state) (downloaded_data state)
         (processed_data state) (spatial_queries state)
         (transformations state) (analysis_results state)
         (visualizations state) (exports state) (errors state)
         (messages state) v.

(** ** Agents *)

(** The result dict of an agent, restricted to the keys the orchestrator
    reads; [None] is a key the dict lacks.  A path is [None] also when the
    dict holds [None] for it. *)
Record Results : Type := mkResults {
  r_results : option (list PyVal);
  r_downloaded_data : option Dict;
  r_filtered_data : option PyVal;
  r_transformed_data : option PyVal;
  r_processed_data : option PyVal;
  r_analysis : option PyVal;
  r_visualization_path : option string;
  r_export_path : option string
}.

(** [agent.execute(task_description, parameters, context)].  The agents read
    the context and do not assign to it. *)
Definition Agent : Type := string -> Dict -> WorkflowState -> Exc Results.

(** The collaborators an orchestrator instance holds: the eight agents, the
    language model and the [word2number] converter.  [llm_plan request] is
    what the planner gets out of the model for a request: the plan
    recovered from the reply, [None] when the reply holds no array or none
    of the parse attempts succeeds, and [Raised] when the call of the model
    raises, which the planner does not catch. *)
Record Orchestrator : Type := mkOrchestrator {
  search_agent : Agent;
  download_agent : Agent;
  spatial_query_agent : Agent;
  transform_agent : Agent;
  process_agent : Agent;
  analysis_agent : Agent;
  visualization_agent : Agent;
  export_agent : Agent;
  llm_plan : string -> Exc (option Plan);
  w2n_word_to_num : option (string -> Conversion)
}.

(** ** The nodes of the graph *)

Inductive Node : Type :=
| search | download | spatial_query | transform
| process | analysis | visualization | export.

(** The prefix of the error string each node writes. *)
Definition display_name (n : Node) : string :=
  match n with
  | search => "Search"
  | download => "Download"
  | spatial_query => "Spatial query"
  | transform => "Transform"
  | process => "Process"
  | analysis => "Analysis"
  | visualization => "Visualization"
  | export => "Export"
  end.

(** Truth value of a path: [None] and the empty string are false. *)
Definition path_truthy (p : option string) : option string :=
  match p with
  | Some EmptyString => None
  | other => other
  end.

Section Nodes.

Variable self : Orchestrator.

(** The [except] branch shared by the eight nodes: the error string is
    appended to [errors] and the pointer moves on. *)
Definition step_failed (n : Node) (msg : string) (current : nat)
    (state : WorkflowState) : WorkflowState :=
  let state :=
    set_errors (errors state ++ [(display_name n ++ " step failed: " ++ msg)%string])
               state in
  set_current_step (current + 1) state.

(** [state["messages"].append(AIMessage(content=...))]: what the node does
    to the list.  What the graph makes of the list the node returns is
    [write_back]. *)
Definition append_message (content : string) (state : WorkflowState)
  : WorkflowState :=
  set_messages (messages state ++ [AIMessage content]) state.

(** Every node starts with [step = workflow_plan[current_step]], outside the
    [try]: [None] stands for the [IndexError] of a pointer past the plan. *)
Definition _execute_search (state : WorkflowState) : option WorkflowState :=
  let current := current_step state in
  match nth_error (workflow_plan state) current with
  | None => None
  | Some step =>
      match search_agent self (description step) (parameters step) state with
      | Returned results =>
          let found := match r_results results with Some l => l | None => [] end in
          let state := set_search_results found state in
          let state := set_current_step (current + 1) state in
          Some (if nonempty found
                then append_message
                       ("Search completed: found "
                        ++ PyStr.str_of_nat (List.length found) ++ " results")%string
                       state
                else append_message "Search completed but no results found" state)
      | Raised msg => Some (step_failed search msg current state)
      end
  end.

Definition _execute_download (state : WorkflowState) : option WorkflowState :=
  let current := current_step state in
  match nth_error (workflow_plan state) current with
  | None => None
  | Some step =>
      let task_desc := user_request state in
      match download_agent self task_desc (parameters step) state with
      | Returned results =>
          let '(state, downloaded_count) :=
            match r_downloaded_data results with
            | Some d =>
                (set_downloaded_data (dict_update (downloaded_data state) d) state,
                 List.length d)
            | None => (state, 0)
            end in
          let state := set_current_step (current + 1) state in
          Some (append_message
                  ("Download completed: " ++ PyStr.str_of_nat downloaded_count
                   ++ " datasets")%string state)
      | Raised msg => Some (step_failed download msg current state)
      end
  end.

(** The three nodes that store one artifact in [processed_data] under
    [<prefix><current_step>]. *)
Definition store_processed (key_prefix : string) (current : nat)
    (artifact : option PyVal) (state : WorkflowState) : WorkflowState :=
  match artifact with
  | Some v =>
      set_processed_data
        (dict_set (key_prefix ++ PyStr.str_of_nat current)%string v
                  (processed_data state)) state
  | None => state
  end.

Definition _execute_spatial_query (state : WorkflowState) : option WorkflowState :=
  let current := current_step state in
  match nth_error (workflow_plan state) current with
  | None => None
  | Some step =>
      match spatial_query_agent self (description step) (parameters step) state with
      | Returned results =>
          let state :=
            store_processed "spatial_query_" current (r_filtered_data results) state in
          let state := set_current_step (current + 1) state in
          Some (append_message "Spatial query completed" state)
      | Raised msg => Some (step_failed spatial_query msg current state)
      end
  end.

Definition _execute_transform (state : WorkflowState) : option WorkflowState :=
  let current := current_step state in
  match nth_error (workflow_plan state) current with
  | None => None
  | Some step =>
      match transform_agent self (description step) (parameters step) state with
      | Returned results =>
          let state :=
            store_processed "transform_" current (r_transformed_data results) state in
          let state := set_current_step (current + 1) state in
          Some (append_message "Transform completed" state)
      | Raised msg => Some (step_failed transform msg current state)
      end
  end.

Definition _execute_process (state : WorkflowState) : option WorkflowState :=
  let current := current_step state in
  match nth_error (workflow_plan state) current with
  | None => None
  | Some step =>
      match process_agent self (description step) (parameters step) state with
      | Returned results =>
          let state :=
            store_processed "process_" current (r_processed_data results) state in
          let state := set_current_step (current + 1) state in
          Some (append_message "Processing completed" state)
      | Raised msg => Some (step_failed process msg current state)
      end
  end.

Definition _execute_analysis (state : WorkflowState) : option WorkflowState :=
  let current := current_step state in
  match nth_error (workflow_plan state) current with
  | None => None
  | Some step =>
      match analysis_agent self (description step) (parameters step) state with
      | Returned results =>
          let value := match r_analysis results with Some v => v | None => VDict [] end in
          let state :=
            set_analysis_results
              (dict_set ("analysis_" ++ PyStr.str_of_nat current)%string value
                        (analysis_results state)) state in
          let state := set_current_step (current + 1) state in
          Some (append_message "Analysis completed" state)
      | Raised msg => Some (step_failed analysis msg current state)
      end
  end.

Definition _execute_visualization (state : WorkflowState) : option WorkflowState :=
  let current := current_step state in
  match nth_error (workflow_plan state) current with
  | None => None
  | Some step =>
      match visualization_agent self (description step) (parameters step) state with
      | Returned results =>
          let state :=
            match path_truthy (r_visualization_path results) with
            | Some path => set_visualizations (visualizations state ++ [path]) state
            | None => state
            end in
          let state := set_current_step (current + 1) state in
          Some (append_message "Visualization completed" state)
      | Raised msg => Some (step_failed visualization msg current state)
      end
  end.

Definition _execute_export (state : WorkflowState) : option WorkflowState :=
  let current := current_step state in
  match nth_error (workflow_plan state) current with
  | None => None
  | Some step =>
      match export_agent self (description step) (parameters step) state with
      | Returned results =>
          let state :=
            match path_truthy (r_export_path results) with
            | Some path =>
                let state := set_exports (exports state ++ [path]) state in
                set_final_outputs (final_outputs state ++ [path]) state
            | None => state
            end in
          let state := set_current_step (current + 1) state in
          Some (append_message "Export completed" state)
      | Raised msg => Some (step_failed export msg current state)
      end
  end.

(** The function [_build_workflow] registers for each node. *)
Definition node_function (n : Node) : WorkflowState -> option WorkflowState :=
  match n with
  | search => _execute_search
  | download => _execute_download
  | spatial_query => _execute_spatial_query
  | transform => _execute_transform
  | process => _execute_process
  | analysis => _execute_analysis
  | visualization => _execute_visualization
  | export => _execute_export
  end.

End Nodes.

(** ** Routing *)

(** [_route_next_step]: the router node passes the state through. *)
Definition _route_next_step (state : WorkflowState) : WorkflowState := state.

(** [all_deps_met]: no dependency index is [>= current_step]. *)
Definition all_deps_met (current : nat) (deps : list Z) : bool :=
  forallb (fun dep_idx => negb (Z.of_nat current <=? dep_idx)%Z) deps.

(** [step_type if step_type else "end"] *)
Definition label_of (step : Task) : string :=
  match step_type step with
  | EmptyString => "end"
  | other => other
  end.

(** [_should_continue], with the number of plan positions from the pointer
    to the end of the plan as the bound of its recursion.  The result is the
    label returned, the state as the calls left it, and (for the statements
    below) the positions passed over by the skip branch, in order. *)
Fixpoint should_continue_from (remaining : nat) (state : WorkflowState)
  : string * WorkflowState * list nat :=
  match remaining with
  | O => ("end", state, [])
  | S remaining' =>
      let current := current_step state in
      match nth_error (workflow_plan state) current with
      | None => ("end", state, [])
      | Some step =>
          if negb (all_deps_met current (dependencies step)) then
            let state := set_current_step (current + 1) state in
            let '(label, state, skipped) := should_continue_from remaining' state in
            (label, state, current :: skipped)
          else (label_of step, state, [])
      end
  end.

Definition _should_continue (state : WorkflowState)
  : string * WorkflowState * list nat :=
  should_continue_from
    (List.length (workflow_plan state) - current_step state) state.

(** Where a conditional edge leads. *)
Inductive Target : Type :=
| ToNode (n : Node)
| END.

(** The dict given to [add_conditional_edges]. *)
Definition conditional_edges : list (string * Target) :=
  [ ("search", ToNode search); ("download", ToNode download);
    ("spatial_query", ToNode spatial_query); ("transform", ToNode transform);
    ("process", ToNode process); ("analysis", ToNode analysis);
    ("visualization", ToNode visualization); ("export", ToNode export);
    ("end", END) ].

Fixpoint edge_for (label : string) (edges : list (string * Target))
  : option Target :=
  match edges with
  | [] => None
  | (l, t) :: r => if String.eqb label l then Some t else edge_for label r
  end.

(** ** The compiled graph *)

(** What the graph keeps of the dict a node returns.  Every key is written
    back to its channel.  Fourteen channels take the value written.  The
    channel of [messages] is declared [Annotated[Sequence, operator.add]]:
    it adds what the node returns to what it holds, and both are the one
    list the node has appended to, so the list is added to itself. *)
Definition write_back (returned : WorkflowState) : WorkflowState :=
  set_messages (messages returned ++ messages returned) returned.

(** A node ran: the value of [current_step] it ran at, and the node. *)
Inductive Visit : Type :=
| Executed (position : nat) (n : Node).

Definition position_of (v : Visit) : nat :=
  match v with
  | Executed p _ => p
  end.

(** How a run of the graph stops: at [END]; with the [KeyError] of a label
    the edge dict has no entry for; with the [IndexError] of a node whose
    pointer is past the plan; with the error of the step limit of the graph
    library; or with an exception that leaves the planner.  Only the first
    gives [invoke] a state to return; the others carry the state the run
    had reached. *)
Inductive Outcome : Type :=
| Ended (final : WorkflowState)
| NoEdge (label : string) (state : WorkflowState)
| IndexError (state : WorkflowState)
| OutOfFuel (state : WorkflowState)
| PlannerRaised (msg : string) (state : WorkflowState).

(** ** The planner node *)

(** The loop over the search steps of a parsed plan: a step without a
    [limit] gets the requested one. *)
Definition inject_limit (requested_limit : Z) (step : Task) : Task :=
  if String.eqb (step_type step) "search" then
    if dict_mem "limit" (parameters step) then step
    else mkStep (step_type_key step) (description step)
                (dict_set "limit" (VInt requested_limit) (parameters step))
                (dependencies step)
  else step.

(** The plan [_plan_workflow] settles on, given what it got out of the
    language model ([parsed]) and out of the quantity extractor
    ([requested_limit]). *)
Definition planned (parsed : option Plan) (request : string)
    (requested_limit : option Z) : Plan :=
  let workflow_plan :=
    match parsed with
    | Some parsed => parsed
    | None => _create_smart_default_workflow request requested_limit
    end in
  if negb (nonempty workflow_plan) then
    _create_smart_default_workflow request requested_limit
  else
    match requested_limit with
    | Some z => if int_truthy (Some z) then map (inject_limit z) workflow_plan
                else workflow_plan
    | None => workflow_plan
    end.

(** [s.get("step_type", "unknown")], as the message of the planner reads
    it. *)
Definition step_type_shown (step : Task) : string :=
  match step_type_key step with
  | Some ty => ty
  | None => "unknown"
  end.

Section Loop.

Variable self : Orchestrator.

(** The planner calls the quantity extractor and the language model outside
    every [try]: an exception of either leaves the node. *)
Definition _plan_workflow (state : WorkflowState) : Exc WorkflowState :=
  match _extract_number (w2n_word_to_num self) (user_request state) with
  | Raised msg => Raised msg
  | Returned requested_limit =>
      match llm_plan self (user_request state) with
      | Raised msg => Raised msg
      | Returned parsed =>
          let workflow_plan :=
            planned parsed (user_request state) requested_limit in
          let state := set_workflow_plan workflow_plan state in
          let state := set_total_steps (List.length workflow_plan) state in
          let state := set_current_step 0 state in
          let step_types := map step_type_shown workflow_plan in
          Returned
            (set_messages
               (messages state
                ++ [AIMessage ("Workflow planned with "
                               ++ PyStr.str_of_nat (List.length workflow_plan)
                               ++ " steps: " ++ PyStr.join ", " step_types)%string])
               state)
      end
  end.

(** ** The execution loop *)

(** The cycle router, condition, node, router, ... from the router on; one
    unit of [fuel] pays for one pass through the router and the node after
    it.  The router returns the state, which is written back.  The
    condition is asked for the label only: the pointer it moves while it
    passes over steps with unmet dependencies is its own, and the node the
    label names receives the state the router left.  The first component
    lists the nodes that ran, in order. *)
Fixpoint run (fuel : nat) (state : WorkflowState) : list Visit * Outcome :=
  match fuel with
  | O => ([], OutOfFuel state)
  | S fuel' =>
      let state := write_back (_route_next_step state) in
      let '(label, _, _) := _should_continue state in
      match edge_for label conditional_edges with
      | None => ([], NoEdge label state)
      | Some END => ([], Ended state)
      | Some (ToNode n) =>
          match node_function self n state with
          | None => ([], IndexError state)
          | Some state' =>
              let '(visits, outcome) := run fuel' (write_back state') in
              (Executed (current_step state) n :: visits, outcome)
          end
      end
  end.

(** ** The entry point *)

(** [self.workflow.invoke]: the planner, then the loop.  [passes] is the
    number of passes through the router that the step limit of the graph
    library leaves room for; the library is not part of the repository. *)
Definition invoke (passes : nat) (initial_state : WorkflowState)
  : list Visit * Outcome :=
  match _plan_workflow initial_state with
  | Raised msg => ([], PlannerRaised msg initial_state)
  | Returned state => run passes (write_back state)
  end.

Definition initial_state (request : string) : WorkflowState :=
  mkState request [] 0 0 [] [] [] [] [] [] [] [] [] [HumanMessage request] [].

(** The dict [execute] returns. *)
Record ExecuteResult : Type := mkExecuteResult {
  success : bool;
  res_search_results : list PyVal;
  res_downloaded_data : Dict;
  res_processed_data : Dict;
  res_final_outputs : list string;
  res_visualizations : list string;
  res_analysis_results : Dict;
  res_errors : list string;
  res_messages : list Message
}.

Definition result_of (final_state : WorkflowState) : ExecuteResult :=
  mkExecuteResult
    (List.length (errors final_state) =? 0)
    (search_results final_state)
    (downloaded_data final_state)
    (processed_data final_state)
    (final_outputs final_state)
    (visualizations final_state)
    (analysis_results final_state)
    (errors final_state)
    (messages final_state).

(** [execute] has no [try]: it builds the result from the state [invoke]
    returns, and whatever [invoke] raises leaves it ([None]). *)
Definition execute (passes : nat) (request : string) : option ExecuteResult :=
  match snd (invoke passes (initial_state request)) with
  | Ended final_state => Some (result_of final_state)
  | _ => None
  end.

End Loop.

(** * Vocabulary of the statements *)

(** The character that stands before [post] in [pre ++ post], when [prev]
    stands before [pre]. *)
Fixpoint last_or (prev : option ascii) (pre : string) : option ascii :=
  match pre with
  | EmptyString => prev
  | String c r => last_or (Some c) r
  end.










(** The name a node is registered under. *)
Definition node_name (n : Node) : string :=
  match n with
  | search => "search"
  | download => "download"
  | spatial_query => "spatial_query"
  | transform => "transform"
  | process => "process"
  | analysis => "analysis"
  | visualization => "visualization"
  | export => "export"
  end.

Definition known_step_types : list string :=
  map node_name
      [search; download; spatial_query; transform; process; analysis;
       visualization; export].

(** The step type is one of the eight. *)
Definition known (step : Task) : bool :=
  existsb (String.eqb (step_type step)) known_step_types.

(** The agent a node calls, and the description it passes: the download
    node passes the user request, the others the description of the step. *)
Definition agent_of (self : Orchestrator) (n : Node) : Agent :=
  match n with
  | search => search_agent self
  | download => download_agent self
  | spatial_query => spatial_query_agent self
  | transform => transform_agent self
  | process => process_agent self
  | analysis => analysis_agent self
  | visualization => visualization_agent self
  | export => export_agent self
  end.

Definition task_description (n : Node) (state : WorkflowState) (step : Task)
  : string :=
  match n with
  | download => user_request state
  | _ => description step
  end.

(** A visit agrees with the plan: the step at the position has all its
    dependencies met and the type of the node that ran. *)
Definition visit_ok (plan : Plan) (v : Visit) : Prop :=
  match v with
  | Executed p n =>
      exists step, nth_error plan p = Some step
                   /\ all_deps_met p (dependencies step) = true
                   /\ step_type step = node_name n
  end.

(** The run stopped, at [END] or at a label without an edge. *)
Definition stopped_in (o : Outcome) (state : WorkflowState) : Prop :=
  o = Ended state
  \/ exists label, o = NoEdge label state
                   /\ edge_for label conditional_edges = None.

(** Every step from position [i] on has its dependencies met when the
    pointer reaches it. *)
Fixpoint deps_met_from (i : nat) (plan : Plan) : bool :=
  match plan with
  | [] => true
  | step :: rest => all_deps_met i (dependencies step) && deps_met_from (S i) rest
  end.

(** What a call of [_should_continue] establishes. *)
Record Routed (state : WorkflowState) (label : string) (state' : WorkflowState)
    (skipped : list nat) : Prop := mkRouted {
  routed_state : state' = set_current_step (current_step state') state;
  routed_le : current_step state <= current_step state';
  routed_skipped :
    skipped = seq (current_step state) (current_step state' - current_step state);
  routed_unmet : forall p, In p skipped ->
    exists step, nth_error (workflow_plan state) p = Some step
                 /\ all_deps_met p (dependencies step) = false;
  routed_label :
    match nth_error (workflow_plan state) (current_step state') with
    | Some step => all_deps_met (current_step state') (dependencies step) = true
                   /\ label = label_of step
    | None => label = "end"
    end
}.

Definition is_search (step : Task) : bool := String.eqb (step_type step) "search".
Definition is_download (step : Task) : bool := String.eqb (step_type step) "download".

(** A step of a known type other than [search]. *)
Definition later_step (step : Task) : bool := known step && negb (is_search step).

Definition hf_named_blob_url : string :=
  "https://github.com/org/huggingface.co/blob/main/datasets/a.csv".

(** The state a run stopped in, however it stopped. *)
Definition state_of_outcome (o : Outcome) : WorkflowState :=
  match o with
  | Ended state => state
  | NoEdge _ state => state
  | IndexError state => state
  | OutOfFuel state => state
  | PlannerRaised _ state => state
  end.

(** [l] can be obtained from [canon] by dropping elements. *)
Fixpoint is_subsequence (l canon : list string) : bool :=
  match canon with
  | [] => match l with [] => true | _ => false end
  | y :: canon' =>
      match l with
      | [] => true
      | x :: l' =>
          if String.eqb x y then is_subsequence l' canon'
          else is_subsequence l canon'
      end
  end.

(** Every character of [s] is allowed in the body of a URL. *)
Fixpoint all_url_chars (s : string) : bool :=
  match s with
  | EmptyString => true
  | String c r => Re.is_url_char c && all_url_chars r
  end.

(** The character at the head of [s], if any, is no URL character. *)
Definition url_stops_at (s : string) : bool :=
  match s with
  | EmptyString => true
  | String c _ => negb (Re.is_url_char c)
  end.

(** Every step at position [i], [i + 1], ... of [plan] names at most one
    dependency, and that one lies from 0 up to just below the position. *)
Fixpoint backward_deps (i : nat) (plan : Plan) : bool :=
  match plan with
  | [] => true
  | step :: rest =>
      match dependencies step with
      | [] => true
      | [d] => (0 <=? d)%Z && (d <? Z.of_nat i)%Z
      | _ => false
      end
      && backward_deps (S i) rest
  end.

(** A download step carries the limit [min(default_limit, 5)]. *)
Definition download_limit_ok (hint : option Z) (step : Task) : Prop :=
  is_download step = true ->
  dict_get "limit" (parameters step)
  = Some (VInt (Z.min (default_limit hint) 5)).

(** What the blocks of the builder keep true of the list they extend: its
    step types come in the order of [canon], its dependencies point
    backwards, and its download steps carry the download limit. *)
Definition well_formed (hint : option Z) (canon : list string) (workflow : Plan)
  : Prop :=
  is_subsequence (map step_type workflow) canon = true
  /\ backward_deps 0 workflow = true
  /\ Forall (download_limit_ok hint) workflow.

(** The artifact a processing node reads from the result dict of its agent,
    and the key it stores it under at position [p]. *)
Definition artifact_of (n : Node) (results : Results) : option PyVal :=
  match n with
  | spatial_query => r_filtered_data results
  | transform => r_transformed_data results
  | process => r_processed_data results
  | _ => None
  end.

Definition processed_key (n : Node) (p : nat) : string :=
  (node_name n ++ "_" ++ PyStr.str_of_nat p)%string.

Definition is_processing_node (n : Node) : bool :=
  match n with
  | spatial_query | transform | process => true
  | _ => false
  end.

(** The visits in which node [n] ran. *)
Definition executed_by (n : Node) (v : Visit) : bool :=
  match v with
  | Executed _ m => String.eqb (node_name m) (node_name n)
  end.

(** An agent of the orchestrator that raises on every call, and an
    orchestrator none of whose agents ever raises. *)
Definition always_raises (self : Orchestrator) (n : Node) : Prop :=
  forall task params state, exists msg,
    agent_of self n task params state = Raised msg.

Definition never_raises (self : Orchestrator) : Prop :=
  forall n task params state, exists results,
    agent_of self n task params state = Returned results.

(** The name of the node a visit ran. *)
Definition visit_step (v : Visit) : string :=
  match v with
  | Executed _ n => node_name n
  end.

Definition is_processing_visit (v : Visit) : bool :=
  match v with
  | Executed _ n => is_processing_node n
  end.

(** ** Instances for the examples *)

Module Demo.

Definition no_results : Results :=
  mkResults None None None None None None None None.

(** An agent that returns an empty result dict. *)
Definition quiet_agent : Agent := fun _ _ _ => Returned no_results.

(** An agent that raises. *)
Definition failing_agent : Agent := fun _ _ _ => Raised "connection refused".

(** An orchestrator whose eight agents all behave like [agent], whose
    language model yields [reply] for every request, and without the
    [word2number] package. *)
Definition orchestrator (agent : Agent) (reply : option Plan) : Orchestrator :=
  mkOrchestrator agent agent agent agent agent agent agent agent
                 (fun _ => Returned reply) None.

(** The second step refers to the step after it. *)
Definition plan_forward : Plan :=
  [ mkTask "search" "find flood data" [] [];
    mkTask "download" "fetch it" [] [2%Z];
    mkTask "visualization" "draw it" [] [0%Z] ].

(** The second step has a type outside the eight.  No step names a
    dependency, as in a reply of the language model that holds no inner
    list. *)
Definition plan_unknown : Plan :=
  [ mkTask "search" "find tiles" [] [];
    mkTask "classify" "label the tiles" [] [];
    mkTask "export" "write them" [] [] ].

Definition state_of (plan : Plan) : WorkflowState :=
  mkState "demo request" plan 0 (List.length plan)
          [] [] [] [] [] [] [] [] [] [HumanMessage "demo request"] [].

(** An agent whose result dict holds one search result. *)
Definition finding_agent : Agent :=
  fun _ _ _ => Returned (mkResults (Some [VStr "tile-1"]) None None None None
                                   None None None).

(** An agent that raises with the task description it was given as the
    message. *)
Definition echo_agent : Agent := fun task _ _ => Raised task.

(** The second and last step names a step that does not exist. *)
Definition plan_trailing : Plan :=
  [ mkTask "search" "find tiles" [] [];
    mkTask "download" "fetch them" [] [5%Z] ].

(** A converter that fails on [thousand one] with an exception other than
    [ValueError], and rejects every other phrase. *)
Definition indexing_converter (phrase : string) : Conversion :=
  if String.eqb phrase "thousand one" then OtherError "list index out of range"
  else ValueError.

(** The orchestrator [orchestrator agent reply] with a converter. *)
Definition orchestrator_with (agent : Agent) (reply : option Plan)
    (converter : string -> Conversion) : Orchestrator :=
  mkOrchestrator agent agent agent agent agent agent agent agent
                 (fun _ => Returned reply) (Some converter).

(** A converter that knows two words, as [word2number] reads them, and
    rejects every other phrase. *)
Definition word_to_num (phrase : string) : Conversion :=
  if String.eqb phrase "eleven" then Converted 11%Z
  else if String.eqb phrase "twelve" then Converted 12%Z
  else ValueError.

End Demo.

(** * Properties *)

(** ** The quantity extractor *)




Lemma last_or_app : forall pre prev c,
  last_or prev (pre ++ String c EmptyString) = Some c.
Proof. induction pre as [|a pre IH]; intros prev c; cbn; auto. Qed.

(** The first text [findall] returns is matched at the leftmost position
    where the matcher accepts; [findall] returns nothing only if the matcher
    accepts nowhere. *)
Lemma scan_leftmost : forall (m : option ascii -> string -> option string) s prev,
  match Re.scan m 0 prev s with
  | tok :: _ =>
      exists pre post,
        s = (pre ++ post)%string
        /\ m (last_or prev pre) post = Some tok
        /\ forall pre' post',
             s = (pre' ++ post')%string ->
             String.length pre' < String.length pre ->
             m (last_or prev pre') post' = None
  | [] =>
      forall pre post,
        s = (pre ++ post)%string -> post <> EmptyString ->
        m (last_or prev pre) post = None
  end.
Proof.
  intros m. induction s as [|c r IH]; intros prev; cbn [Re.scan].
  - intros pre post H Hne. destruct pre; cbn in H; [congruence|discriminate].
  - destruct (m prev (String c r)) as [tok|] eqn:Hm.
    + exists EmptyString, (String c r). split; [reflexivity|]. split; [exact Hm|].
      intros pre' post' _ Hlt. cbn in Hlt. lia.
    + specialize (IH (Some c)).
      destruct (Re.scan m 0 (Some c) r) as [|tok rest].
      * intros pre post H Hne. destruct pre as [|a pre]; cbn in H.
        -- subst post. exact Hm.
        -- injection H as <- H. cbn. apply IH; assumption.
      * destruct IH as [pre [post [Hs [Hmatch Hfirst]]]].
        exists (String c pre), post. split; [cbn; congruence|].
        split; [exact Hmatch|].
        intros pre' post' H Hlt. destruct pre' as [|a pre']; cbn in H.
        -- subst post'. exact Hm.
        -- injection H as <- H. cbn. apply Hfirst; [exact H|cbn in Hlt; lia].
Qed.

(** Every text [findall] returns is matched somewhere in the text. *)
Lemma scan_occurrence : forall (m : option ascii -> string -> option string)
    s skip prev,
  Forall (fun tok => exists pre post,
            s = (pre ++ post)%string /\ m (last_or prev pre) post = Some tok)
         (Re.scan m skip prev s).
Proof.
  intros m. induction s as [|c r IH]; intros skip prev; cbn [Re.scan].
  - constructor.
  - assert (Hshift : forall k,
              Forall (fun tok => exists pre post,
                        String c r = (pre ++ post)%string
                        /\ m (last_or prev pre) post = Some tok)
                     (Re.scan m k (Some c) r)).
    { intros k. eapply Forall_impl; [|apply (IH k (Some c))].
      cbn. intros tok [pre [post [-> H]]]. exists (String c pre), post. auto. }
    destruct skip as [|k]; [|apply Hshift].
    destruct (m prev (String c r)) as [tok|] eqn:Hm; [|apply Hshift].
    constructor; [|apply Hshift].
    exists EmptyString, (String c r). auto.
Qed.






(** ** Matches and words *)















(** Three number words that stand together, and a fourth behind them. *)
Example number_str_takes_three :
  number_str "show one hundred twenty five maps" = Some "one hundred twenty".
Proof. reflexivity. Qed.


(** ** The heuristic builder *)

Lemma nonempty_app_r : forall (A : Type) (l : list A) (x : A),
  nonempty (l ++ [x]) = true.
Proof. intros A [|a l] x; reflexivity. Qed.

(** Every block after the first appends steps to the list and leaves what
    is there; none of them appends a search step. *)
Lemma add_download_appends : forall req hint workflow,
  exists ext, add_download req hint workflow = workflow ++ ext
              /\ forallb later_step ext = true.
Proof.
  intros. unfold add_download.
  destruct (any_keyword download_keywords (request_lower req) || has_url req).
  - eexists. split; reflexivity.
  - exists []. rewrite app_nil_r. auto.
Qed.

Lemma add_process_appends : forall req workflow,
  exists ext, add_process req workflow = workflow ++ ext
              /\ forallb later_step ext = true.
Proof.
  intros. unfold add_process.
  destruct (any_keyword process_keywords (request_lower req)).
  - eexists. split; reflexivity.
  - exists []. rewrite app_nil_r. auto.
Qed.

Lemma add_visualization_appends : forall req hint workflow,
  exists ext, add_visualization req hint workflow = workflow ++ ext
              /\ forallb later_step ext = true.
Proof.
  intros. unfold add_visualization.
  destruct (any_keyword viz_keywords (request_lower req)).
  - cbv zeta.
    destruct (negb (any_step_of ["download"; "process"; "analysis"] workflow)
              && negb (has_url req)).
    + rewrite <- app_assoc. eexists. split; reflexivity.
    + eexists. split; reflexivity.
  - exists []. rewrite app_nil_r. auto.
Qed.

Lemma add_export_appends : forall req hint workflow,
  exists ext, add_export req hint workflow = workflow ++ ext
              /\ forallb later_step ext = true.
Proof.
  intros. unfold add_export.
  destruct (any_keyword export_keywords (request_lower req)).
  - cbv zeta.
    destruct (negb (any_step_of ["download"; "process"; "analysis"; "visualization"]
                      workflow)
              && negb (has_url req)).
    + rewrite <- app_assoc. eexists. split; reflexivity.
    + eexists. split; reflexivity.
  - exists []. rewrite app_nil_r. auto.
Qed.

Lemma add_late_download_appends : forall req hint workflow,
  exists ext, add_late_download req hint workflow = workflow ++ ext
              /\ forallb later_step ext = true.
Proof.
  intros. unfold add_late_download.
  destruct (negb (nonempty workflow)
            || (List.length workflow =? 1) && first_is "search" workflow);
    [destruct (PyStr.contains "download" (request_lower req))|].
  - eexists. split; reflexivity.
  - exists []. rewrite app_nil_r. auto.
  - exists []. rewrite app_nil_r. auto.
Qed.

(** The list after the six blocks: what the first block put there, then
    steps that are not search steps. *)
Lemma built_workflow_shape : forall req hint,
  exists ext,
    built_workflow req hint = add_search req hint [] ++ ext
    /\ forallb later_step ext = true.
Proof.
  intros req hint. unfold built_workflow.
  destruct (add_download_appends req hint (add_search req hint [])) as [e1 [-> H1]].
  destruct (add_process_appends req (add_search req hint [] ++ e1)) as [e2 [-> H2]].
  destruct (add_visualization_appends req hint ((add_search req hint [] ++ e1) ++ e2))
    as [e3 [-> H3]].
  destruct (add_export_appends req hint
              (((add_search req hint [] ++ e1) ++ e2) ++ e3)) as [e4 [-> H4]].
  destruct (add_late_download_appends req hint
              ((((add_search req hint [] ++ e1) ++ e2) ++ e3) ++ e4)) as [e5 [-> H5]].
  exists (e1 ++ e2 ++ e3 ++ e4 ++ e5).
  split.
  - repeat rewrite <- app_assoc. reflexivity.
  - repeat rewrite forallb_app. rewrite H1, H2, H3, H4, H5. reflexivity.
Qed.

(** Without the opening search step the download block fires: the list is
    not empty when the six blocks are done. *)
Lemma built_workflow_nonempty : forall req hint,
  nonempty (built_workflow req hint) = true.
Proof.
  intros req hint.
  assert (H : nonempty (add_download req hint (add_search req hint [])) = true).
  { unfold add_search, add_download, wants_search.
    destruct (has_url req) eqn:Hurl; cbn [negb andb orb].
    - rewrite orb_true_r. apply nonempty_app_r.
    - unfold any_keyword, download_keywords. cbn [existsb].
      destruct (PyStr.contains "download" (request_lower req)); cbn [negb orb].
      + destruct (PyStr.contains "search" (request_lower req)); apply nonempty_app_r.
      + destruct (_ || _); reflexivity. }
  unfold built_workflow.
  assert (Hgrow : forall (l e : Plan), nonempty l = true -> nonempty (l ++ e) = true)
    by (intros [|a l] e Hl; [discriminate|reflexivity]).
  destruct (add_late_download_appends req hint
    (add_export req hint (add_visualization req hint
       (add_process req (add_download req hint (add_search req hint []))))))
    as [e5 [-> _]].
  destruct (add_export_appends req hint (add_visualization req hint
       (add_process req (add_download req hint (add_search req hint [])))))
    as [e4 [-> _]].
  destruct (add_visualization_appends req hint
       (add_process req (add_download req hint (add_search req hint []))))
    as [e3 [-> _]].
  destruct (add_process_appends req (add_download req hint (add_search req hint [])))
    as [e2 [-> _]].
  repeat apply Hgrow. exact H.
Qed.

(** The two closing returns of the builder are never taken: the result is
    the list the six blocks built. *)
Lemma _create_smart_default_workflow_built : forall req hint,
  _create_smart_default_workflow req hint = built_workflow req hint.
Proof.
  intros req hint. unfold _create_smart_default_workflow. cbv zeta.
  rewrite built_workflow_nonempty. cbn [negb]. rewrite andb_false_r. reflexivity.
Qed.

Lemma later_step_known : forall ext,
  forallb later_step ext = true -> forallb known ext = true.
Proof.
  intros ext H. rewrite forallb_forall in *. intros step Hin.
  specialize (H step Hin). unfold later_step in H.
  apply andb_true_iff in H. tauto.
Qed.

Lemma later_step_no_search : forall ext,
  forallb later_step ext = true -> existsb is_search ext = false.
Proof.
  induction ext as [|step ext IH]; cbn; [reflexivity|].
  intros H. apply andb_true_iff in H. destruct H as [H1 H2].
  unfold later_step in H1. apply andb_true_iff in H1. destruct H1 as [_ H1].
  apply negb_true_iff in H1. rewrite H1. cbn. auto.
Qed.

(** Every step the builder emits has one of the eight types. *)
Lemma _create_smart_default_workflow_known : forall req hint,
  forallb known (_create_smart_default_workflow req hint) = true.
Proof.
  intros req hint. rewrite _create_smart_default_workflow_built.
  destruct (built_workflow_shape req hint) as [ext [-> Hext]].
  rewrite forallb_app, (later_step_known _ Hext), andb_true_r.
  unfold add_search. destruct (wants_search req); reflexivity.
Qed.

(** With a URL in the request the list opens with the download step of the
    second block, and no later block adds another download step. *)
Lemma built_workflow_with_url : forall req hint,
  has_url req = true ->
  exists rest,
    built_workflow req hint
    = mkTask "download" "Download from URL"
        [("limit", VInt (Z.min (default_limit hint) 5));
         ("url", url_value (converted_urls_checked req));
         ("urls", VList (map VStr (converted_urls_checked req)))]
        [] :: rest
    /\ existsb is_download rest = false.
Proof.
  intros req hint Hurl. unfold built_workflow.
  set (dl := mkTask "download" "Download from URL"
        [("limit", VInt (Z.min (default_limit hint) 5));
         ("url", url_value (converted_urls_checked req));
         ("urls", VList (map VStr (converted_urls_checked req)))] []).
  assert (H0 : add_download req hint (add_search req hint []) = [dl]).
  { unfold add_search, add_download, wants_search. rewrite Hurl.
    cbn [negb andb]. rewrite orb_true_r. reflexivity. }
  rewrite H0.
  assert (Hdata : forall kinds r,
            any_step_of ("download" :: kinds) (dl :: r) = true) by reflexivity.
  assert (H1 : exists r1, add_process req [dl] = dl :: r1
                          /\ existsb is_download r1 = false).
  { unfold add_process. destruct (any_keyword process_keywords (request_lower req)).
    - eexists. split; reflexivity.
    - exists []. auto. }
  destruct H1 as [r1 [-> Hr1]].
  assert (H2 : exists r2, add_visualization req hint (dl :: r1) = dl :: r2
                          /\ existsb is_download r2 = false).
  { unfold add_visualization. cbv zeta. rewrite Hdata. cbn [negb andb].
    destruct (any_keyword viz_keywords (request_lower req)).
    - exists (r1 ++ [mkTask "visualization" "Create visualization of the results" []
                            (dep_on_last (dl :: r1))]).
      split; [reflexivity|]. rewrite existsb_app, Hr1. reflexivity.
    - exists r1. auto. }
  destruct H2 as [r2 [-> Hr2]].
  assert (H3 : exists r3, add_export req hint (dl :: r2) = dl :: r3
                          /\ existsb is_download r3 = false).
  { unfold add_export. cbv zeta. rewrite Hdata. cbn [negb andb].
    destruct (any_keyword export_keywords (request_lower req)).
    - exists (r2 ++ [mkTask "export" "Export the results" [("format", VStr "geojson")]
                            (dep_on_last (dl :: r2))]).
      split; [reflexivity|]. rewrite existsb_app, Hr2. reflexivity.
    - exists r2. auto. }
  destruct H3 as [r3 [-> Hr3]].
  exists r3. split; [|exact Hr3].
  unfold add_late_download. cbn [nonempty negb orb first_is].
  replace (String.eqb (step_type dl) "search") with false by reflexivity.
  rewrite andb_false_r. reflexivity.
Qed.

(** The builder on three requests. *)
Example builder_search_only :
  _create_smart_default_workflow "Search for elevation datasets" None
  = [ mkTask "search"
        "Search for geospatial datasets related to: Search for elevation datasets"
        [("query", VStr "Search for elevation datasets"); ("limit", VInt 10)] [] ].
Proof. vm_compute. reflexivity. Qed.

Example builder_url_only :
  _create_smart_default_workflow "Download https://example.com/data.zip" None
  = [ mkTask "download" "Download from URL"
        [("limit", VInt 5); ("url", VStr "https://example.com/data.zip");
         ("urls", VList [VStr "https://example.com/data.zip"])] [] ].
Proof. vm_compute. reflexivity. Qed.

Example builder_three_steps :
  map (fun step => (step_type step, dependencies step))
      (_create_smart_default_workflow
         "Search, download, and process elevation data" None)
  = [("search", []); ("download", [0%Z]); ("process", [1%Z])].
Proof. vm_compute. reflexivity. Qed.

(** The planner never settles on an empty plan. *)
Lemma planned_nonempty : forall parsed request hint,
  nonempty (planned parsed request hint) = true.
Proof.
  intros parsed request hint. unfold planned. cbv zeta.
  assert (Hb : nonempty (_create_smart_default_workflow request hint) = true).
  { rewrite _create_smart_default_workflow_built. apply built_workflow_nonempty. }
  set (wp := match parsed with
             | Some parsed => parsed
             | None => _create_smart_default_workflow request hint
             end).
  destruct (nonempty wp) eqn:Hwp; cbn [negb]; [|exact Hb].
  destruct hint as [z|]; [|exact Hwp].
  destruct (int_truthy (Some z)); [|exact Hwp].
  destruct wp; [discriminate|reflexivity].
Qed.

(** C6. For every request text, the empty one included, and every optional
    quantity hint, the heuristic builder returns a plan with at least one
    step; so does the planner, which falls back on the builder when the
    parsed plan is missing or empty. *)
Theorem C6_builder_returns_a_step : forall req hint,
  (exists first rest, _create_smart_default_workflow req hint = first :: rest)
  /\ (forall parsed limit,
        exists first rest, planned parsed req limit = first :: rest)
  /\ (forall self state state',
        user_request state = req ->
        _plan_workflow self state = Returned state' ->
        exists first rest, workflow_plan state' = first :: rest).
Proof.
  intros req hint.
  assert (Hplanned : forall parsed limit,
            exists first rest, planned parsed req limit = first :: rest).
  { intros parsed limit. pose proof (planned_nonempty parsed req limit) as H.
    destruct (planned parsed req limit) as [|first rest]; [discriminate|eauto]. }
  split; [|split; [exact Hplanned|]].
  - rewrite _create_smart_default_workflow_built.
    pose proof (built_workflow_nonempty req hint) as H.
    destruct (built_workflow req hint) as [|first rest]; [discriminate|eauto].
  - intros self state state' Hreq Hplan. unfold _plan_workflow in Hplan.
    rewrite Hreq in Hplan.
    destruct (_extract_number (w2n_word_to_num self) req) as [limit|];
      [|discriminate].
    destruct (llm_plan self req) as [parsed|]; [|discriminate].
    injection Hplan as <-. destruct state; cbn. apply Hplanned.
Qed.

(** C7, amended. The builder opens the plan with a search step exactly when
    the request holds no URL and its lower-cased text either lacks the word
    [download] or holds the word [search]; the other download words do not
    count.  No other step of the plan is a search step.  The search step has
    the whole request as its [query]; its [limit] is always set: to the hint
    when there is one other than zero, to 10 otherwise. *)
Theorem C7_search_step_rule : forall req hint,
  let plan := _create_smart_default_workflow req hint in
  let opens :=
    negb (nonempty (_extract_urls req))
    && (negb (PyStr.contains "download" (PyStr.lower req))
        || PyStr.contains "search" (PyStr.lower req)) in
  first_is "search" plan = opens
  /\ existsb is_search (tl plan) = false
  /\ (opens = true ->
      exists first rest,
        plan = first :: rest
        /\ step_type first = "search"
        /\ dependencies first = []
        /\ dict_get "query" (parameters first) = Some (VStr req)
        /\ dict_get "limit" (parameters first)
           = Some (VInt match hint with
                        | Some z => if (z =? 0)%Z then 10%Z else z
                        | None => 10%Z
                        end)).
Proof.
  intros req hint. cbv zeta.
  rewrite _create_smart_default_workflow_built.
  destruct (built_workflow_shape req hint) as [ext [Hshape Hext]].
  pose proof (built_workflow_nonempty req hint) as Hne.
  rewrite Hshape in *. clear Hshape.
  fold (urls req) (has_url req) (request_lower req) (wants_search req).
  unfold add_search in *.
  destruct (wants_search req) eqn:Hw.
  - cbn [app first_is tl]. split; [reflexivity|].
    split; [exact (later_step_no_search _ Hext)|].
    intros _. exists (search_step req hint), ext.
    repeat (split; [reflexivity|]).
    unfold search_step, default_limit, int_truthy. cbn.
    destruct hint as [z|]; [destruct (z =? 0)%Z|]; reflexivity.
  - cbn [app] in *. split; [|split; [|discriminate]].
    + destruct ext as [|step ext]; [discriminate|].
      cbn [forallb] in Hext. apply andb_true_iff in Hext. destruct Hext as [H1 _].
      unfold later_step in H1. apply andb_true_iff in H1. destruct H1 as [_ H1].
      apply negb_true_iff in H1. exact H1.
    + destruct ext as [|step ext]; [reflexivity|].
      cbn [forallb] in Hext. apply andb_true_iff in Hext. destruct Hext as [_ H2].
      exact (later_step_no_search _ H2).
Qed.

(** C7 as stated fails: [get data] holds a download word and no [search],
    and the plan still opens with a search step; without a hint that step
    has the limit 10. *)
Lemma C7_counterexample :
  _extract_urls "get data" = []
  /\ any_keyword download_keywords (PyStr.lower "get data") = true
  /\ PyStr.contains "search" (PyStr.lower "get data") = false
  /\ first_is "search" (_create_smart_default_workflow "get data" None) = true
  /\ map (fun step => dict_get "limit" (parameters step))
         (firstn 1 (_create_smart_default_workflow "get data" None))
     = [Some (VInt 10)].
Proof. repeat split; reflexivity. Qed.

(** C9. For the request [Create a map of 7 flood datasets] the extractor
    yields 7, and with that hint the builder returns three steps: a search
    step with limit 7, the download step inserted in front of the
    visualization (no data step precedes it) depending on the search step,
    and the visualization step depending on that download step. *)
Theorem C9_map_of_seven_flood_datasets :
  (forall w2n,
     _extract_number w2n "Create a map of 7 flood datasets" = Returned (Some 7%Z))
  /\ _create_smart_default_workflow "Create a map of 7 flood datasets" (Some 7%Z)
     = [ mkTask "search"
           "Search for geospatial datasets related to: Create a map of 7 flood datasets"
           [("query", VStr "Create a map of 7 flood datasets"); ("limit", VInt 7)]
           [];
         mkTask "download" "Download datasets needed for visualization"
           [("limit", VInt 5)] [0%Z];
         mkTask "visualization" "Create visualization of the results" [] [1%Z] ]
  /\ any_step_of ["download"; "process"; "analysis"]
       (add_process "Create a map of 7 flood datasets"
          (add_download "Create a map of 7 flood datasets" (Some 7%Z)
             (add_search "Create a map of 7 flood datasets" (Some 7%Z) [])))
     = false.
Proof.
  split; [|split].
  - intros w2n. reflexivity.
  - vm_compute. reflexivity.
  - vm_compute. reflexivity.
Qed.

(** C10, amended. When the request holds URLs the plan opens with a download
    step that carries them and no other step is a download step.  A URL that
    is recognised as a HuggingFace dataset URL is carried unchanged, also
    when it is a GitHub blob URL; any other URL that holds [github.com] and
    [/blob/] and does not end in a slash is carried with every [github.com]
    replaced by [raw.githubusercontent.com] and every [/blob/] by a slash;
    all remaining URLs are carried unchanged. *)
Theorem C10_url_attached_to_download : forall req hint u us,
  _extract_urls req = u :: us ->
  (exists rest,
     _create_smart_default_workflow req hint
     = mkTask "download" "Download from URL"
         [("limit", VInt (Z.min (default_limit hint) 5));
          ("url", url_value (map attached_url (u :: us)));
          ("urls", VList (map VStr (map attached_url (u :: us))))]
         [] :: rest
     /\ existsb is_download rest = false)
  /\ (forall url, _is_huggingface_url url = true -> attached_url url = url)
  /\ (forall url,
        _is_huggingface_url url = false ->
        PyStr.contains "github.com" url = true ->
        PyStr.contains "/blob/" url = true ->
        PyStr.endswith "/" url = false ->
        attached_url url
        = PyStr.replace "/blob/" "/"
            (PyStr.replace "github.com" "raw.githubusercontent.com" url))
  /\ (forall url,
        PyStr.contains "github.com" url && PyStr.contains "/blob/" url
        && negb (PyStr.endswith "/" url) = false ->
        attached_url url = url).
Proof.
  intros req hint u us Hurls. split; [|split; [|split]].
  - rewrite _create_smart_default_workflow_built.
    destruct (built_workflow_with_url req hint) as [rest [Hplan Hrest]].
    + unfold has_url, urls. rewrite Hurls. reflexivity.
    + exists rest. split; [|exact Hrest].
      rewrite Hplan. unfold converted_urls_checked, urls. rewrite Hurls. reflexivity.
  - intros url H. unfold attached_url. rewrite H. reflexivity.
  - intros url Hhf Hgh Hblob Hend. unfold attached_url, _convert_github_blob_url.
    rewrite Hhf, Hgh, Hblob, Hend. reflexivity.
  - intros url H. unfold attached_url, _convert_github_blob_url.
    destruct (_is_huggingface_url url); [reflexivity|].
    destruct (PyStr.contains "github.com" url && PyStr.contains "/blob/" url);
      [|reflexivity].
    cbn [andb] in H. apply negb_false_iff in H. rewrite H. reflexivity.
Qed.

(** C10 at a request with one GitHub blob URL, which is rewritten. *)
Lemma C10_witness :
  _extract_urls "download https://github.com/u/r/blob/main/a.csv"
  = ["https://github.com/u/r/blob/main/a.csv"]
  /\ exists rest,
       _create_smart_default_workflow
         "download https://github.com/u/r/blob/main/a.csv" None
       = mkTask "download" "Download from URL"
           [("limit", VInt 5);
            ("url", VStr "https://raw.githubusercontent.com/u/r/main/a.csv");
            ("urls", VList [VStr "https://raw.githubusercontent.com/u/r/main/a.csv"])]
           [] :: rest
       /\ existsb is_download rest = false.
Proof.
  split; [reflexivity|].
  exact (proj1 (C10_url_attached_to_download
                  "download https://github.com/u/r/blob/main/a.csv" None
                  "https://github.com/u/r/blob/main/a.csv" [] eq_refl)).
Defined.

(** C10 as stated fails: a GitHub blob URL of a file that also holds
    [huggingface.co] and [/datasets/] is carried as it is. *)
Lemma C10_counterexample :
  PyStr.contains "github.com" hf_named_blob_url = true
  /\ PyStr.contains "/blob/" hf_named_blob_url = true
  /\ PyStr.endswith "/" hf_named_blob_url = false
  /\ _extract_urls ("download " ++ hf_named_blob_url) = [hf_named_blob_url]
  /\ map (fun step => dict_get "url" (parameters step))
         (_create_smart_default_workflow ("download " ++ hf_named_blob_url) None)
     = [Some (VStr hf_named_blob_url)].
Proof. repeat split; vm_compute; reflexivity. Qed.

(** ** The router condition *)

Lemma set_current_step_same : forall state,
  set_current_step (current_step state) state = state.
Proof. intros []; reflexivity. Qed.

Lemma set_current_step_twice : forall a b state,
  set_current_step a (set_current_step b state) = set_current_step a state.
Proof. intros a b []; reflexivity. Qed.

(** The equation of the source: past the plan the label is [end]; a step
    with an unmet dependency moves the pointer and asks again; otherwise the
    label is the step type, or [end] for an empty one. *)
Lemma _should_continue_unfold : forall state,
  _should_continue state =
    let current := current_step state in
    match nth_error (workflow_plan state) current with
    | None => ("end", state, [])
    | Some step =>
        if negb (all_deps_met current (dependencies step)) then
          let '(label, state', skipped) :=
            _should_continue (set_current_step (current + 1) state) in
          (label, state', current :: skipped)
        else (label_of step, state, [])
    end.
Proof.
  intros state. unfold _should_continue. cbv zeta.
  destruct (nth_error (workflow_plan state) (current_step state)) as [step|] eqn:E.
  - assert (Hlt : current_step state < List.length (workflow_plan state))
      by (apply nth_error_Some; congruence).
    destruct (List.length (workflow_plan state) - current_step state)
      as [|k] eqn:Ek; [lia|].
    cbn [should_continue_from]. rewrite E.
    replace (List.length (workflow_plan (set_current_step (current_step state + 1) state))
             - current_step (set_current_step (current_step state + 1) state))
      with k by (destruct state; cbn in *; lia).
    reflexivity.
  - destruct (List.length (workflow_plan state) - current_step state);
      cbn [should_continue_from]; [reflexivity | rewrite E; reflexivity].
Qed.

Lemma should_continue_from_routed : forall remaining state,
  match should_continue_from remaining state with
  | (label, state', skipped) =>
      remaining = List.length (workflow_plan state) - current_step state ->
      Routed state label state' skipped
  end.
Proof.
  induction remaining as [|k IH]; intros state.
  - cbn. intros Hk. constructor.
    + symmetry. apply set_current_step_same.
    + lia.
    + rewrite Nat.sub_diag. reflexivity.
    + intros p [].
    + destruct (nth_error (workflow_plan state) (current_step state)) eqn:E; auto.
      assert (current_step state < List.length (workflow_plan state))
        by (apply nth_error_Some; congruence). lia.
  - cbn [should_continue_from].
    destruct (nth_error (workflow_plan state) (current_step state)) as [step|] eqn:E.
    + destruct (all_deps_met (current_step state) (dependencies step)) eqn:Hdeps;
        cbn [negb].
      * intros _. constructor.
        -- symmetry. apply set_current_step_same.
        -- lia.
        -- rewrite Nat.sub_diag. reflexivity.
        -- intros p [].
        -- rewrite E. auto.
      * specialize (IH (set_current_step (current_step state + 1) state)).
        destruct (should_continue_from k
                    (set_current_step (current_step state + 1) state))
          as [[label state'] skipped].
        intros Hk.
        assert (Hplan : workflow_plan (set_current_step (current_step state + 1) state)
                        = workflow_plan state) by (destruct state; reflexivity).
        assert (Hcur : current_step (set_current_step (current_step state + 1) state)
                       = current_step state + 1) by (destruct state; reflexivity).
        rewrite Hplan, Hcur in IH.
        destruct IH as [Hs Hle Hsk Hun Hlab]; [lia|].
        constructor.
        -- rewrite Hs at 1. apply set_current_step_twice.
        -- lia.
        -- rewrite Hsk.
           replace (current_step state' - current_step state)
             with (S (current_step state' - (current_step state + 1))) by lia.
           cbn [seq]. rewrite Nat.add_1_r. reflexivity.
        -- intros p [<-|Hin]; [exists step; auto | apply Hun, Hin].
        -- exact Hlab.
    + intros _. constructor.
      * symmetry. apply set_current_step_same.
      * lia.
      * rewrite Nat.sub_diag. reflexivity.
      * intros p [].
      * rewrite E. reflexivity.
Qed.

Lemma _should_continue_routed : forall state label state' skipped,
  _should_continue state = (label, state', skipped) ->
  Routed state label state' skipped.
Proof.
  intros state label state' skipped H.
  pose proof (should_continue_from_routed
                (List.length (workflow_plan state) - current_step state) state) as R.
  unfold _should_continue in H. rewrite H in R. apply R. reflexivity.
Qed.

(** The condition changes nothing but the pointer. *)
Lemma routed_fields : forall state label state' skipped,
  Routed state label state' skipped ->
  workflow_plan state' = workflow_plan state
  /\ errors state' = errors state
  /\ messages state' = messages state.
Proof.
  intros state label state' skipped [Hs _ _ _ _].
  rewrite Hs. destruct state; cbn. auto.
Qed.

(** The skip branch never carries the pointer past the end of the plan. *)
Lemma routed_inside : forall state label state' skipped,
  Routed state label state' skipped ->
  current_step state <= List.length (workflow_plan state) ->
  current_step state' <= List.length (workflow_plan state).
Proof.
  intros state label state' skipped R Hle.
  destruct (Nat.le_gt_cases (current_step state') (List.length (workflow_plan state)))
    as [|Hgt]; [assumption|].
  destruct (routed_unmet _ _ _ _ R (current_step state' - 1)) as [step [Hnth _]].
  - rewrite (routed_skipped _ _ _ _ R). apply in_seq. lia.
  - assert (current_step state' - 1 < List.length (workflow_plan state))
      by (apply nth_error_Some; congruence). lia.
Qed.

(** The skip branch stops at the latest at a position whose dependencies are
    met. *)
Lemma routed_not_past : forall state label state' skipped p step,
  Routed state label state' skipped ->
  nth_error (workflow_plan state) p = Some step ->
  all_deps_met p (dependencies step) = true ->
  current_step state <= p ->
  current_step state' <= p.
Proof.
  intros state label state' skipped p step R Hnth Hmet Hle.
  destruct (Nat.le_gt_cases (current_step state') p) as [|Hgt]; [assumption|].
  destruct (routed_unmet _ _ _ _ R p) as [step' [Hnth' Hun]].
  - rewrite (routed_skipped _ _ _ _ R). apply in_seq. lia.
  - congruence.
Qed.

(** ** The nodes *)

(** Case analysis on the innermost scrutinee of the goal. *)
Ltac break_match :=
  match goal with
  | |- context [match ?x with _ => _ end] =>
      lazymatch x with
      | context [match _ with _ => _ end] => fail
      | _ => destruct x eqn:?
      end
  end.

(** A node whose pointer is inside the plan returns, keeps the plan and moves
    the pointer by exactly one, whatever its agent does. *)
Lemma node_function_advances : forall self n state step,
  nth_error (workflow_plan state) (current_step state) = Some step ->
  exists state',
    node_function self n state = Some state'
    /\ workflow_plan state' = workflow_plan state
    /\ current_step state' = current_step state + 1.
Proof.
  intros self n state step H.
  destruct n; cbn [node_function];
    unfold _execute_search, _execute_download, _execute_spatial_query,
      _execute_transform, _execute_process, _execute_analysis,
      _execute_visualization, _execute_export, store_processed;
    cbv zeta; rewrite H;
    repeat break_match; eexists; (split; [reflexivity|]);
    destruct state; cbn; auto.
Qed.

Lemma edge_for_node : forall label n,
  edge_for label conditional_edges = Some (ToNode n) -> label = node_name n.
Proof.
  intros label n. unfold conditional_edges. cbn [edge_for].
  repeat match goal with
         | |- context [String.eqb label ?l] =>
             destruct (String.eqb label l) eqn:?;
             [ try discriminate; intros H; injection H as H; subst n;
               apply String.eqb_eq; assumption |]
         end.
  discriminate.
Qed.

Lemma edge_for_node_name : forall n,
  edge_for (node_name n) conditional_edges = Some (ToNode n).
Proof. intros []; reflexivity. Qed.

Lemma known_node_name : forall step,
  known step = true -> exists n, step_type step = node_name n.
Proof.
  intros step H. unfold known in H. apply existsb_exists in H.
  destruct H as [name [Hin Heq]]. apply String.eqb_eq in Heq.
  cbn in Hin.
  repeat (destruct Hin as [<-|Hin];
          [ first [ exists search; assumption | exists download; assumption
                  | exists spatial_query; assumption | exists transform; assumption
                  | exists process; assumption | exists analysis; assumption
                  | exists visualization; assumption | exists export; assumption ] |]).
  destruct Hin.
Qed.

Lemma label_of_node_name : forall step n,
  step_type step = node_name n -> label_of step = node_name n.
Proof. intros step n H. unfold label_of. rewrite H. destruct n; reflexivity. Qed.

(** A label with an edge to a node is the type of a known step. *)
Lemma routed_to_node_known : forall step n,
  edge_for (label_of step) conditional_edges = Some (ToNode n) ->
  step_type step = node_name n /\ known step = true.
Proof.
  intros step n H. apply edge_for_node in H.
  assert (Hty : step_type step = node_name n).
  { unfold label_of in H. destruct (step_type step) eqn:E; [|exact H].
    destruct n; discriminate. }
  split; [exact Hty|].
  unfold known. rewrite Hty. destruct n; reflexivity.
Qed.

(** ** The loop *)

Lemma write_back_plan : forall state,
  workflow_plan (write_back state) = workflow_plan state.
Proof. reflexivity. Qed.

Lemma write_back_pointer : forall state,
  current_step (write_back state) = current_step state.
Proof. reflexivity. Qed.

(** One turn of the loop, as the graph runs it. *)
Lemma run_unfold : forall self fuel state,
  run self (S fuel) state =
    let state1 := write_back state in
    let label := fst (fst (_should_continue state1)) in
    match edge_for label conditional_edges with
    | None => ([], NoEdge label state1)
    | Some END => ([], Ended state1)
    | Some (ToNode n) =>
        match node_function self n state1 with
        | None => ([], IndexError state1)
        | Some state2 =>
            (Executed (current_step state1) n
             :: fst (run self fuel (write_back state2)),
             snd (run self fuel (write_back state2)))
        end
    end.
Proof.
  intros self fuel state. cbn [run]. unfold _route_next_step. cbv zeta.
  destruct (_should_continue (write_back state)) as [[label state'] skipped].
  cbn [fst].
  destruct (edge_for label conditional_edges) as [[n|]|]; try reflexivity.
  destruct (node_function self n (write_back state)); [|reflexivity].
  destruct (run self fuel (write_back w)); reflexivity.
Qed.

(** The label the condition returns is the label of the first step from the
    pointer on whose dependencies are met, and [end] when there is none. *)
Lemma condition_label : forall state,
  exists q,
    current_step state <= q
    /\ (forall p, current_step state <= p < q ->
        exists step, nth_error (workflow_plan state) p = Some step
                     /\ all_deps_met p (dependencies step) = false)
    /\ match nth_error (workflow_plan state) q with
       | Some step =>
           all_deps_met q (dependencies step) = true
           /\ fst (fst (_should_continue state)) = label_of step
       | None => fst (fst (_should_continue state)) = "end"
       end.
Proof.
  intros state.
  destruct (_should_continue state) as [[label state'] skipped] eqn:E.
  apply _should_continue_routed in E. cbn [fst].
  exists (current_step state'). split; [exact (routed_le _ _ _ _ E)|]. split.
  - intros p Hp. apply (routed_unmet _ _ _ _ E).
    rewrite (routed_skipped _ _ _ _ E). apply in_seq. lia.
  - exact (routed_label _ _ _ _ E).
Qed.

(** From a step whose dependencies are met the condition returns the label
    of that step. *)
Lemma condition_label_met : forall state step,
  nth_error (workflow_plan state) (current_step state) = Some step ->
  all_deps_met (current_step state) (dependencies step) = true ->
  fst (fst (_should_continue state)) = label_of step.
Proof.
  intros state step Hnth Hmet. rewrite _should_continue_unfold. cbv zeta.
  rewrite Hnth, Hmet. reflexivity.
Qed.

(** A node that returns had its pointer inside the plan. *)
Lemma node_function_inside : forall self n state state',
  node_function self n state = Some state' ->
  exists step, nth_error (workflow_plan state) (current_step state) = Some step.
Proof.
  intros self n state state' H.
  destruct (nth_error (workflow_plan state) (current_step state)) as [step|] eqn:E;
    [eauto|].
  destruct n; cbn [node_function] in H;
    unfold _execute_search, _execute_download, _execute_spatial_query,
      _execute_transform, _execute_process, _execute_analysis,
      _execute_visualization, _execute_export in H;
    cbv zeta in H; rewrite E in H; discriminate.
Qed.

(** A property that the write-back and the nodes keep holds of the state a
    run stops in. *)
Lemma run_keeps : forall self (P : WorkflowState -> Prop),
  (forall state, P state -> P (write_back state)) ->
  (forall n state state' step,
     P state ->
     nth_error (workflow_plan state) (current_step state) = Some step ->
     node_function self n state = Some state' -> P state') ->
  forall fuel state,
    P state -> P (state_of_outcome (snd (run self fuel state))).
Proof.
  intros self P Hback Hnode. induction fuel as [|fuel IH]; intros state HP.
  - exact HP.
  - rewrite run_unfold. cbv zeta.
    pose proof (Hback _ HP) as HP1.
    destruct (edge_for _ conditional_edges) as [[n|]|]; [|exact HP1|exact HP1].
    destruct (node_function self n (write_back state)) as [state2|] eqn:Hn;
      [|exact HP1].
    destruct (node_function_inside _ _ _ _ Hn) as [step Hnth].
    cbn [snd]. apply IH, Hback. exact (Hnode _ _ _ _ HP1 Hnth Hn).
Qed.

(** A run is a sequence of write-backs and node steps: a relation between a
    state, the visits made from it and the state reached that holds of both
    kinds of step and composes holds of the whole run. *)
Lemma run_trace : forall self
    (R : WorkflowState -> list Visit -> WorkflowState -> Prop),
  (forall state, R state [] state) ->
  (forall state, R state [] (write_back state)) ->
  (forall n state state' step,
     nth_error (workflow_plan state) (current_step state) = Some step ->
     node_function self n state = Some state' ->
     R state [Executed (current_step state) n] state') ->
  (forall s1 v1 s2 v2 s3, R s1 v1 s2 -> R s2 v2 s3 -> R s1 (v1 ++ v2) s3) ->
  forall fuel state,
    R state (fst (run self fuel state)) (state_of_outcome (snd (run self fuel state))).
Proof.
  intros self R Hrefl Hback Hnode Htrans.
  induction fuel as [|fuel IH]; intros state.
  - apply Hrefl.
  - rewrite run_unfold. cbv zeta.
    pose proof (Hback state) as H1.
    destruct (edge_for _ conditional_edges) as [[n|]|]; [|exact H1|exact H1].
    destruct (node_function self n (write_back state)) as [state2|] eqn:Hn;
      [|exact H1].
    destruct (node_function_inside _ _ _ _ Hn) as [step Hnth].
    cbn [fst snd].
    apply (Htrans _ [] _ _ _ H1).
    change (Executed (current_step (write_back state)) n
            :: fst (run self fuel (write_back state2)))
      with ([Executed (current_step (write_back state)) n]
            ++ ([] ++ fst (run self fuel (write_back state2)))).
    apply (Htrans _ _ _ _ _ (Hnode _ _ _ _ Hnth Hn)).
    apply (Htrans _ _ _ _ _ (Hback state2)). apply IH.
Qed.

(** Whatever the plan holds, a run with enough passes stops: at [END] or at
    a label without an edge.  The pointer never leaves the plan. *)
Lemma run_stops : forall self fuel state,
  List.length (workflow_plan state) - current_step state < fuel ->
  exists final,
    stopped_in (snd (run self fuel state)) final
    /\ workflow_plan final = workflow_plan state
    /\ current_step state <= current_step final.
Proof.
  intros self fuel. induction fuel as [|fuel IH]; intros state Hfuel; [lia|].
  rewrite run_unfold. cbv zeta.
  destruct (edge_for _ conditional_edges) as [[n|]|] eqn:Hedge.
  - destruct (nth_error (workflow_plan (write_back state))
                        (current_step (write_back state))) as [step|] eqn:Hnth.
    + destruct (node_function_advances self n (write_back state) step Hnth)
        as [state2 [-> [Hplan2 Hcur2]]].
      assert (Hlt : current_step state < List.length (workflow_plan state))
        by (apply nth_error_Some; rewrite write_back_plan, write_back_pointer in Hnth;
            congruence).
      rewrite write_back_plan in Hplan2. rewrite write_back_pointer in Hcur2.
      destruct (IH (write_back state2)) as [final [Hstop [Hplanf Hle]]].
      * rewrite write_back_plan, write_back_pointer, Hplan2, Hcur2. lia.
      * exists final. cbn [snd]. split; [exact Hstop|].
        rewrite write_back_plan, Hplan2 in Hplanf.
        rewrite write_back_pointer, Hcur2 in Hle.
        split; [exact Hplanf|lia].
    + destruct (condition_label (write_back state)) as [q [Hq [_ Hlab]]].
      exfalso.
      destruct (nth_error (workflow_plan (write_back state)) q) as [step|] eqn:Hq2.
      * destruct Hlab as [_ Hlab]. rewrite Hlab in Hedge.
        apply nth_error_None in Hnth.
        assert (q < List.length (workflow_plan (write_back state)))
          by (apply nth_error_Some; congruence). lia.
      * rewrite Hlab in Hedge. discriminate.
  - exists (write_back state). split; [left; reflexivity|]. auto.
  - exists (write_back state). split; [right; eexists; split; [reflexivity|]|]; auto.
Qed.

Lemma deps_met_from_nth : forall plan i k step,
  deps_met_from i plan = true ->
  nth_error plan k = Some step ->
  all_deps_met (i + k) (dependencies step) = true.
Proof.
  induction plan as [|first plan IH]; intros i k step H Hnth;
    [destruct k; discriminate|].
  cbn in H. apply andb_true_iff in H. destruct H as [H1 H2].
  destruct k as [|k]; cbn in Hnth.
  - injection Hnth as <-. rewrite Nat.add_0_r. exact H1.
  - rewrite <- Nat.add_succ_comm. apply (IH (S i) k step H2 Hnth).
Qed.

(** With every step of a known type and every dependency met at its
    position, the loop runs each step from the pointer on through the node
    of its type, in order, and reaches [END] with the pointer at the end of
    the plan. *)
Lemma run_met_plan : forall self fuel state,
  forallb known (workflow_plan state) = true ->
  (forall q step, current_step state <= q ->
                  nth_error (workflow_plan state) q = Some step ->
                  all_deps_met q (dependencies step) = true) ->
  current_step state <= List.length (workflow_plan state) ->
  List.length (workflow_plan state) - current_step state < fuel ->
  exists visits final,
    run self fuel state = (visits, Ended final)
    /\ map position_of visits
       = seq (current_step state)
             (List.length (workflow_plan state) - current_step state)
    /\ Forall (visit_ok (workflow_plan state)) visits
    /\ current_step final = List.length (workflow_plan state)
    /\ workflow_plan final = workflow_plan state.
Proof.
  intros self fuel. induction fuel as [|fuel IH];
    intros state Hknown Hmet Hle Hfuel; [lia|].
  rewrite run_unfold. cbv zeta.
  destruct (nth_error (workflow_plan state) (current_step state)) as [step|] eqn:Hnth.
  - rewrite (condition_label_met (write_back state) step Hnth
               (Hmet _ _ (Nat.le_refl _) Hnth)).
    assert (Hk : known step = true).
    { rewrite forallb_forall in Hknown. apply Hknown.
      eapply nth_error_In; eassumption. }
    destruct (known_node_name _ Hk) as [n Hn].
    rewrite (label_of_node_name _ _ Hn), edge_for_node_name.
    assert (Hlt : current_step state < List.length (workflow_plan state))
      by (apply nth_error_Some; congruence).
    destruct (node_function_advances self n (write_back state) step Hnth)
      as [state2 [-> [Hplan2 Hcur2]]].
    rewrite write_back_plan in Hplan2. rewrite write_back_pointer in Hcur2.
    destruct (IH (write_back state2)) as [visits [final [Hrun [Hpos [Hok [Hfin Hplanf]]]]]].
    + rewrite write_back_plan, Hplan2. exact Hknown.
    + rewrite write_back_plan, write_back_pointer, Hplan2, Hcur2.
      intros q step' Hq. apply Hmet. lia.
    + rewrite write_back_plan, write_back_pointer, Hplan2, Hcur2. lia.
    + rewrite write_back_plan, write_back_pointer, Hplan2, Hcur2. lia.
    + rewrite ?write_back_plan, ?write_back_pointer, ?Hplan2, ?Hcur2 in *.
      rewrite Hrun. cbn [fst snd]. rewrite ?write_back_pointer.
      exists (Executed (current_step state) n :: visits), final.
      split; [reflexivity|]. split; [|split; [|split; assumption]].
      * cbn [map position_of]. rewrite Hpos.
        replace (List.length (workflow_plan state) - current_step state)
          with (S (List.length (workflow_plan state) - (current_step state + 1)))
          by lia.
        cbn [seq]. rewrite Nat.add_1_r. reflexivity.
      * constructor; [|exact Hok]. exists step.
        split; [exact Hnth|]. split; [apply (Hmet _ _ (Nat.le_refl _) Hnth)|exact Hn].
  - assert (Hlab : fst (fst (_should_continue (write_back state))) = "end").
    { rewrite _should_continue_unfold. cbv zeta.
      rewrite write_back_plan, write_back_pointer, Hnth. reflexivity. }
    rewrite Hlab. cbn [edge_for conditional_edges String.eqb Ascii.eqb Bool.eqb].
    assert (Hge : List.length (workflow_plan state) <= current_step state)
      by (apply nth_error_None; exact Hnth).
    exists [], (write_back state).
    split; [reflexivity|].
    replace (List.length (workflow_plan state) - current_step state) with 0 by lia.
    split; [reflexivity|]. split; [constructor|].
    rewrite write_back_plan, write_back_pointer. split; [lia|reflexivity].
Qed.


(** A dependency index at or above the position leaves [all_deps_met]
    false. *)
Lemma unmet_dependency : forall p deps d,
  In d deps -> (Z.of_nat p <= d)%Z -> all_deps_met p deps = false.
Proof.
  intros p deps d Hin Hge. unfold all_deps_met.
  destruct (forallb _ deps) eqn:E; [|reflexivity].
  rewrite forallb_forall in E. specialize (E d Hin).
  apply Z.leb_le in Hge. rewrite Hge in E. discriminate.
Qed.

(** The label of a step whose type is not empty, not [end] and none of the
    eight has no edge. *)
Lemma unknown_label_no_edge : forall step,
  known step = false ->
  step_type step <> EmptyString ->
  step_type step <> "end" ->
  label_of step = step_type step
  /\ edge_for (step_type step) conditional_edges = None.
Proof.
  intros step Hunk Hne Hend.
  assert (Hlab : label_of step = step_type step).
  { unfold label_of. destruct (step_type step); [congruence|reflexivity]. }
  split; [exact Hlab|].
  destruct (edge_for (step_type step) conditional_edges) as [[n|]|] eqn:Hedge;
    [| |reflexivity].
  - rewrite <- Hlab in Hedge.
    destruct (routed_to_node_known _ _ Hedge) as [_ Hk]. congruence.
  - exfalso. apply Hend. revert Hedge.
    unfold conditional_edges. cbn [edge_for].
    repeat match goal with
           | |- context [String.eqb (step_type step) ?l] =>
               let E := fresh "E" in
               destruct (String.eqb (step_type step) l) eqn:E;
               [ first [ discriminate
                       | intros _; apply String.eqb_eq; exact E ] |]
           end.
    discriminate.
Qed.

(** ** What a node does to the logs *)

(** Case analysis on a node that returned: the hypothesis [H] says which
    state it returned. *)
Ltac node_cases H :=
  match type of H with
  | node_function ?self ?n ?s = Some ?s' =>
      destruct n; cbn [node_function] in H;
      unfold _execute_search, _execute_download, _execute_spatial_query,
        _execute_transform, _execute_process, _execute_analysis,
        _execute_visualization, _execute_export, store_processed in H;
      cbv zeta in H;
      destruct (nth_error (workflow_plan s) (current_step s));
      try discriminate H;
      repeat match type of H with
             | context [match ?x with _ => _ end] =>
                 lazymatch x with
                 | context [match _ with _ => _ end] => fail
                 | _ => destruct x eqn:?
                 end
             end;
      injection H as H; subst s'
  end.

(** A node that returned wrote one entry, to [errors] or to [messages]. *)
Lemma node_logs : forall self n state state',
  node_function self n state = Some state' ->
  (exists msg,
     errors state' = errors state ++ [(display_name n ++ " step failed: " ++ msg)%string]
     /\ messages state' = messages state)
  \/ (exists content,
        errors state' = errors state
        /\ messages state' = messages state ++ [AIMessage content]).
Proof.
  intros self n state state' Hn.
  node_cases Hn; destruct state; cbn;
    solve [ left; eexists; split; reflexivity
          | right; eexists; split; reflexivity ].
Qed.

(** The node whose agent raises returns the state of the [except] branch. *)
Lemma node_function_raised : forall self n state step msg,
  nth_error (workflow_plan state) (current_step state) = Some step ->
  agent_of self n (task_description n state step) (parameters step) state
  = Raised msg ->
  node_function self n state = Some (step_failed n msg (current_step state) state).
Proof.
  intros self n state step msg Hnth Hraise.
  destruct n; cbn [node_function agent_of task_description] in *;
    unfold _execute_search, _execute_download, _execute_spatial_query,
      _execute_transform, _execute_process, _execute_analysis,
      _execute_visualization, _execute_export;
    cbv zeta; rewrite Hnth, Hraise; reflexivity.
Qed.


(** ** Runs of the loop *)

(** C1. On the code the claim holds only of plans in which no step is
    passed over.  What the condition assigns to the pointer while it passes
    over a step is not written back: in [plan_trailing], whose last step
    names a dependency that is not met, the run reaches [END] with the
    pointer at 1 and not at the length 2 of the plan; in [plan_forward] the
    position 1 that the condition passes over is run by the node of the step
    behind it, so the nodes that run do not match the plan.  In a plan with
    all step types known and all dependencies met at their positions the
    visits are 0, 1, ..., N-1, each run by the node of its step, and the
    pointer ends at N. *)
Theorem C1_skip_is_not_written_back :
  let self := Demo.orchestrator Demo.quiet_agent None in
  (exists final,
     run self 12 (Demo.state_of Demo.plan_trailing)
     = ([Executed 0 search], Ended final)
     /\ current_step final = 1
     /\ List.length (workflow_plan final) = 2)
  /\ (exists visits final,
        invoke (Demo.orchestrator Demo.quiet_agent (Some Demo.plan_trailing)) 12
               (initial_state "fetch the tiles")
        = (visits, Ended final)
        /\ current_step final = 1
        /\ total_steps final = 2)
  /\ (exists state',
        _should_continue (set_current_step 1 (Demo.state_of Demo.plan_trailing))
        = ("end", state', [1])
        /\ current_step state' = 2)
  /\ (exists final,
        run self 12 (Demo.state_of Demo.plan_forward)
        = ([Executed 0 search; Executed 1 visualization; Executed 2 visualization],
           Ended final)
        /\ map step_type Demo.plan_forward = ["search"; "download"; "visualization"])
  /\ (forall self state fuel,
        forallb known (workflow_plan state) = true ->
        deps_met_from 0 (workflow_plan state) = true ->
        current_step state = 0 ->
        List.length (workflow_plan state) < fuel ->
        exists visits final,
          run self fuel state = (visits, Ended final)
          /\ map position_of visits = seq 0 (List.length (workflow_plan state))
          /\ Forall (visit_ok (workflow_plan state)) visits
          /\ current_step final = List.length (workflow_plan state)).
Proof.
  cbv zeta. split; [|split; [|split; [|split]]].
  - eexists. split; [vm_compute; reflexivity|]. split; reflexivity.
  - eexists. eexists. split; [vm_compute; reflexivity|]. split; reflexivity.
  - eexists. split; [vm_compute; reflexivity|reflexivity].
  - eexists. split; [vm_compute; reflexivity|reflexivity].
  - intros self state fuel Hknown Hmet Hcur Hfuel.
    destruct (run_met_plan self fuel state Hknown) as
      [visits [final [Hrun [Hpos [Hok [Hfin _]]]]]].
    + intros q step _ Hnth. apply (deps_met_from_nth _ 0 q step Hmet Hnth).
    + lia.
    + lia.
    + rewrite Hcur, Nat.sub_0_r in Hpos. exists visits, final. auto.
Qed.

(** C2. On the code a step with an unmet dependency is passed over by the
    condition only: for the step at position 1 of [plan_forward], which
    names position 2, the condition moves its pointer to 2 and returns the
    label of the step there, but the node of that label receives the state
    with the pointer still at 1.  It runs the step the condition passed
    over, calls its own agent with the description of that step, and an
    agent that raises leaves an entry in [errors] for it.  Whatever label
    the condition returns, the node it names runs at the pointer the run
    had, not at the one the condition reached. *)
Theorem C2_passed_over_step_reaches_a_node :
  let self := Demo.orchestrator Demo.echo_agent None in
  nth_error Demo.plan_forward 1 = Some (mkTask "download" "fetch it" [] [2%Z])
  /\ all_deps_met 1 [2%Z] = false
  /\ (exists state',
        _should_continue (set_current_step 1 (Demo.state_of Demo.plan_forward))
        = ("visualization", state', [1])
        /\ current_step state' = 2)
  /\ exists final,
       run self 12 (Demo.state_of Demo.plan_forward)
       = ([Executed 0 search; Executed 1 visualization; Executed 2 visualization],
          Ended final)
       /\ errors final
          = [ "Search step failed: find flood data";
              "Visualization step failed: fetch it";
              "Visualization step failed: draw it" ]
       /\ forall self state fuel step n,
            nth_error (workflow_plan state) (current_step state) = Some step ->
            fst (fst (_should_continue (write_back state))) = node_name n ->
            exists state',
              node_function self n (write_back state) = Some state'
              /\ current_step state' = current_step state + 1
              /\ fst (run self (S fuel) state)
                 = Executed (current_step state) n
                   :: fst (run self fuel (write_back state')).
Proof.
  cbv zeta. split; [reflexivity|]. split; [reflexivity|]. split.
  - eexists. split; [vm_compute; reflexivity|reflexivity].
  - eexists. split; [vm_compute; reflexivity|]. split; [reflexivity|].
    intros self state fuel step n Hnth Hlab.
    destruct (node_function_advances self n (write_back state) step Hnth)
      as [state' [Hn [_ Hcur]]].
    exists state'. split; [exact Hn|]. split; [exact Hcur|].
    rewrite run_unfold. cbv zeta. rewrite Hlab, edge_for_node_name, Hn.
    reflexivity.
Qed.

(** C3. On the code the condition returns [end] for an empty step type
    only.  For a step whose dependencies are met and whose type is not
    empty, not [end] and none of the eight, it returns the type itself; the
    edge dict has no entry for it, and the run stops with the error of the
    missing edge, so that [execute] has no state to build a result from.  No
    step at or behind the position is run.  In [plan_unknown] this happens
    at position 1, after the search step has run. *)
Theorem C3_unknown_step_type_has_no_edge :
  let self := Demo.orchestrator Demo.quiet_agent (Some Demo.plan_unknown) in
  fst (fst (_should_continue (set_current_step 1 (Demo.state_of Demo.plan_unknown))))
  = "classify"
  /\ edge_for "classify" conditional_edges = None
  /\ (exists state,
        invoke self 12 (initial_state "label the tiles")
        = ([Executed 0 search], NoEdge "classify" state)
        /\ current_step state = 1)
  /\ execute self 12 "label the tiles" = None
  /\ (forall self state step fuel,
        nth_error (workflow_plan state) (current_step state) = Some step ->
        all_deps_met (current_step state) (dependencies step) = true ->
        known step = false ->
        step_type step <> EmptyString ->
        step_type step <> "end" ->
        run self (S fuel) state
        = ([], NoEdge (step_type step) (write_back state))).
Proof.
  cbv zeta. split; [reflexivity|]. split; [reflexivity|]. split; [|split].
  - eexists. split; [vm_compute; reflexivity|reflexivity].
  - vm_compute. reflexivity.
  - intros self state step fuel Hnth Hmet Hunk Hne Hend.
    destruct (unknown_label_no_edge step Hunk Hne Hend) as [Hlab Hedge].
    rewrite run_unfold. cbv zeta.
    rewrite (condition_label_met (write_back state) step Hnth Hmet), Hlab, Hedge.
    reflexivity.
Qed.




(** ** The entry point *)

(** C5. On the code [execute] does not always return.  It has no [try]: the
    error of a label without an edge leaves it, and with it everything the
    run had collected (here one search result), and so does an exception
    that leaves the planner, as when the converter fails on [thousand one]
    with an error other than [ValueError].  When [execute] does return, the
    run has reached [END], the success flag is true exactly when [errors] is
    empty and the result carries the eight collected fields of the final
    state as they are. *)
Theorem C5_execute_result_or_exception :
  (exists state,
     snd (invoke (Demo.orchestrator Demo.finding_agent (Some Demo.plan_unknown)) 12
                 (initial_state "label the tiles"))
     = NoEdge "classify" state
     /\ search_results state = [VStr "tile-1"])
  /\ execute (Demo.orchestrator Demo.finding_agent (Some Demo.plan_unknown)) 12
             "label the tiles" = None
  /\ invoke (Demo.orchestrator_with Demo.quiet_agent None Demo.indexing_converter) 12
            (initial_state "show a thousand and one maps")
     = ([], PlannerRaised "list index out of range"
                          (initial_state "show a thousand and one maps"))
  /\ execute (Demo.orchestrator_with Demo.quiet_agent None Demo.indexing_converter) 12
             "show a thousand and one maps" = None
  /\ (forall self passes request result,
        execute self passes request = Some result ->
        exists final,
          snd (invoke self passes (initial_state request)) = Ended final
          /\ (success result = true <-> errors final = [])
          /\ res_search_results result = search_results final
          /\ res_downloaded_data result = downloaded_data final
          /\ res_processed_data result = processed_data final
          /\ res_final_outputs result = final_outputs final
          /\ res_visualizations result = visualizations final
          /\ res_analysis_results result = analysis_results final
          /\ res_errors result = errors final
          /\ res_messages result = messages final).
Proof.
  split; [|split; [|split; [|split]]].
  - eexists. split; [vm_compute; reflexivity|reflexivity].
  - vm_compute. reflexivity.
  - vm_compute. reflexivity.
  - vm_compute. reflexivity.
  - intros self passes request result Hex. unfold execute in Hex.
    destruct (snd (invoke self passes (initial_state request)))
      as [final| | | |]; try discriminate.
    injection Hex as <-. exists final. split; [reflexivity|].
    split; [|repeat (split; [reflexivity|]); reflexivity].
    unfold result_of. cbn [success].
    destruct (errors final); cbn; split; intros; congruence.
Qed.

(** * Further properties *)

(** ** URLs in the request *)

Lemma substring_all : forall s, String.substring 0 (String.length s) s = s.
Proof. induction s as [|c r IH]; cbn; [reflexivity|]. rewrite IH. reflexivity. Qed.

(** A text with the prefix [lit] is [lit] followed by the rest that
    [url_after] reads. *)
Lemma prefix_split : forall lit s,
  String.prefix lit s = true ->
  s = (lit ++ String.substring (String.length lit)
                (String.length s - String.length lit) s)%string.
Proof.
  induction lit as [|a lit IH]; intros s H.
  - cbn. rewrite Nat.sub_0_r, substring_all. reflexivity.
  - destruct s as [|c r]; cbn in H; [discriminate|].
    destruct (ascii_dec a c); [subst|discriminate].
    cbn. f_equal. apply IH, H.
Qed.

Lemma take_while_split : forall p s,
  exists rest,
    s = (PyStr.take_while p s ++ rest)%string
    /\ match rest with
       | EmptyString => True
       | String c _ => p c = false
       end.
Proof.
  intros p. induction s as [|c r IH]; cbn.
  - exists EmptyString. auto.
  - destruct (p c) eqn:Hc.
    + destruct IH as [rest [Hs Hrest]]. exists rest. cbn. split; [congruence|exact Hrest].
    + exists (String c r). auto.
Qed.

Lemma take_while_all_url_chars : forall s,
  all_url_chars (PyStr.take_while Re.is_url_char s) = true.
Proof.
  induction s as [|c r IH]; cbn; [reflexivity|].
  destruct (Re.is_url_char c) eqn:Hc; cbn; [rewrite Hc; exact IH|reflexivity].
Qed.

Lemma append_assoc : forall a b c : string,
  ((a ++ b) ++ c)%string = (a ++ b ++ c)%string.
Proof. induction a as [|x a IH]; intros; cbn; [reflexivity|]. rewrite IH. reflexivity. Qed.

(** What the URL pattern matches at the head of a text. *)
Lemma match_url_shape : forall prev s tok,
  Re.match_url prev s = Some tok ->
  exists scheme body rest,
    (scheme = "https://" \/ scheme = "http://")
    /\ tok = (scheme ++ body)%string
    /\ body <> EmptyString
    /\ all_url_chars body = true
    /\ s = (tok ++ rest)%string
    /\ url_stops_at rest = true.
Proof.
  intros prev s tok H. unfold Re.match_url in H.
  assert (Hafter : forall lit, Re.url_after lit s = Some tok ->
            exists body rest,
              tok = (lit ++ body)%string /\ body <> EmptyString
              /\ all_url_chars body = true
              /\ s = (tok ++ rest)%string /\ url_stops_at rest = true).
  { intros lit Ha. unfold Re.url_after in Ha.
    destruct (String.prefix lit s) eqn:Hp; [|discriminate].
    pose proof (prefix_split lit s Hp) as Hs.
    set (tail := String.substring (String.length lit)
                   (String.length s - String.length lit) s) in *.
    destruct (take_while_split Re.is_url_char tail) as [rest [Htail Hrest]].
    pose proof (take_while_all_url_chars tail) as Hall.
    destruct (PyStr.take_while Re.is_url_char tail) as [|c body] eqn:Hbody;
      [discriminate|].
    injection Ha as <-.
    exists (String c body), rest. split; [reflexivity|]. split; [discriminate|].
    split; [exact Hall|]. split.
    - rewrite append_assoc, <- Htail. exact Hs.
    - destruct rest as [|d rest]; [reflexivity|]. cbn. rewrite Hrest. reflexivity. }
  destruct (Re.url_after "https://" s) as [tok'|] eqn:Hs.
  - injection H as <-. destruct (Hafter _ Hs) as [body [rest Hb]].
    exists "https://", body, rest. tauto.
  - destruct (Hafter _ H) as [body [rest Hb]].
    exists "http://", body, rest. tauto.
Qed.

(** X1. Every URL [_extract_urls] returns stands in the text; it is
    [http://] or [https://] followed by at least one character, all its
    characters after the scheme are URL characters, and it ends where the
    text ends or the next character is none. *)
Theorem X1_extracted_urls_are_urls : forall text,
  Forall (fun url =>
            exists pre rest scheme body,
              text = (pre ++ url ++ rest)%string
              /\ (scheme = "https://" \/ scheme = "http://")
              /\ url = (scheme ++ body)%string
              /\ body <> EmptyString
              /\ all_url_chars body = true
              /\ url_stops_at rest = true)
         (_extract_urls text).
Proof.
  intros text. unfold _extract_urls, Re.findall.
  eapply Forall_impl; [|apply (scan_occurrence Re.match_url text 0 None)].
  cbn. intros url [pre [post [Hs Hm]]].
  destruct (match_url_shape _ _ _ Hm) as [scheme [body [rest [Hsch [Hurl [Hne [Hall [Hpost Hstop]]]]]]]].
  exists pre, rest, scheme, body. rewrite Hs, Hpost. tauto.
Qed.

Lemma contains_app : forall lit pre post,
  String.prefix lit post = true ->
  PyStr.contains lit (pre ++ post)%string = true.
Proof.
  intros lit. induction pre as [|c pre IH]; intros post H; cbn [append].
  - destruct post; cbn -[String.prefix]; rewrite H; reflexivity.
  - cbn -[String.prefix].
    destruct (String.prefix lit (String c (pre ++ post)));
      [reflexivity|apply IH, H].
Qed.

(** X2. A text that holds neither [http://] nor [https://] has no URL. *)
Theorem X2_no_scheme_no_url : forall text,
  PyStr.contains "http://" text = false ->
  PyStr.contains "https://" text = false ->
  _extract_urls text = [].
Proof.
  intros text Hhttp Hhttps. unfold _extract_urls, Re.findall.
  pose proof (scan_leftmost Re.match_url text None) as L.
  destruct (Re.scan Re.match_url 0 None text) as [|tok toks]; [reflexivity|].
  exfalso. destruct L as [pre [post [Hs [Hm _]]]].
  unfold Re.match_url, Re.url_after in Hm.
  destruct (String.prefix "https://" post) eqn:H1.
  - rewrite Hs, (contains_app _ pre post H1) in Hhttps. discriminate.
  - destruct (String.prefix "http://" post) eqn:H2; [|discriminate].
    rewrite Hs, (contains_app _ pre post H2) in Hhttp. discriminate.
Qed.

Lemma X2_witness :
  PyStr.contains "http://" "Search for elevation datasets" = false
  /\ PyStr.contains "https://" "Search for elevation datasets" = false
  /\ _extract_urls "Search for elevation datasets" = [].
Proof.
  split; [reflexivity|]. split; [reflexivity|].
  apply X2_no_scheme_no_url; reflexivity.
Defined.

(** ** The shape of heuristic plans *)

Lemma is_subsequence_nil : forall canon, is_subsequence [] canon = true.
Proof. intros []; reflexivity. Qed.

Lemma is_subsequence_snoc : forall canon l x,
  is_subsequence l canon = true ->
  is_subsequence (l ++ [x]) (canon ++ [x]) = true.
Proof.
  induction canon as [|y canon IH]; intros l x H.
  - destruct l; [|discriminate]. cbn. rewrite String.eqb_refl. reflexivity.
  - destruct l as [|t l]; cbn in *.
    + destruct (String.eqb x y); [apply is_subsequence_nil|].
      apply (IH [] x), is_subsequence_nil.
    + destruct (String.eqb t y); [apply IH, H | apply (IH (t :: l)), H].
Qed.

Lemma is_subsequence_weaken : forall canon l more,
  is_subsequence l canon = true ->
  is_subsequence l (canon ++ more) = true.
Proof.
  induction canon as [|y canon IH]; intros l more H.
  - destruct l; [apply is_subsequence_nil|discriminate].
  - destruct l as [|t l]; cbn in *; [reflexivity|].
    destruct (String.eqb t y); apply IH, H.
Qed.

(** An element of [canon] that [l] does not hold can be dropped from the
    end of [canon]. *)
Lemma is_subsequence_drop_last : forall canon l y,
  is_subsequence l (canon ++ [y]) = true ->
  ~ In y l ->
  is_subsequence l canon = true.
Proof.
  induction canon as [|z canon IH]; intros l y H Hnot.
  - destruct l as [|t l]; [reflexivity|]. cbn in H.
    destruct (String.eqb_spec t y) as [->|_].
    + exfalso. apply Hnot. left. reflexivity.
    + destruct l; discriminate.
  - destruct l as [|t l]; cbn in *; [reflexivity|].
    destruct (String.eqb t z).
    + apply (IH l y H). intros Hin. apply Hnot. right. exact Hin.
    + apply (IH (t :: l) y H). exact Hnot.
Qed.

Lemma any_step_of_false : forall kinds workflow kind,
  any_step_of kinds workflow = false ->
  In kind kinds ->
  ~ In kind (map step_type workflow).
Proof.
  intros kinds workflow kind H Hk Hin.
  apply in_map_iff in Hin. destruct Hin as [step [<- Hstep]].
  unfold any_step_of in H.
  assert (Hex : existsb (fun s => existsb (String.eqb (step_type s)) kinds) workflow
                = true).
  { apply existsb_exists. exists step. split; [exact Hstep|].
    apply existsb_exists. exists (step_type step). split; [exact Hk|].
    apply String.eqb_refl. }
  congruence.
Qed.

Lemma backward_deps_app : forall workflow i step,
  backward_deps i (workflow ++ [step])
  = backward_deps i workflow
    && backward_deps (i + List.length workflow) [step].
Proof.
  induction workflow as [|t workflow IH]; intros i step.
  - cbn [app List.length backward_deps]. rewrite Nat.add_0_r. reflexivity.
  - cbn [app List.length backward_deps]. rewrite IH, <- andb_assoc.
    replace (S i + List.length workflow) with (i + S (List.length workflow)) by lia.
    reflexivity.
Qed.

(** Appending a step keeps a list well formed when its type comes next in
    the canonical order, its dependencies point backwards and, for a
    download step, it carries the download limit. *)
Lemma well_formed_snoc : forall hint canon workflow ty desc params deps,
  well_formed hint canon workflow ->
  backward_deps (List.length workflow) [mkTask ty desc params deps] = true ->
  download_limit_ok hint (mkTask ty desc params deps) ->
  well_formed hint (canon ++ [ty]) (workflow ++ [mkTask ty desc params deps]).
Proof.
  intros hint canon workflow ty desc params deps [Hsub [Hdeps Hlim]] Hstep Hok.
  split; [|split].
  - rewrite map_app. apply is_subsequence_snoc, Hsub.
  - rewrite backward_deps_app, Hdeps. exact Hstep.
  - apply Forall_app. split; [exact Hlim|]. constructor; [exact Hok|constructor].
Qed.

Lemma well_formed_weaken : forall hint canon more workflow,
  well_formed hint canon workflow ->
  well_formed hint (canon ++ more) workflow.
Proof.
  intros hint canon more workflow [Hsub H]. split; [|exact H].
  apply is_subsequence_weaken, Hsub.
Qed.

(** [[len(workflow) - 1] if workflow else []] points backwards. *)
Lemma dep_on_last_backward : forall (workflow : Plan) ty desc params,
  backward_deps (List.length workflow)
    [mkTask ty desc params (dep_on_last workflow)] = true.
Proof.
  intros workflow ty desc params. unfold dep_on_last.
  destruct workflow as [|t workflow]; [reflexivity|].
  cbn [nonempty backward_deps dependencies List.length].
  rewrite andb_true_r. apply andb_true_iff. split.
  - apply Z.leb_le. lia.
  - apply Z.ltb_lt. lia.
Qed.

(** The dependency [[0]] of a step appended to a non-empty list points
    backwards. *)
Lemma dep_on_first_backward : forall (workflow : Plan) ty desc params (b : bool),
  (b = true -> workflow <> []) ->
  backward_deps (List.length workflow)
    [mkTask ty desc params (if b then [0%Z] else [])] = true.
Proof.
  intros workflow ty desc params b Hb. destruct b; [|reflexivity].
  destruct workflow as [|t workflow]; [exfalso; apply Hb; reflexivity|].
  cbn [backward_deps dependencies List.length]. rewrite andb_true_r.
  apply andb_true_iff. split; [reflexivity|]. apply Z.ltb_lt. lia.
Qed.

Lemma well_formed_after_search : forall req hint,
  well_formed hint ["search"] (add_search req hint []).
Proof.
  intros req hint. unfold add_search.
  destruct (wants_search req); cbn [app].
  - split; [reflexivity|]. split; [reflexivity|].
    constructor; [|constructor]. intros H. discriminate.
  - split; [reflexivity|]. split; [reflexivity|constructor].
Qed.

Lemma well_formed_after_download : forall req hint workflow,
  well_formed hint ["search"] workflow ->
  well_formed hint ["search"; "download"] (add_download req hint workflow).
Proof.
  intros req hint workflow H. unfold add_download.
  destruct (any_keyword download_keywords (request_lower req) || has_url req).
  - cbv zeta. apply (well_formed_snoc hint ["search"] workflow "download" _ _ _ H).
    + apply dep_on_first_backward. intros Hb ->. discriminate.
    + intros _. destruct (has_url req); reflexivity.
  - apply (well_formed_weaken hint ["search"] ["download"]), H.
Qed.

Lemma well_formed_after_process : forall req hint workflow,
  well_formed hint ["search"; "download"] workflow ->
  well_formed hint ["search"; "download"; "process"] (add_process req workflow).
Proof.
  intros req hint workflow H. unfold add_process.
  destruct (any_keyword process_keywords (request_lower req)).
  - apply (well_formed_snoc hint ["search"; "download"] workflow "process" _ _ _ H).
    + apply dep_on_last_backward.
    + intros Hd. discriminate.
  - apply (well_formed_weaken hint ["search"; "download"] ["process"]), H.
Qed.

(** The download step put in front of a visualization or an export is
    appended to a list that holds at most a search step. *)
Lemma well_formed_data_step : forall hint purpose workflow,
  well_formed hint ["search"] workflow ->
  well_formed hint ["search"; "download"]
    (workflow ++ [data_step hint purpose workflow]).
Proof.
  intros hint purpose workflow H.
  unfold data_step.
  apply (well_formed_snoc hint ["search"] workflow "download" _ _ _ H).
  - apply dep_on_first_backward.
    intros Hb ->. discriminate.
  - intros _. reflexivity.
Qed.

Lemma well_formed_after_visualization : forall req hint workflow,
  well_formed hint ["search"; "download"; "process"] workflow ->
  well_formed hint ["search"; "download"; "process"; "visualization"]
    (add_visualization req hint workflow).
Proof.
  intros req hint workflow H. unfold add_visualization.
  destruct (any_keyword viz_keywords (request_lower req)).
  2:{ apply (well_formed_weaken hint ["search"; "download"; "process"]
               ["visualization"]), H. }
  cbv zeta.
  destruct (any_step_of ["download"; "process"; "analysis"] workflow) eqn:Hdata;
    cbn [negb andb].
  - apply (well_formed_snoc hint ["search"; "download"; "process"] workflow
             "visualization" _ _ _ H).
    + apply dep_on_last_backward.
    + intros Hd. discriminate.
  - destruct (has_url req); cbn [negb].
    + apply (well_formed_snoc hint ["search"; "download"; "process"] workflow
             "visualization" _ _ _ H).
      * apply dep_on_last_backward.
      * intros Hd. discriminate.
    + assert (Hs : well_formed hint ["search"] workflow).
      { destruct H as [Hsub Hrest]. split; [|exact Hrest].
        apply (is_subsequence_drop_last ["search"] _ "download").
        - apply (is_subsequence_drop_last ["search"; "download"] _ "process");
            [exact Hsub|].
          apply (any_step_of_false _ _ _ Hdata). cbn. auto.
        - apply (any_step_of_false _ _ _ Hdata). cbn. auto. }
      pose proof (well_formed_data_step hint "visualization" workflow Hs) as Hd.
      apply (well_formed_weaken hint ["search"; "download"] ["process"]) in Hd.
      apply (well_formed_snoc hint ["search"; "download"; "process"] _
               "visualization" _ _ _ Hd).
      * apply dep_on_last_backward.
      * intros Hx. discriminate.
Qed.

Lemma well_formed_after_export : forall req hint workflow,
  well_formed hint ["search"; "download"; "process"; "visualization"] workflow ->
  well_formed hint ["search"; "download"; "process"; "visualization"; "export"]
    (add_export req hint workflow).
Proof.
  intros req hint workflow H. unfold add_export.
  destruct (any_keyword export_keywords (request_lower req)).
  2:{ apply (well_formed_weaken hint
               ["search"; "download"; "process"; "visualization"] ["export"]), H. }
  cbv zeta.
  destruct (any_step_of ["download"; "process"; "analysis"; "visualization"] workflow)
    eqn:Hdata; cbn [negb andb].
  - apply (well_formed_snoc hint
             ["search"; "download"; "process"; "visualization"] workflow
             "export" _ _ _ H).
    + apply dep_on_last_backward.
    + intros Hd. discriminate.
  - destruct (has_url req); cbn [negb].
    + apply (well_formed_snoc hint
               ["search"; "download"; "process"; "visualization"] workflow
               "export" _ _ _ H).
      * apply dep_on_last_backward.
      * intros Hd. discriminate.
    + assert (Hs : well_formed hint ["search"] workflow).
      { destruct H as [Hsub Hrest]. split; [|exact Hrest].
        apply (is_subsequence_drop_last ["search"] _ "download").
        - apply (is_subsequence_drop_last ["search"; "download"] _ "process").
          + apply (is_subsequence_drop_last ["search"; "download"; "process"] _
                     "visualization"); [exact Hsub|].
            apply (any_step_of_false _ _ _ Hdata). cbn. auto.
          + apply (any_step_of_false _ _ _ Hdata). cbn. auto.
        - apply (any_step_of_false _ _ _ Hdata). cbn. auto. }
      pose proof (well_formed_data_step hint "export" workflow Hs) as Hd.
      apply (well_formed_weaken hint ["search"; "download"]
               ["process"; "visualization"]) in Hd.
      apply (well_formed_snoc hint
               ["search"; "download"; "process"; "visualization"] _
               "export" _ _ _ Hd).
      * apply dep_on_last_backward.
      * intros Hx. discriminate.
Qed.

Lemma well_formed_after_late_download : forall req hint workflow,
  well_formed hint ["search"; "download"; "process"; "visualization"; "export"]
    workflow ->
  well_formed hint ["search"; "download"; "process"; "visualization"; "export"]
    (add_late_download req hint workflow).
Proof.
  intros req hint workflow H. unfold add_late_download.
  destruct (negb (nonempty workflow)
            || (List.length workflow =? 1) && first_is "search" workflow) eqn:Hc;
    [|exact H].
  destruct (PyStr.contains "download" (request_lower req)); [|exact H].
  cbv zeta.
  assert (Hs : well_formed hint ["search"] workflow).
  { destruct H as [_ Hrest].
    destruct workflow as [|t [|t' workflow]]; cbn in Hc.
    - split; [reflexivity|exact Hrest].
    - split; [|exact Hrest]. cbn. rewrite Hc. reflexivity.
    - discriminate. }
  apply (well_formed_weaken hint ["search"; "download"]
           ["process"; "visualization"; "export"]).
  apply (well_formed_snoc hint ["search"] workflow "download" _ _ _ Hs).
  - apply dep_on_first_backward. intros Hb ->. discriminate.
  - intros _. destruct (has_url req); reflexivity.
Qed.

(** The plan of the builder is well formed. *)
Lemma _create_smart_default_workflow_well_formed : forall req hint,
  well_formed hint ["search"; "download"; "process"; "visualization"; "export"]
    (_create_smart_default_workflow req hint).
Proof.
  intros req hint. rewrite _create_smart_default_workflow_built.
  unfold built_workflow.
  apply well_formed_after_late_download, well_formed_after_export,
    well_formed_after_visualization, well_formed_after_process,
    well_formed_after_download, well_formed_after_search.
Qed.

Lemma is_subsequence_In : forall canon l x,
  is_subsequence l canon = true -> In x l -> In x canon.
Proof.
  induction canon as [|y canon IH]; intros l x H Hin.
  - destruct l; [destruct Hin|discriminate].
  - destruct l as [|t l]; [destruct Hin|]. cbn in H.
    destruct (String.eqb_spec t y) as [->|_].
    + destruct Hin as [<-|Hin]; [left; reflexivity|right; exact (IH l x H Hin)].
    + right. exact (IH (t :: l) x H Hin).
Qed.

Lemma is_subsequence_length : forall canon l,
  is_subsequence l canon = true -> List.length l <= List.length canon.
Proof.
  induction canon as [|y canon IH]; intros l H.
  - destruct l; [cbn; lia|discriminate].
  - destruct l as [|t l]; [cbn; lia|]. cbn in H.
    destruct (String.eqb t y).
    + specialize (IH l H). cbn. lia.
    + specialize (IH (t :: l) H). cbn in *. lia.
Qed.

Lemma is_subsequence_NoDup : forall canon l,
  NoDup canon -> is_subsequence l canon = true -> NoDup l.
Proof.
  induction canon as [|y canon IH]; intros l Hnd H.
  - destruct l; [constructor|discriminate].
  - inversion Hnd as [|? ? Hy Hnd']; subst.
    destruct l as [|t l]; [constructor|]. cbn in H.
    destruct (String.eqb_spec t y) as [->|_].
    + constructor; [|exact (IH l Hnd' H)].
      intros Hin. apply Hy. exact (is_subsequence_In canon l y H Hin).
    + exact (IH (t :: l) Hnd' H).
Qed.

(** X3. The step types of a heuristic plan come in the order search,
    download, process, visualization, export, each at most once: the plan
    has one to five steps and never holds a spatial-query, transform or
    analysis step. *)
Theorem X3_heuristic_plan_order : forall req hint,
  let types := map step_type (_create_smart_default_workflow req hint) in
  is_subsequence types
    ["search"; "download"; "process"; "visualization"; "export"] = true
  /\ NoDup types
  /\ 1 <= List.length types <= 5
  /\ (forall ty, In ty types ->
        In ty ["search"; "download"; "process"; "visualization"; "export"]).
Proof.
  intros req hint. cbv zeta.
  destruct (_create_smart_default_workflow_well_formed req hint) as [Hsub _].
  split; [exact Hsub|]. split; [|split].
  - apply (is_subsequence_NoDup
             ["search"; "download"; "process"; "visualization"; "export"]);
      [|exact Hsub].
    repeat constructor; cbn; intuition discriminate.
  - split; [|exact (is_subsequence_length _ _ Hsub)].
    rewrite length_map, _create_smart_default_workflow_built.
    pose proof (built_workflow_nonempty req hint) as Hne.
    destruct (built_workflow req hint); [discriminate|cbn; lia].
  - intros ty Hin. exact (is_subsequence_In _ _ ty Hsub Hin).
Qed.

Lemma backward_deps_nth : forall plan i k step,
  backward_deps i plan = true ->
  nth_error plan k = Some step ->
  dependencies step = []
  \/ exists d, dependencies step = [d] /\ (0 <= d < Z.of_nat (i + k))%Z.
Proof.
  induction plan as [|t plan IH]; intros i k step H Hnth.
  - destruct k; discriminate.
  - cbn [backward_deps] in H. apply andb_true_iff in H. destruct H as [Ht Hrest].
    destruct k as [|k]; cbn in Hnth.
    + injection Hnth as <-. rewrite Nat.add_0_r.
      destruct (dependencies t) as [|d [|d' ds]]; [left; reflexivity| |discriminate].
      right. exists d. split; [reflexivity|].
      apply andb_true_iff in Ht. destruct Ht as [H0 H1].
      apply Z.leb_le in H0. apply Z.ltb_lt in H1. lia.
    + replace (i + S k) with (S i + k) by lia. exact (IH (S i) k step Hrest Hnth).
Qed.

Lemma backward_deps_met : forall plan k step,
  backward_deps 0 plan = true ->
  nth_error plan k = Some step ->
  all_deps_met k (dependencies step) = true.
Proof.
  intros plan k step H Hnth.
  destruct (backward_deps_nth plan 0 k step H Hnth) as [->|[d [-> Hd]]];
    [reflexivity|].
  cbn. rewrite andb_true_r. apply negb_true_iff, Z.leb_gt. lia.
Qed.

(** X4. In a heuristic plan every step names at most one dependency, and
    that index lies from 0 up to just below the position of the step: the
    dependencies of every step are met when the pointer reaches it. *)
Theorem X4_heuristic_dependencies_point_backwards : forall req hint,
  let plan := _create_smart_default_workflow req hint in
  backward_deps 0 plan = true
  /\ (forall i step,
        nth_error plan i = Some step ->
        dependencies step = []
        \/ exists d, dependencies step = [d] /\ (0 <= d < Z.of_nat i)%Z)
  /\ (forall i step,
        nth_error plan i = Some step ->
        all_deps_met i (dependencies step) = true).
Proof.
  intros req hint. cbv zeta.
  destruct (_create_smart_default_workflow_well_formed req hint) as [_ [Hdeps _]].
  split; [exact Hdeps|]. split.
  - intros i step Hnth. exact (backward_deps_nth _ 0 i step Hdeps Hnth).
  - intros i step Hnth. exact (backward_deps_met _ i step Hdeps Hnth).
Qed.

(** X6. Every download step of a heuristic plan carries the limit
    [min(L, 5)], where [L] is the quantity hint when there is one other than
    zero and 10 otherwise; the limit is never above 5, and it is 5 when the
    hint is missing or at least 5. *)
Theorem X6_download_limit_capped : forall req hint,
  Forall (fun step =>
            step_type step = "download" ->
            dict_get "limit" (parameters step)
            = Some (VInt (Z.min (default_limit hint) 5)))
         (_create_smart_default_workflow req hint)
  /\ (Z.min (default_limit hint) 5 <= 5)%Z
  /\ default_limit hint
     = match hint with
       | Some z => if (z =? 0)%Z then 10%Z else z
       | None => 10%Z
       end
  /\ ((5 <= default_limit hint)%Z -> Z.min (default_limit hint) 5 = 5%Z).
Proof.
  intros req hint.
  destruct (_create_smart_default_workflow_well_formed req hint) as [_ [_ Hlim]].
  split; [|split; [lia|split; [|lia]]].
  - eapply Forall_impl; [|exact Hlim]. cbn. intros step Hok Hty.
    apply Hok. unfold is_download. rewrite Hty. reflexivity.
  - unfold default_limit, int_truthy.
    destruct hint as [z|]; [destruct (z =? 0)%Z|]; reflexivity.
Qed.

(** The builder reads the hint through [default_limit] only. *)
Lemma builder_depends_on_default_limit : forall req hint hint',
  default_limit hint = default_limit hint' ->
  _create_smart_default_workflow req hint = _create_smart_default_workflow req hint'.
Proof.
  intros req hint hint' H.
  assert (Hs : forall w, add_search req hint w = add_search req hint' w).
  { intros w. unfold add_search, search_step. rewrite H. reflexivity. }
  assert (Hd : forall w, add_download req hint w = add_download req hint' w).
  { intros w. unfold add_download. rewrite H. reflexivity. }
  assert (Hv : forall w, add_visualization req hint w = add_visualization req hint' w).
  { intros w. unfold add_visualization, data_step. rewrite H. reflexivity. }
  assert (He : forall w, add_export req hint w = add_export req hint' w).
  { intros w. unfold add_export, data_step. rewrite H. reflexivity. }
  assert (Hl : forall w, add_late_download req hint w = add_late_download req hint' w).
  { intros w. unfold add_late_download. rewrite H. reflexivity. }
  rewrite !_create_smart_default_workflow_built. unfold built_workflow.
  rewrite Hs, Hd, Hv, He, Hl. reflexivity.
Qed.

(** X8. A hint of zero counts as no hint: the builder returns the same plan
    for both, and so it does for any two hints with the same non-zero value
    or default.  A request such as [find 0 datasets], from which the
    extractor reads 0, gets the search limit 10. *)
Theorem X8_zero_hint_is_no_hint : forall req,
  _create_smart_default_workflow req (Some 0%Z)
  = _create_smart_default_workflow req None
  /\ (forall w2n, _extract_number w2n "find 0 datasets" = Returned (Some 0%Z))
  /\ map (fun step => dict_get "limit" (parameters step))
         (_create_smart_default_workflow "find 0 datasets" (Some 0%Z))
     = [Some (VInt 10)].
Proof.
  intros req. split; [|split].
  - apply builder_depends_on_default_limit. reflexivity.
  - intros w2n. reflexivity.
  - vm_compute. reflexivity.
Qed.

(** ** What a run keeps *)

(** What the planner leaves of the state it is given, when it returns. *)
Lemma _plan_workflow_fields : forall self state state',
  _plan_workflow self state = Returned state' ->
  exists limit parsed,
    _extract_number (w2n_word_to_num self) (user_request state) = Returned limit
    /\ llm_plan self (user_request state) = Returned parsed
    /\ workflow_plan state' = planned parsed (user_request state) limit
    /\ total_steps state' = List.length (workflow_plan state')
    /\ current_step state' = 0
    /\ messages state'
       = messages state
         ++ [AIMessage ("Workflow planned with "
                        ++ PyStr.str_of_nat (List.length (workflow_plan state'))
                        ++ " steps: "
                        ++ PyStr.join ", " (map step_type_shown (workflow_plan state')))%string]
    /\ user_request state' = user_request state
    /\ errors state' = errors state
    /\ spatial_queries state' = spatial_queries state
    /\ transformations state' = transformations state
    /\ visualizations state' = visualizations state
    /\ exports state' = exports state
    /\ final_outputs state' = final_outputs state.
Proof.
  intros self state state' H. unfold _plan_workflow in H.
  destruct (_extract_number (w2n_word_to_num self) (user_request state))
    as [limit|]; [|discriminate].
  destruct (llm_plan self (user_request state)) as [parsed|]; [|discriminate].
  injection H as <-. exists limit, parsed.
  destruct state; cbn. repeat split; reflexivity.
Qed.

Lemma run_fixed_fields : forall self fuel state,
  user_request (state_of_outcome (snd (run self fuel state))) = user_request state
  /\ workflow_plan (state_of_outcome (snd (run self fuel state))) = workflow_plan state
  /\ total_steps (state_of_outcome (snd (run self fuel state))) = total_steps state
  /\ spatial_queries (state_of_outcome (snd (run self fuel state)))
     = spatial_queries state
  /\ transformations (state_of_outcome (snd (run self fuel state)))
     = transformations state.
Proof.
  intros self fuel state.
  apply (run_keeps self
     (fun s => user_request s = user_request state
               /\ workflow_plan s = workflow_plan state
               /\ total_steps s = total_steps state
               /\ spatial_queries s = spatial_queries state
               /\ transformations s = transformations state)).
  - intros s HP. destruct s; exact HP.
  - intros n s s' step HP _ Hn. node_cases Hn; destruct s; exact HP.
  - repeat split.
Qed.

Lemma run_pointer_inside : forall self fuel state,
  current_step state <= List.length (workflow_plan state) ->
  current_step (state_of_outcome (snd (run self fuel state)))
  <= List.length (workflow_plan state).
Proof.
  intros self fuel state Hle.
  apply (run_keeps self
     (fun s => workflow_plan s = workflow_plan state
               /\ current_step s <= List.length (workflow_plan state))).
  - intros s HP. destruct s; exact HP.
  - intros n s s' step [HP Hin] Hnth Hn.
    destruct (node_function_advances self n s step Hnth) as [s2 [Hn2 [Hp2 Hc2]]].
    rewrite Hn in Hn2. injection Hn2 as <-. split; [congruence|].
    assert (current_step s < List.length (workflow_plan s))
      by (apply nth_error_Some; congruence).
    rewrite Hc2, <- HP. lia.
  - split; [reflexivity|exact Hle].
Qed.

(** X9. A run never touches the request, the plan, the step count or the
    two lists [spatial_queries] and [transformations], whatever the agents
    do; and the pointer, once within the plan, stays within it. *)
Theorem X9_run_leaves_plan_alone : forall self fuel state,
  let final := state_of_outcome (snd (run self fuel state)) in
  user_request final = user_request state
  /\ workflow_plan final = workflow_plan state
  /\ total_steps final = total_steps state
  /\ spatial_queries final = spatial_queries state
  /\ transformations final = transformations state
  /\ (current_step state <= List.length (workflow_plan state) ->
      current_step final <= List.length (workflow_plan final)).
Proof.
  intros self fuel state. cbv zeta.
  destruct (run_fixed_fields self fuel state) as [H1 [H2 [H3 [H4 H5]]]].
  repeat (split; [assumption|]).
  intros Hle. rewrite H2. apply run_pointer_inside, Hle.
Qed.

(** ** What a run records *)

Lemma run_logs : forall self fuel state,
  exists new_errors new_messages,
    errors (state_of_outcome (snd (run self fuel state))) = errors state ++ new_errors
    /\ List.length new_errors <= List.length (fst (run self fuel state))
    /\ messages (state_of_outcome (snd (run self fuel state)))
       = messages state ++ new_messages.
Proof.
  intros self.
  apply (run_trace self
    (fun s v f => exists new_errors new_messages,
       errors f = errors s ++ new_errors
       /\ List.length new_errors <= List.length v
       /\ messages f = messages s ++ new_messages)).
  - intros s. exists [], []. rewrite !app_nil_r. auto.
  - intros s. exists [], (messages s). rewrite app_nil_r.
    destruct s; cbn. auto.
  - intros n s s' step _ Hn.
    destruct (node_logs _ _ _ _ Hn) as [[msg [He Hm]]|[content [He Hm]]].
    + eexists [_], []. rewrite He, Hm, app_nil_r. cbn. auto.
    + eexists [], [_]. rewrite He, Hm, app_nil_r. cbn. auto.
  - intros s1 v1 s2 v2 s3 [e1 [m1 [He1 [Hc1 Hm1]]]] [e2 [m2 [He2 [Hc2 Hm2]]]].
    exists (e1 ++ e2), (m1 ++ m2).
    rewrite He2, He1, Hm2, Hm1, <- !app_assoc, !length_app.
    repeat split. lia.
Qed.

(** Every pass that runs a node multiplies the length of [messages] by four
    at least: the write-back after the router and the one after the node
    each add the list to itself. *)
Lemma run_messages_double : forall self fuel state,
  List.length (messages state) * 4 ^ List.length (fst (run self fuel state))
  <= List.length (messages (state_of_outcome (snd (run self fuel state)))).
Proof.
  intros self. induction fuel as [|fuel IH]; intros state.
  - cbn. lia.
  - rewrite run_unfold. cbv zeta.
    assert (Hback : List.length (messages (write_back state))
                    = 2 * List.length (messages state))
      by (destruct state; cbn; rewrite length_app; lia).
    destruct (edge_for _ conditional_edges) as [[n|]|];
      [|cbn [fst snd state_of_outcome List.length Nat.pow]; lia
       |cbn [fst snd state_of_outcome List.length Nat.pow]; lia].
    destruct (node_function self n (write_back state)) as [state2|] eqn:Hn;
      [|cbn [fst snd state_of_outcome List.length Nat.pow]; lia].
    cbn [fst snd List.length]. specialize (IH (write_back state2)).
    assert (Hnode : List.length (messages (write_back state))
                    <= List.length (messages state2)).
    { destruct (node_logs _ _ _ _ Hn) as [[msg [_ Hm]]|[content [_ Hm]]];
        rewrite Hm, ?length_app; lia. }
    assert (Hback2 : List.length (messages (write_back state2))
                     = 2 * List.length (messages state2))
      by (destruct state2; cbn; rewrite length_app; lia).
    rewrite Nat.pow_succ_r'. nia.
Qed.

(** X10. [errors] only grows, by at most one entry for each node that runs,
    so a state that holds an error never yields a successful result.
    [messages] keeps what it held at its head and grows at least fourfold
    with every node that runs: the graph adds the list to itself when it
    writes the state back, after the router and after the node. *)
Theorem X10_logs_grow : forall self fuel state,
  let visits := fst (run self fuel state) in
  let final := state_of_outcome (snd (run self fuel state)) in
  exists new_errors new_messages,
    errors final = errors state ++ new_errors
    /\ List.length new_errors <= List.length visits
    /\ messages final = messages state ++ new_messages
    /\ List.length (messages state) * 4 ^ List.length visits
       <= List.length (messages final)
    /\ (forall first rest, errors state = first :: rest ->
        success (result_of final) = false).
Proof.
  intros self fuel state. cbv zeta.
  destruct (run_logs self fuel state) as [new_errors [new_messages [He [Hc Hm]]]].
  exists new_errors, new_messages. repeat (split; [assumption|]).
  split; [apply run_messages_double|].
  intros first rest Hfirst. unfold result_of. cbn [success].
  rewrite He, Hfirst. reflexivity.
Qed.

(** What a node that returned did to the output paths. *)
Lemma node_outputs : forall self n state state',
  node_function self n state = Some state' ->
  exists drawn written,
    visualizations state' = visualizations state ++ drawn
    /\ exports state' = exports state ++ written
    /\ final_outputs state' = final_outputs state ++ written
    /\ Forall (fun path => path <> EmptyString) (drawn ++ written)
    /\ List.length drawn <= List.length (filter (executed_by visualization)
                                            [Executed (current_step state) n])
    /\ List.length written <= List.length (filter (executed_by export)
                                              [Executed (current_step state) n]).
Proof.
  intros self n state state' Hn.
  node_cases Hn; destruct state; cbn;
    try solve [ exists [], []; rewrite !app_nil_r; cbn;
                repeat split; auto; constructor ].
  - eexists [_], []. rewrite !app_nil_r. cbn. repeat split; auto.
    constructor; [|constructor].
    match goal with H : path_truthy _ = Some _ |- _ =>
      unfold path_truthy in H; destruct (r_visualization_path _) as [[|]|];
      congruence end.
  - eexists [], [_]. rewrite !app_nil_r. cbn. repeat split; auto.
    constructor; [|constructor].
    match goal with H : path_truthy _ = Some _ |- _ =>
      unfold path_truthy in H; destruct (r_export_path _) as [[|]|];
      congruence end.
Qed.

(** X11. Output paths are only ever appended, never empty, and the export
    node writes the same path to [exports] and to [final_outputs]: over a
    run both grow by one and the same list, of at most one path per executed
    export step, and [visualizations] by at most one path per executed
    visualization step.  After [execute] the two lists are equal. *)
Theorem X11_exports_and_final_outputs_agree : forall self fuel state,
  let visits := fst (run self fuel state) in
  let final := state_of_outcome (snd (run self fuel state)) in
  (exists drawn written,
     visualizations final = visualizations state ++ drawn
     /\ exports final = exports state ++ written
     /\ final_outputs final = final_outputs state ++ written
     /\ Forall (fun path => path <> EmptyString) (drawn ++ written)
     /\ List.length drawn <= List.length (filter (executed_by visualization) visits)
     /\ List.length written <= List.length (filter (executed_by export) visits))
  /\ (forall passes request,
        exports (state_of_outcome (snd (invoke self passes (initial_state request))))
        = final_outputs
            (state_of_outcome (snd (invoke self passes (initial_state request))))).
Proof.
  intros self fuel state. cbv zeta.
  assert (H : forall fuel state, exists drawn written,
     visualizations (state_of_outcome (snd (run self fuel state)))
     = visualizations state ++ drawn
     /\ exports (state_of_outcome (snd (run self fuel state))) = exports state ++ written
     /\ final_outputs (state_of_outcome (snd (run self fuel state)))
        = final_outputs state ++ written
     /\ Forall (fun path => path <> EmptyString) (drawn ++ written)
     /\ List.length drawn
        <= List.length (filter (executed_by visualization) (fst (run self fuel state)))
     /\ List.length written
        <= List.length (filter (executed_by export) (fst (run self fuel state)))).
  { apply (run_trace self
      (fun s v f => exists drawn written,
         visualizations f = visualizations s ++ drawn
         /\ exports f = exports s ++ written
         /\ final_outputs f = final_outputs s ++ written
         /\ Forall (fun path => path <> EmptyString) (drawn ++ written)
         /\ List.length drawn <= List.length (filter (executed_by visualization) v)
         /\ List.length written <= List.length (filter (executed_by export) v))).
    - intros s. exists [], []. rewrite !app_nil_r. cbn.
      repeat split; auto.
    - intros s. exists [], []. rewrite !app_nil_r.
      destruct s; cbn; repeat split; auto.
    - intros n s s' step _ Hn. exact (node_outputs _ _ _ _ Hn).
    - intros s1 v1 s2 v2 s3
        [d1 [w1 [Hv1 [He1 [Hf1 [Hne1 [Hd1 Hw1]]]]]]]
        [d2 [w2 [Hv2 [He2 [Hf2 [Hne2 [Hd2 Hw2]]]]]]].
      exists (d1 ++ d2), (w1 ++ w2).
      rewrite Hv2, Hv1, He2, He1, Hf2, Hf1, <- !app_assoc, !filter_app, !length_app.
      repeat split; try lia.
      apply Forall_app in Hne1, Hne2. destruct Hne1, Hne2.
      repeat (apply Forall_app; split); assumption. }
  split; [apply H|].
  intros passes request. unfold invoke.
  destruct (_plan_workflow self (initial_state request)) as [planned_state|] eqn:Hp;
    [|reflexivity].
  destruct (_plan_workflow_fields _ _ _ Hp)
    as [limit [parsed [_ [_ [_ [_ [_ [_ [_ [_ [_ [_ [_ [Hex Hfo]]]]]]]]]]]]]].
  destruct (H passes (write_back planned_state))
    as [drawn [written [_ [He [Hf _]]]]].
  rewrite He, Hf.
  change (exports (write_back planned_state)) with (exports planned_state).
  change (final_outputs (write_back planned_state)) with (final_outputs planned_state).
  rewrite Hex, Hfo. reflexivity.
Qed.

(** X12. An agent that raises on every call leaves one error for each of its
    steps that runs: the run ends with at least that many errors more than it
    started with, and the result of a run in which such a step ran is not a
    success. *)
Theorem X12_unavailable_agent_fails_the_run : forall self n,
  always_raises self n ->
  forall fuel state,
    let visits := fst (run self fuel state) in
    let final := state_of_outcome (snd (run self fuel state)) in
    List.length (errors state) + List.length (filter (executed_by n) visits)
    <= List.length (errors final)
    /\ (forall p, In (Executed p n) visits -> success (result_of final) = false).
Proof.
  intros self n Hraises fuel state. cbv zeta.
  assert (H : List.length (errors state)
              + List.length (filter (executed_by n) (fst (run self fuel state)))
              <= List.length (errors (state_of_outcome (snd (run self fuel state))))).
  { apply (run_trace self
      (fun s v f => List.length (errors s) + List.length (filter (executed_by n) v)
                    <= List.length (errors f))).
    - intros s. cbn. lia.
    - intros s. destruct s; cbn. lia.
    - intros m s s' step Hnth Hm. cbn [filter executed_by].
      destruct (String.eqb (node_name m) (node_name n)) eqn:Hmn.
      + apply String.eqb_eq in Hmn.
        assert (m = n) by (destruct m, n; cbn in Hmn; congruence). subst m.
        destruct (Hraises (task_description n s step) (parameters step) s)
          as [msg Hmsg].
        rewrite (node_function_raised self n s step msg Hnth Hmsg) in Hm.
        injection Hm as <-. destruct s; cbn. rewrite length_app. cbn. lia.
      + destruct (node_logs _ _ _ _ Hm) as [[msg [He _]]|[content [He _]]];
          rewrite He; [rewrite length_app|]; cbn; lia.
    - intros s1 v1 s2 v2 s3 H1 H2. rewrite filter_app, length_app. lia. }
  split; [exact H|].
  intros p Hin. unfold result_of. cbn [success].
  assert (Hpos : 0 < List.length (filter (executed_by n) (fst (run self fuel state)))).
  { assert (Hf : In (Executed p n) (filter (executed_by n) (fst (run self fuel state)))).
    { apply filter_In. split; [exact Hin|]. cbn. apply String.eqb_refl. }
    destruct (filter (executed_by n) (fst (run self fuel state)));
      [destruct Hf|cbn; lia]. }
  apply Nat.eqb_neq. lia.
Qed.

Lemma X12_witness :
  always_raises (Demo.orchestrator Demo.failing_agent None) search
  /\ success (result_of (state_of_outcome
                 (snd (run (Demo.orchestrator Demo.failing_agent None) 4
                           (Demo.state_of Demo.plan_forward))))) = false.
Proof.
  assert (H : always_raises (Demo.orchestrator Demo.failing_agent None) search)
    by (intros task params state; eexists; reflexivity).
  split; [exact H|].
  apply (X12_unavailable_agent_fails_the_run _ search H 4
           (Demo.state_of Demo.plan_forward)) with (p := 0).
  vm_compute. left. reflexivity.
Defined.

(** X13. When no agent raises, a run adds no error: the state it stops in
    holds the errors it started with, and [execute], when it returns a
    result, reports success. *)
Theorem X13_no_exception_no_error : forall self,
  never_raises self ->
  (forall fuel state,
     errors (state_of_outcome (snd (run self fuel state))) = errors state)
  /\ (forall passes request result,
        execute self passes request = Some result ->
        success result = true /\ res_errors result = []).
Proof.
  intros self Hquiet.
  assert (H : forall fuel state,
     errors (state_of_outcome (snd (run self fuel state))) = errors state).
  { intros fuel state.
    apply (run_keeps self (fun s => errors s = errors state)).
    - intros s HP. destruct s; exact HP.
    - intros n s s' step HP Hnth Hn.
      destruct (Hquiet n (task_description n s step) (parameters step) s)
        as [results Hres].
      rewrite <- HP.
      destruct n; cbn [node_function agent_of task_description] in *;
        unfold _execute_search, _execute_download, _execute_spatial_query,
          _execute_transform, _execute_process, _execute_analysis,
          _execute_visualization, _execute_export, store_processed in Hn;
        cbv zeta in Hn; rewrite Hnth, Hres in Hn;
        repeat match type of Hn with
               | context [match ?x with _ => _ end] =>
                   lazymatch x with
                   | context [match _ with _ => _ end] => fail
                   | _ => destruct x eqn:?
                   end
               end;
        injection Hn as <-; destruct s; reflexivity.
    - reflexivity. }
  split; [exact H|].
  intros passes request result Hex. unfold execute, invoke in Hex.
  destruct (_plan_workflow self (initial_state request)) as [planned_state|] eqn:Hp;
    [|discriminate].
  destruct (_plan_workflow_fields _ _ _ Hp)
    as [limit [parsed [_ [_ [_ [_ [_ [_ [_ [He _]]]]]]]]]].
  specialize (H passes (write_back planned_state)).
  destruct (snd (run self passes (write_back planned_state)))
    as [final| | | |]; try discriminate.
  injection Hex as <-. cbn [state_of_outcome] in H.
  unfold result_of. cbn [success res_errors]. rewrite H.
  change (errors (write_back planned_state)) with (errors planned_state).
  rewrite He. split; reflexivity.
Qed.

Lemma X13_witness :
  never_raises (Demo.orchestrator Demo.quiet_agent None)
  /\ errors (state_of_outcome
               (snd (run (Demo.orchestrator Demo.quiet_agent None) 4
                         (Demo.state_of Demo.plan_forward)))) = [].
Proof.
  assert (H : never_raises (Demo.orchestrator Demo.quiet_agent None))
    by (intros n task params state; destruct n; eexists; reflexivity).
  split; [exact H|].
  exact (proj1 (X13_no_exception_no_error _ H) 4 (Demo.state_of Demo.plan_forward)).
Defined.

(** ** Stored artifacts *)

Lemma dict_get_set_same : forall k v d, dict_get k (dict_set k v d) = Some v.
Proof.
  intros k v d. induction d as [|[k' v'] d IH]; cbn.
  - rewrite String.eqb_refl. reflexivity.
  - destruct (String.eqb k k') eqn:E; cbn; rewrite ?String.eqb_refl, ?E; auto.
Qed.

Lemma dict_get_set_other : forall k k' v d,
  k <> k' -> dict_get k (dict_set k' v d) = dict_get k d.
Proof.
  intros k k' v d Hne. apply String.eqb_neq in Hne.
  induction d as [|[k0 v0] d IH]; cbn.
  - rewrite Hne. reflexivity.
  - destruct (String.eqb k' k0) eqn:E; cbn.
    + apply String.eqb_eq in E. subst k0. rewrite Hne. reflexivity.
    + rewrite IH. reflexivity.
Qed.

Lemma str_of_nat_inj : forall n m,
  PyStr.str_of_nat n = PyStr.str_of_nat m -> n = m.
Proof.
  intros n m H. unfold PyStr.str_of_nat in H.
  apply Unsigned.to_uint_inj.
  assert (Hs : Some (Nat.to_uint n) = Some (Nat.to_uint m))
    by (rewrite <- !NilEmpty.usu, H; reflexivity).
  congruence.
Qed.

(** The keys of two different steps never collide. *)
Lemma processed_key_inj : forall n p m q,
  processed_key n p = processed_key m q -> n = m /\ p = q.
Proof.
  intros n p m q H. unfold processed_key in H.
  destruct n, m; cbn in H; try discriminate H;
    (split; [reflexivity|]); apply str_of_nat_inj; congruence.
Qed.

(** A node writes to [processed_data] under its own key only, and to
    [analysis_results] under the key of the analysis node only. *)
Lemma node_stores : forall self n state state',
  node_function self n state = Some state' ->
  (processed_data state' = processed_data state
   \/ exists v, processed_data state'
                = dict_set (processed_key n (current_step state)) v
                           (processed_data state))
  /\ (analysis_results state' = analysis_results state
      \/ exists v, analysis_results state'
                   = dict_set (processed_key analysis (current_step state)) v
                              (analysis_results state)).
Proof.
  intros self n state state' Hn.
  node_cases Hn; destruct state; cbn;
    solve [ split; left; reflexivity
          | split; [right; eexists; reflexivity | left; reflexivity]
          | split; [left; reflexivity | right; eexists; reflexivity] ].
Qed.

(** An entry stored under the key of a position the pointer has passed
    stays as it is. *)
Lemma run_keeps_entries : forall self n p v fuel state,
  p < current_step state ->
  (dict_get (processed_key n p) (processed_data state) = v ->
   dict_get (processed_key n p)
            (processed_data (state_of_outcome (snd (run self fuel state)))) = v)
  /\ (dict_get (processed_key n p) (analysis_results state) = v ->
      dict_get (processed_key n p)
               (analysis_results (state_of_outcome (snd (run self fuel state)))) = v).
Proof.
  intros self n p v fuel state Hlt.
  assert (H : p < current_step (state_of_outcome (snd (run self fuel state)))
    /\ dict_get (processed_key n p)
         (processed_data (state_of_outcome (snd (run self fuel state))))
       = dict_get (processed_key n p) (processed_data state)
    /\ dict_get (processed_key n p)
         (analysis_results (state_of_outcome (snd (run self fuel state))))
       = dict_get (processed_key n p) (analysis_results state)).
  { apply (run_keeps self
      (fun s => p < current_step s
                /\ dict_get (processed_key n p) (processed_data s)
                   = dict_get (processed_key n p) (processed_data state)
                /\ dict_get (processed_key n p) (analysis_results s)
                   = dict_get (processed_key n p) (analysis_results state))).
    - intros s HP. destruct s; exact HP.
    - intros m s s' step [Hp [HP HA]] Hnth Hm.
      destruct (node_function_advances self m s step Hnth) as [s2 [Hm2 [_ Hc]]].
      rewrite Hm in Hm2. injection Hm2 as <-.
      split; [lia|].
      destruct (node_stores _ _ _ _ Hm) as [[Hpd|[w Hpd]] [Had|[w' Had]]];
        rewrite Hpd, Had, ?dict_get_set_other; auto;
        intros Heq; apply processed_key_inj in Heq; lia.
    - auto. }
  destruct H as [_ [HP HA]]. split; intros <-; assumption.
Qed.

(** X14. A processing node (spatial query, transform, process) whose agent
    returns stores the artifact of the result, when there is one, in
    [processed_data] under [<step type>_<position>] and changes no other
    key; without an artifact it stores nothing.  The keys of different
    steps differ, so the entry is still there, unchanged, when the run
    stops. *)
Theorem X14_processed_artifact_is_kept : forall self n state step results,
  is_processing_node n = true ->
  nth_error (workflow_plan state) (current_step state) = Some step ->
  agent_of self n (task_description n state step) (parameters step) state
  = Returned results ->
  exists state',
    node_function self n state = Some state'
    /\ (artifact_of n results = None -> processed_data state' = processed_data state)
    /\ (forall key, key <> processed_key n (current_step state) ->
        dict_get key (processed_data state') = dict_get key (processed_data state))
    /\ (forall v, artifact_of n results = Some v ->
        dict_get (processed_key n (current_step state)) (processed_data state')
        = Some v
        /\ forall fuel,
             dict_get (processed_key n (current_step state))
               (processed_data (state_of_outcome (snd (run self fuel state'))))
             = Some v).
Proof.
  intros self n state step results Hproc Hnth Hres.
  destruct (node_function_advances self n state step Hnth) as [state' [Hn [_ Hc]]].
  exists state'. split; [exact Hn|].
  assert (Hpd : processed_data state'
                = match artifact_of n results with
                  | Some v => dict_set (processed_key n (current_step state)) v
                                       (processed_data state)
                  | None => processed_data state
                  end).
  { destruct n; try discriminate Hproc;
      cbn [node_function agent_of task_description artifact_of] in *;
      unfold _execute_spatial_query, _execute_transform, _execute_process,
        store_processed in Hn;
      cbv zeta in Hn; rewrite Hnth, Hres in Hn; injection Hn as <-;
      match goal with |- context [match ?x with _ => _ end] => destruct x end;
      destruct state; reflexivity. }
  split; [intros Hnone; rewrite Hpd, Hnone; reflexivity|].
  split.
  - intros key Hkey. rewrite Hpd.
    destruct (artifact_of n results); [|reflexivity].
    apply dict_get_set_other, Hkey.
  - intros v Hv. rewrite Hv in Hpd.
    assert (Hget : dict_get (processed_key n (current_step state)) (processed_data state')
                   = Some v) by (rewrite Hpd; apply dict_get_set_same).
    split; [exact Hget|]. intros fuel.
    apply (run_keeps_entries self n (current_step state) (Some v) fuel state');
      [lia|exact Hget].
Qed.

Lemma X14_witness :
  exists state',
    node_function (Demo.orchestrator
                     (fun _ _ _ => Returned
                        (mkResults None None None (Some (VStr "reprojected"))
                                   None None None None)) None)
                  transform
                  (Demo.state_of [mkTask "transform" "reproject" [] []])
    = Some state'
    /\ dict_get "transform_0" (processed_data state') = Some (VStr "reprojected").
Proof.
  destruct (X14_processed_artifact_is_kept
              (Demo.orchestrator
                 (fun _ _ _ => Returned
                    (mkResults None None None (Some (VStr "reprojected"))
                               None None None None)) None)
              transform
              (Demo.state_of [mkTask "transform" "reproject" [] []])
              (mkTask "transform" "reproject" [] [])
              (mkResults None None None (Some (VStr "reprojected")) None None None None)
              eq_refl eq_refl eq_refl)
    as [state' [Hn [_ [_ Hv]]]].
  exists state'. split; [exact Hn|].
  exact (proj1 (Hv (VStr "reprojected") eq_refl)).
Defined.

(** X15. The analysis node whose agent returns always stores an entry in
    [analysis_results] under [analysis_<position>]: the analysis of the
    result, or an empty dict when the result has none.  It changes no other
    key, and the entry is still there, unchanged, when the run stops. *)
Theorem X15_analysis_entry_is_kept : forall self state step results,
  nth_error (workflow_plan state) (current_step state) = Some step ->
  analysis_agent self (description step) (parameters step) state = Returned results ->
  exists state',
    _execute_analysis self state = Some state'
    /\ dict_get (processed_key analysis (current_step state)) (analysis_results state')
       = Some (match r_analysis results with Some v => v | None => VDict [] end)
    /\ (forall key, key <> processed_key analysis (current_step state) ->
        dict_get key (analysis_results state') = dict_get key (analysis_results state))
    /\ processed_data state' = processed_data state
    /\ forall fuel,
         dict_get (processed_key analysis (current_step state))
           (analysis_results (state_of_outcome (snd (run self fuel state'))))
         = Some (match r_analysis results with Some v => v | None => VDict [] end).
Proof.
  intros self state step results Hnth Hres.
  destruct (node_function_advances self analysis state step Hnth)
    as [state' [Hn [_ Hc]]].
  cbn [node_function] in Hn. exists state'. split; [exact Hn|].
  assert (Har : analysis_results state'
                = dict_set (processed_key analysis (current_step state))
                    (match r_analysis results with Some v => v | None => VDict [] end)
                    (analysis_results state)
                /\ processed_data state' = processed_data state).
  { unfold _execute_analysis in Hn. cbv zeta in Hn. rewrite Hnth, Hres in Hn.
    injection Hn as <-. destruct state; split; reflexivity. }
  destruct Har as [Har Hpd].
  assert (Hget : dict_get (processed_key analysis (current_step state))
                          (analysis_results state')
                 = Some (match r_analysis results with Some v => v | None => VDict [] end))
    by (rewrite Har; apply dict_get_set_same).
  split; [exact Hget|]. split; [|split; [exact Hpd|]].
  - intros key Hkey. rewrite Har. apply dict_get_set_other, Hkey.
  - intros fuel.
    apply (run_keeps_entries self analysis (current_step state) _ fuel state');
      [lia|exact Hget].
Qed.

Lemma X15_witness :
  exists state',
    _execute_analysis (Demo.orchestrator Demo.quiet_agent None)
                      (Demo.state_of [mkTask "analysis" "count" [] []])
    = Some state'
    /\ dict_get "analysis_0" (analysis_results state') = Some (VDict []).
Proof.
  destruct (X15_analysis_entry_is_kept
              (Demo.orchestrator Demo.quiet_agent None)
              (Demo.state_of [mkTask "analysis" "count" [] []])
              (mkTask "analysis" "count" [] []) Demo.no_results
              eq_refl eq_refl)
    as [state' [Hn [Hget _]]].
  exists state'. split; [exact Hn|exact Hget].
Defined.

(** ** Downloads *)

Lemma dict_update_cons : forall d k v e,
  dict_update d ((k, v) :: e) = dict_update (dict_set k v d) e.
Proof. reflexivity. Qed.

Lemma dict_get_update_other : forall k e d,
  dict_get k e = None -> dict_get k (dict_update d e) = dict_get k d.
Proof.
  intros k e. induction e as [|[k' v'] e IH]; intros d Hk; [reflexivity|].
  cbn in Hk. destruct (String.eqb k k') eqn:E; [discriminate|].
  rewrite dict_update_cons, (IH _ Hk).
  apply dict_get_set_other. apply String.eqb_neq, E.
Qed.

Lemma dict_get_In : forall k v d, dict_get k d = Some v -> In k (map fst d).
Proof.
  intros k v d. induction d as [|[k' v'] d IH]; cbn; [discriminate|].
  destruct (String.eqb k k') eqn:E.
  - apply String.eqb_eq in E. auto.
  - intros H. right. exact (IH H).
Qed.

Lemma dict_get_update_same : forall k v e d,
  NoDup (map fst e) ->
  dict_get k e = Some v -> dict_get k (dict_update d e) = Some v.
Proof.
  intros k v e. induction e as [|[k' v'] e IH]; intros d Hnd Hk; [discriminate|].
  cbn in Hk, Hnd. inversion Hnd as [|? ? Hnotin Hnd']; subst.
  rewrite dict_update_cons.
  destruct (String.eqb k k') eqn:E.
  - apply String.eqb_eq in E. subst k'. injection Hk as ->.
    rewrite dict_get_update_other; [apply dict_get_set_same|].
    destruct (dict_get k e) eqn:G; [|reflexivity].
    exfalso. exact (Hnotin (dict_get_In _ _ _ G)).
  - apply IH; assumption.
Qed.

Lemma dict_mem_set : forall k k' v d,
  dict_mem k d = true -> dict_mem k (dict_set k' v d) = true.
Proof.
  intros k k' v d H. unfold dict_mem in *.
  destruct (String.eqb k k') eqn:E.
  - apply String.eqb_eq in E. subst k'. rewrite dict_get_set_same. reflexivity.
  - rewrite dict_get_set_other by (apply String.eqb_neq, E). exact H.
Qed.

Lemma dict_mem_update : forall k e d,
  dict_mem k d = true -> dict_mem k (dict_update d e) = true.
Proof.
  intros k e. induction e as [|[k' v'] e IH]; intros d H; [exact H|].
  rewrite dict_update_cons. apply IH, dict_mem_set, H.
Qed.

(** X16. The download node calls its agent with the user's request, not
    with the description of the step.  When the agent returns a dict of
    downloads (a dict has each key once), the node merges it into
    [downloaded_data]: a key of the new dict gets the new value, every other
    key keeps its value; the message reports the size of the new dict, not of
    the merged one. *)
Theorem X16_download_merges : forall self state step results d,
  nth_error (workflow_plan state) (current_step state) = Some step ->
  download_agent self (user_request state) (parameters step) state = Returned results ->
  r_downloaded_data results = Some d ->
  NoDup (map fst d) ->
  exists state',
    _execute_download self state = Some state'
    /\ (forall k v, dict_get k d = Some v ->
        dict_get k (downloaded_data state') = Some v)
    /\ (forall k, dict_get k d = None ->
        dict_get k (downloaded_data state') = dict_get k (downloaded_data state))
    /\ messages state'
       = messages state
         ++ [AIMessage ("Download completed: " ++ PyStr.str_of_nat (List.length d)
                        ++ " datasets")%string]
    /\ errors state' = errors state
    /\ search_results state' = search_results state.
Proof.
  intros self state step results d Hnth Hres Hd Hnd.
  unfold _execute_download. cbv zeta. rewrite Hnth, Hres, Hd.
  eexists. split; [reflexivity|].
  destruct state; cbn. repeat split.
  - intros k v Hk. apply dict_get_update_same; assumption.
  - intros k Hk. apply dict_get_update_other, Hk.
Qed.

Lemma X16_witness :
  exists state',
    _execute_download
      (Demo.orchestrator
         (fun _ _ _ => Returned
            (mkResults None (Some [("tiles", VStr "tiles.tif")])
                       None None None None None None)) None)
      (Demo.state_of [mkTask "download" "fetch" [] []])
    = Some state'
    /\ dict_get "tiles" (downloaded_data state') = Some (VStr "tiles.tif").
Proof.
  destruct (X16_download_merges
              (Demo.orchestrator
                 (fun _ _ _ => Returned
                    (mkResults None (Some [("tiles", VStr "tiles.tif")])
                               None None None None None None)) None)
              (Demo.state_of [mkTask "download" "fetch" [] []])
              (mkTask "download" "fetch" [] [])
              (mkResults None (Some [("tiles", VStr "tiles.tif")])
                         None None None None None None)
              [("tiles", VStr "tiles.tif")]
              eq_refl eq_refl eq_refl
              ltac:(repeat constructor; cbn; intuition discriminate))
    as [state' [Hn [Hget _]]].
  exists state'. split; [exact Hn|]. exact (Hget "tiles" _ eq_refl).
Defined.

(** What a node that returned did to the three dicts of collected data. *)
Lemma node_dicts_grow : forall self n state state',
  node_function self n state = Some state' ->
  forall k,
    (dict_mem k (downloaded_data state) = true ->
     dict_mem k (downloaded_data state') = true)
    /\ (dict_mem k (processed_data state) = true ->
        dict_mem k (processed_data state') = true)
    /\ (dict_mem k (analysis_results state) = true ->
        dict_mem k (analysis_results state') = true).
Proof.
  intros self n state state' Hn k.
  node_cases Hn; destruct state; cbn;
    repeat split; auto using dict_mem_set, dict_mem_update.
Qed.

(** X17. No key is ever removed from the collected data: a key that
    [downloaded_data], [processed_data] or [analysis_results] holds at some
    point of a run is still a key of it when the run stops, whatever the
    agents return or raise. *)
Theorem X17_collected_keys_stay : forall self fuel state k,
  let final := state_of_outcome (snd (run self fuel state)) in
  (dict_mem k (downloaded_data state) = true ->
   dict_mem k (downloaded_data final) = true)
  /\ (dict_mem k (processed_data state) = true ->
      dict_mem k (processed_data final) = true)
  /\ (dict_mem k (analysis_results state) = true ->
      dict_mem k (analysis_results final) = true).
Proof.
  intros self fuel state k. cbv zeta.
  apply (run_keeps self
    (fun s =>
       (dict_mem k (downloaded_data state) = true ->
        dict_mem k (downloaded_data s) = true)
       /\ (dict_mem k (processed_data state) = true ->
           dict_mem k (processed_data s) = true)
       /\ (dict_mem k (analysis_results state) = true ->
           dict_mem k (analysis_results s) = true))).
  - intros s HP. destruct s; exact HP.
  - intros n s s' step [H1 [H2 H3]] _ Hn.
    destruct (node_dicts_grow _ _ _ _ Hn k) as [G1 [G2 G3]].
    repeat split; auto.
  - auto.
Qed.

(** ** Plans whose dependencies point backwards *)

Lemma visits_follow_plan : forall plan visits,
  map position_of visits = seq 0 (List.length plan) ->
  Forall (visit_ok plan) visits ->
  map visit_step visits = map step_type plan.
Proof.
  intros plan visits Hpos Hok.
  apply nth_error_ext. intros i.
  rewrite !nth_error_map.
  assert (Hi : nth_error (map position_of visits) i
               = if i <? List.length plan then Some i else None)
    by (rewrite Hpos, nth_error_seq; reflexivity).
  rewrite nth_error_map in Hi.
  destruct (nth_error visits i) as [v|] eqn:Hv; cbn [option_map Nat.add] in Hi |- *.
  - destruct (i <? List.length plan) eqn:Hlt; [|discriminate Hi].
    injection Hi as Hi.
    rewrite Forall_forall in Hok.
    pose proof (Hok v (nth_error_In _ _ Hv)) as Hvok.
    destruct v as [p n]; cbn in Hi, Hvok; subst p.
    destruct Hvok as [step [Hnth [_ Hty]]]. rewrite Hnth. cbn. congruence.
  - destruct (i <? List.length plan) eqn:Hlt; [discriminate Hi|].
    apply Nat.ltb_ge in Hlt.
    destruct (nth_error plan i) eqn:Hp; [|reflexivity].
    assert (i < List.length plan) by (apply nth_error_Some; congruence). lia.
Qed.

Lemma run_backward_plan : forall self fuel state,
  forallb known (workflow_plan state) = true ->
  backward_deps 0 (workflow_plan state) = true ->
  current_step state = 0 ->
  List.length (workflow_plan state) < fuel ->
  exists visits final,
    run self fuel state = (visits, Ended final)
    /\ map visit_step visits = map step_type (workflow_plan state)
    /\ map position_of visits = seq 0 (List.length (workflow_plan state))
    /\ current_step final = List.length (workflow_plan state)
    /\ workflow_plan final = workflow_plan state
    /\ List.length (errors final)
       <= List.length (errors state) + List.length (workflow_plan state).
Proof.
  intros self fuel state Hknown Hback Hcur Hfuel.
  destruct (run_met_plan self fuel state Hknown) as
    [visits [final [Hrun [Hpos [Hok [Hfin Hplan]]]]]].
  - intros q step _ Hnth. exact (backward_deps_met _ _ _ Hback Hnth).
  - lia.
  - lia.
  - rewrite Hcur, Nat.sub_0_r in Hpos.
    exists visits, final. split; [exact Hrun|].
    split; [exact (visits_follow_plan _ _ Hpos Hok)|].
    split; [exact Hpos|]. split; [exact Hfin|]. split; [exact Hplan|].
    destruct (run_logs self fuel state) as [new_errors [new_messages [He [Hc _]]]].
    rewrite Hrun in He, Hc. cbn [fst snd state_of_outcome] in He, Hc.
    rewrite He, length_app.
    assert (Hlen : List.length visits = List.length (workflow_plan state)).
    { rewrite <- (length_map position_of), Hpos, length_seq. reflexivity. }
    lia.
Qed.



(** ** The planner *)

(** The planner's loop over the search steps changes nothing in a plan of
    the heuristic builder: its search step carries a limit. *)
Lemma inject_limit_builder : forall z req hint,
  map (inject_limit z) (_create_smart_default_workflow req hint)
  = _create_smart_default_workflow req hint.
Proof.
  intros z req hint.
  assert (Hsearch : inject_limit z (search_step req hint) = search_step req hint)
    by reflexivity.
  assert (Hlater : forall ext, forallb later_step ext = true ->
                               map (inject_limit z) ext = ext).
  { induction ext as [|step ext IH]; cbn; [reflexivity|].
    intros H. apply andb_true_iff in H. destruct H as [H1 H2].
    rewrite (IH H2). f_equal.
    unfold later_step in H1. apply andb_true_iff in H1. destruct H1 as [_ H1].
    apply negb_true_iff in H1. unfold is_search in H1.
    unfold inject_limit. rewrite H1. reflexivity. }
  unfold _create_smart_default_workflow. cbv zeta.
  destruct (built_workflow_shape req hint) as [ext [Hshape Hext]].
  destruct (has_url req && negb (nonempty (built_workflow req hint))).
  - reflexivity.
  - destruct (nonempty (built_workflow req hint)).
    + rewrite Hshape, map_app, (Hlater _ Hext). f_equal.
      unfold add_search. destruct (wants_search req); cbn [app map];
        [rewrite Hsearch|]; reflexivity.
    + cbn [map]. rewrite Hsearch. reflexivity.
Qed.

Lemma planned_without_reply : forall request hint,
  planned None request hint = _create_smart_default_workflow request hint.
Proof.
  intros request hint. unfold planned. cbv zeta.
  destruct (nonempty (_create_smart_default_workflow request hint));
    cbn [negb]; [|reflexivity].
  destruct hint as [z|]; [|reflexivity].
  destruct (int_truthy (Some z)); [|reflexivity].
  apply inject_limit_builder.
Qed.

Lemma heuristic_plan_length : forall request hint,
  List.length (_create_smart_default_workflow request hint) <= 5.
Proof.
  intros request hint.
  destruct (_create_smart_default_workflow_well_formed request hint) as [Hsub _].
  pose proof (is_subsequence_length _ _ Hsub) as H.
  rewrite length_map in H. exact H.
Qed.

(** X5. When the planner gets a quantity out of the extractor and no usable
    plan out of the language model, the plan is the one of the heuristic
    builder, as it is, and with room for six passes [execute] runs it to the
    end: every step is run by the node of its type, in the order of the
    plan, the run reaches [END] and a result is returned, with at most one
    error for each step. *)
Theorem X5_heuristic_plan_runs_every_step : forall self passes request hint,
  _extract_number (w2n_word_to_num self) request = Returned hint ->
  llm_plan self request = Returned None ->
  5 < passes ->
  planned None request hint = _create_smart_default_workflow request hint
  /\ exists visits final result,
       invoke self passes (initial_state request) = (visits, Ended final)
       /\ workflow_plan final = _create_smart_default_workflow request hint
       /\ map visit_step visits
          = map step_type (_create_smart_default_workflow request hint)
       /\ map position_of visits
          = seq 0 (List.length (_create_smart_default_workflow request hint))
       /\ execute self passes request = Some result
       /\ List.length (res_errors result)
          <= List.length (_create_smart_default_workflow request hint).
Proof.
  intros self passes request hint Hhint Hreply Hpasses.
  pose proof (planned_without_reply request hint) as Hplanned.
  split; [exact Hplanned|].
  assert (Hplan : _plan_workflow self (initial_state request)
                  = Returned
                      (let plan := _create_smart_default_workflow request hint in
                       set_messages
                         ([HumanMessage request]
                          ++ [AIMessage ("Workflow planned with "
                                         ++ PyStr.str_of_nat (List.length plan)
                                         ++ " steps: "
                                         ++ PyStr.join ", " (map step_type_shown plan))%string])
                         (mkState request plan 0 (List.length plan)
                                  [] [] [] [] [] [] [] [] [] [HumanMessage request] []))).
  { unfold _plan_workflow. cbn [user_request initial_state].
    rewrite Hhint, Hreply, Hplanned. reflexivity. }
  pose proof (heuristic_plan_length request hint) as Hlen.
  unfold invoke, execute, invoke. rewrite Hplan. cbv zeta.
  match goal with |- context [run self passes ?s] =>
    destruct (run_backward_plan self passes s)
      as [visits [final [Hrun [Hsteps [Hpos [_ [Hplanf Herr]]]]]]]
  end.
  - apply _create_smart_default_workflow_known.
  - apply _create_smart_default_workflow_well_formed.
  - reflexivity.
  - cbn [workflow_plan write_back set_messages]. lia.
  - cbn [workflow_plan write_back set_messages errors List.length Nat.add]
      in Hsteps, Hpos, Hplanf, Herr.
    exists visits, final, (result_of final). rewrite Hrun. cbn [snd].
    repeat (split; [first [reflexivity | assumption]|]).
    exact Herr.
Qed.

Lemma X5_witness :
  exists visits final,
    invoke (Demo.orchestrator Demo.failing_agent None) 6
           (initial_state "download flood maps")
    = (visits, Ended final)
    /\ map visit_step visits = ["download"; "visualization"].
Proof.
  destruct (X5_heuristic_plan_runs_every_step
              (Demo.orchestrator Demo.failing_agent None) 6
              "download flood maps" None eq_refl eq_refl ltac:(lia))
    as [_ [visits [final [result [Hrun [_ [Hsteps _]]]]]]].
  exists visits, final. split; [exact Hrun|exact Hsteps].
Defined.

Lemma inject_limit_fields : forall z step,
  step_type (inject_limit z step) = step_type step
  /\ description (inject_limit z step) = description step
  /\ dependencies (inject_limit z step) = dependencies step.
Proof.
  intros z step. unfold inject_limit.
  destruct (String.eqb (step_type step) "search"); [|auto].
  destruct (dict_mem "limit" (parameters step)); auto.
Qed.

(** X7. A parsed plan with at least one step is kept step by step.  When the
    request names no quantity, or the quantity 0, the plan is left as it is.
    Otherwise every search step without a [limit] gets the quantity as its
    limit, its other parameters unchanged; a search step that has a limit
    keeps it, and no step of another type is touched.  Step types,
    descriptions and dependencies are never changed, so afterwards every
    search step has a limit.  This is the plan the planner node puts into
    the state. *)
Theorem X7_limit_injection : forall request parsed hint,
  nonempty parsed = true ->
  (forall self state state',
     user_request state = request ->
     _extract_number (w2n_word_to_num self) request = Returned hint ->
     llm_plan self request = Returned (Some parsed) ->
     _plan_workflow self state = Returned state' ->
     workflow_plan state' = planned (Some parsed) request hint)
  /\ (int_truthy hint = false -> planned (Some parsed) request hint = parsed)
  /\ (forall z, hint = Some z -> z <> 0%Z ->
      planned (Some parsed) request hint = map (inject_limit z) parsed
      /\ map step_type (planned (Some parsed) request hint) = map step_type parsed
      /\ map description (planned (Some parsed) request hint)
         = map description parsed
      /\ map dependencies (planned (Some parsed) request hint)
         = map dependencies parsed
      /\ Forall (fun step => is_search step = true ->
                             dict_mem "limit" (parameters step) = true)
                (planned (Some parsed) request hint)
      /\ Forall (fun step =>
                   (is_search step = false \/ dict_mem "limit" (parameters step) = true ->
                    inject_limit z step = step)
                   /\ (is_search step = true ->
                       dict_mem "limit" (parameters step) = false ->
                       dict_get "limit" (parameters (inject_limit z step))
                       = Some (VInt z)
                       /\ forall k, k <> "limit" ->
                            dict_get k (parameters (inject_limit z step))
                            = dict_get k (parameters step)))
                parsed).
Proof.
  intros request parsed hint Hne. split.
  { intros self state state' Hreq Hhint Hreply Hplan.
    destruct (_plan_workflow_fields _ _ _ Hplan)
      as [limit [reply [Hl [Hr [Hwp _]]]]].
    rewrite Hreq in *. rewrite Hhint in Hl. rewrite Hreply in Hr.
    injection Hl as <-. injection Hr as <-. exact Hwp. }
  unfold planned. cbv zeta. rewrite Hne. cbn [negb].
  split.
  - intros Hfalse. destruct hint as [z|]; [|reflexivity].
    rewrite Hfalse. reflexivity.
  - intros z Hz Hnz. rewrite Hz.
    assert (Ht : int_truthy (Some z) = true).
    { cbn. apply negb_true_iff, Z.eqb_neq, Hnz. }
    rewrite Ht. split; [reflexivity|].
    rewrite !map_map.
    split; [apply map_ext; intros step; apply inject_limit_fields|].
    split; [apply map_ext; intros step; apply inject_limit_fields|].
    split; [apply map_ext; intros step; apply inject_limit_fields|].
    split.
    + apply Forall_forall. intros step Hin.
      apply in_map_iff in Hin. destruct Hin as [step0 [<- _]].
      unfold is_search. rewrite (proj1 (inject_limit_fields z step0)).
      unfold inject_limit.
      destruct (String.eqb (step_type step0) "search") eqn:Hs.
      * destruct (dict_mem "limit" (parameters step0)) eqn:Hm; [auto|].
        intros _. cbn [parameters]. unfold dict_mem.
        rewrite dict_get_set_same. reflexivity.
      * discriminate.
    + apply Forall_forall. intros step _. unfold is_search, inject_limit.
      destruct (String.eqb (step_type step) "search").
      * destruct (dict_mem "limit" (parameters step)).
        -- split; [reflexivity|discriminate].
        -- split; [intros [H|H]; discriminate|].
           intros _ _. cbn [parameters].
           split; [apply dict_get_set_same|].
           intros k Hk. apply dict_get_set_other, Hk.
      * split; [reflexivity|discriminate].
Qed.

Lemma X7_witness :
  planned (Some [ mkTask "search" "find tiles" [("query", VStr "tiles")] [];
                  mkTask "download" "fetch them" [] [] ])
          "find 3 datasets" (Some 3%Z)
  = [ mkTask "search" "find tiles" [("query", VStr "tiles"); ("limit", VInt 3)] [];
      mkTask "download" "fetch them" [] [] ].
Proof.
  exact (proj1 (proj2 (proj2 (X7_limit_injection
                  "find 3 datasets"
                  [ mkTask "search" "find tiles" [("query", VStr "tiles")] [];
                    mkTask "download" "fetch them" [] [] ]
                  (Some 3%Z) eq_refl))
                3%Z eq_refl ltac:(discriminate))).
Defined.

(** ** The step types of a heuristic plan *)

Lemma any_step_of_types : forall kinds workflow,
  any_step_of kinds workflow
  = existsb (fun ty => existsb (String.eqb ty) kinds) (map step_type workflow).
Proof.
  intros kinds workflow. unfold any_step_of.
  induction workflow as [|step workflow IH]; cbn; [reflexivity|].
  rewrite IH. reflexivity.
Qed.

Lemma first_is_types : forall kind workflow,
  first_is kind workflow
  = match map step_type workflow with
    | ty :: _ => String.eqb ty kind
    | [] => false
    end.
Proof. intros kind [|step workflow]; reflexivity. Qed.

Lemma nonempty_types : forall workflow : Plan,
  nonempty workflow = nonempty (map step_type workflow).
Proof. intros [|step workflow]; reflexivity. Qed.

Lemma types_add_search : forall req hint,
  map step_type (add_search req hint [])
  = if wants_search req then ["search"] else [].
Proof. intros. unfold add_search. destruct (wants_search req); reflexivity. Qed.

Lemma types_add_download : forall req hint workflow,
  map step_type (add_download req hint workflow)
  = map step_type workflow
    ++ (if any_keyword download_keywords (request_lower req) || has_url req
        then ["download"] else []).
Proof.
  intros. unfold add_download.
  destruct (any_keyword download_keywords (request_lower req) || has_url req).
  - cbv zeta. rewrite map_app. reflexivity.
  - rewrite app_nil_r. reflexivity.
Qed.

Lemma types_add_process : forall req workflow,
  map step_type (add_process req workflow)
  = map step_type workflow
    ++ (if any_keyword process_keywords (request_lower req)
        then ["process"] else []).
Proof.
  intros. unfold add_process.
  destruct (any_keyword process_keywords (request_lower req)).
  - rewrite map_app. reflexivity.
  - rewrite app_nil_r. reflexivity.
Qed.

Lemma types_add_visualization : forall req hint workflow,
  map step_type (add_visualization req hint workflow)
  = map step_type workflow
    ++ (if any_keyword viz_keywords (request_lower req)
        then (if negb (any_step_of ["download"; "process"; "analysis"] workflow)
                 && negb (has_url req)
              then ["download"] else [])
             ++ ["visualization"]
        else []).
Proof.
  intros. unfold add_visualization.
  destruct (any_keyword viz_keywords (request_lower req)).
  - cbv zeta.
    destruct (negb (any_step_of ["download"; "process"; "analysis"] workflow)
              && negb (has_url req));
      rewrite !map_app, <- ?app_assoc; reflexivity.
  - rewrite app_nil_r. reflexivity.
Qed.

Lemma types_add_export : forall req hint workflow,
  map step_type (add_export req hint workflow)
  = map step_type workflow
    ++ (if any_keyword export_keywords (request_lower req)
        then (if negb (any_step_of ["download"; "process"; "analysis"; "visualization"]
                                   workflow)
                 && negb (has_url req)
              then ["download"] else [])
             ++ ["export"]
        else []).
Proof.
  intros. unfold add_export.
  destruct (any_keyword export_keywords (request_lower req)).
  - cbv zeta.
    destruct (negb (any_step_of ["download"; "process"; "analysis"; "visualization"]
                                workflow)
              && negb (has_url req));
      rewrite !map_app, <- ?app_assoc; reflexivity.
  - rewrite app_nil_r. reflexivity.
Qed.

(** The step types after the five blocks search, download, process,
    visualization and export. *)
Lemma types_five_blocks : forall req hint,
  map step_type
    (add_export req hint (add_visualization req hint
       (add_process req (add_download req hint (add_search req hint [])))))
  = (if wants_search req then ["search"] else [])
    ++ (if any_keyword download_keywords (request_lower req) || has_url req
           || negb (any_keyword process_keywords (request_lower req))
              && (any_keyword viz_keywords (request_lower req)
                  || any_keyword export_keywords (request_lower req))
        then ["download"] else [])
    ++ (if any_keyword process_keywords (request_lower req) then ["process"] else [])
    ++ (if any_keyword viz_keywords (request_lower req)
        then ["visualization"] else [])
    ++ (if any_keyword export_keywords (request_lower req) then ["export"] else []).
Proof.
  intros req hint.
  rewrite types_add_export, any_step_of_types.
  rewrite types_add_visualization, any_step_of_types.
  rewrite types_add_process, types_add_download, types_add_search.
  unfold wants_search.
  destruct (has_url req),
    (negb (PyStr.contains "download" (request_lower req))
     || PyStr.contains "search" (request_lower req)),
    (any_keyword download_keywords (request_lower req)),
    (any_keyword process_keywords (request_lower req)),
    (any_keyword viz_keywords (request_lower req)),
    (any_keyword export_keywords (request_lower req));
    reflexivity.
Qed.

(** The block that adds a download step to an empty or search-only list
    never adds one: a request with the word [download] has a download step
    by then. *)
Lemma add_late_download_idle : forall req hint,
  add_late_download req hint
    (add_export req hint (add_visualization req hint
       (add_process req (add_download req hint (add_search req hint [])))))
  = add_export req hint (add_visualization req hint
       (add_process req (add_download req hint (add_search req hint [])))).
Proof.
  intros req hint. unfold add_late_download.
  destruct (PyStr.contains "download" (request_lower req)) eqn:Hcd;
    [|destruct (negb _ || _); reflexivity].
  rewrite first_is_types, nonempty_types, <- (length_map step_type).
  rewrite types_five_blocks.
  assert (Hdk : any_keyword download_keywords (request_lower req) = true).
  { unfold any_keyword, download_keywords. cbn [existsb]. rewrite Hcd. reflexivity. }
  rewrite Hdk. cbn [orb].
  destruct (wants_search req),
    (any_keyword process_keywords (request_lower req)),
    (any_keyword viz_keywords (request_lower req)),
    (any_keyword export_keywords (request_lower req));
    reflexivity.
Qed.

(** X20. The step types of a heuristic plan are a function of six tests on
    the request.  The plan holds, in this order: a search step when the
    opening test holds; a download step when the text has a download word or
    a URL, or when it has a visualization or export word and no processing
    word; a process step for a processing word; a visualization step for a
    visualization word; an export step for an export word.  The block that
    would add a download step late and the two fallbacks that close the
    builder never contribute. *)
Theorem X20_heuristic_step_types : forall req hint,
  let text := PyStr.lower req in
  let url := nonempty (_extract_urls req) in
  let download_word := any_keyword download_keywords text in
  let process_word := any_keyword process_keywords text in
  let viz_word := any_keyword viz_keywords text in
  let export_word := any_keyword export_keywords text in
  map step_type (_create_smart_default_workflow req hint)
  = (if negb url && (negb (PyStr.contains "download" text)
                     || PyStr.contains "search" text)
     then ["search"] else [])
    ++ (if download_word || url || negb process_word && (viz_word || export_word)
        then ["download"] else [])
    ++ (if process_word then ["process"] else [])
    ++ (if viz_word then ["visualization"] else [])
    ++ (if export_word then ["export"] else [])
  /\ _create_smart_default_workflow req hint
     = add_export req hint (add_visualization req hint
         (add_process req (add_download req hint (add_search req hint [])))).
Proof.
  intros req hint. cbv zeta.
  assert (H : _create_smart_default_workflow req hint
              = add_export req hint (add_visualization req hint
                  (add_process req (add_download req hint (add_search req hint []))))).
  { rewrite _create_smart_default_workflow_built. unfold built_workflow.
    apply add_late_download_idle. }
  split; [|exact H].
  rewrite H. exact (types_five_blocks req hint).
Qed.

(** ** The condition and the edges *)

(** X19. The edge dict sends the name of each of the eight nodes to that
    node and [end] to [END], and has no other entry.  So the label of a step
    leads to [END] exactly when its step type is empty or is the word [end]
    itself, and to the node of its step type when that is one of the
    eight. *)
Theorem X19_edges : forall label,
  (forall n, edge_for (node_name n) conditional_edges = Some (ToNode n))
  /\ edge_for "end" conditional_edges = Some END
  /\ (forall target, edge_for label conditional_edges = Some target ->
      (target = END /\ label = "end")
      \/ exists n, target = ToNode n /\ label = node_name n)
  /\ (forall step,
      (edge_for (label_of step) conditional_edges = Some END
       <-> step_type step = EmptyString \/ step_type step = "end")
      /\ (forall n, step_type step = node_name n ->
          edge_for (label_of step) conditional_edges = Some (ToNode n))).
Proof.
  intros label.
  assert (Hinv : forall l target, edge_for l conditional_edges = Some target ->
    (target = END /\ l = "end") \/ exists n, target = ToNode n /\ l = node_name n).
  { intros l target H. unfold conditional_edges in H. cbn [edge_for] in H.
    repeat match type of H with
           | context [String.eqb l ?x] =>
               let E := fresh "E" in
               destruct (String.eqb l x) eqn:E;
               [ apply String.eqb_eq in E; injection H as <-; subst l;
                 solve [ left; split; reflexivity
                       | right; eexists; split; reflexivity ] |]
           end.
    discriminate H. }
  split; [apply edge_for_node_name|]. split; [reflexivity|].
  split; [apply Hinv|].
  intros step. split; [split|].
  - intros H. destruct (Hinv _ _ H) as [[_ Hl]|[n [Habs _]]]; [|discriminate].
    unfold label_of in Hl. destruct (step_type step); auto.
  - intros [H|H]; unfold label_of; rewrite H; reflexivity.
  - intros n Hn. rewrite (label_of_node_name _ _ Hn). apply edge_for_node_name.
Qed.

(** X21. The condition settles: asked again about the state it left, it
    returns the same label, skips nothing and leaves the state as it is.  It
    changes nothing but the pointer, which it only moves forward and never
    carries past the end of the plan; a pointer at or past the end is left
    where it is, with the label [end]. *)
Theorem X21_condition_settles : forall state,
  let result := _should_continue state in
  let label := fst (fst result) in
  let state' := snd (fst result) in
  _should_continue state' = (label, state', [])
  /\ state' = set_current_step (current_step state') state
  /\ current_step state <= current_step state'
  /\ (current_step state <= List.length (workflow_plan state) ->
      current_step state' <= List.length (workflow_plan state))
  /\ (List.length (workflow_plan state) <= current_step state ->
      result = ("end", state, [])).
Proof.
  intros state. cbv zeta.
  destruct (_should_continue state) as [[label state'] skipped] eqn:E.
  cbn [fst snd].
  pose proof (_should_continue_routed _ _ _ _ E) as R.
  destruct (routed_fields _ _ _ _ R) as [Hplan _].
  split; [|split; [exact (routed_state _ _ _ _ R)|split; [exact (routed_le _ _ _ _ R)|split]]].
  - rewrite _should_continue_unfold. cbv zeta. rewrite Hplan.
    pose proof (routed_label _ _ _ _ R) as Hlab.
    destruct (nth_error (workflow_plan state) (current_step state')) as [step|].
    + destruct Hlab as [Hmet ->]. rewrite Hmet. reflexivity.
    + subst label. reflexivity.
  - exact (routed_inside _ _ _ _ R).
  - intros Hpast. rewrite _should_continue_unfold in E. cbv zeta in E.
    assert (Hnone : nth_error (workflow_plan state) (current_step state) = None)
      by (apply nth_error_None; exact Hpast).
    rewrite Hnone in E. congruence.
Qed.

(** ** The state [execute] reads its result from *)

(** X22. Whatever the language model and the agents do, the state [invoke]
    stops in holds the request, and the length of its plan as
    [total_steps]; the pointer lies within the plan; the lists
    [spatial_queries] and [transformations] are empty, no node writes them.
    When the planner returns, the plan is the one it settled on, and
    [messages] opens with the request and the message of the planner, which
    lists the step types and shows [unknown] for a step without one. *)
Theorem X22_state_after_invoke : forall self passes request,
  let final := state_of_outcome (snd (invoke self passes (initial_state request))) in
  user_request final = request
  /\ total_steps final = List.length (workflow_plan final)
  /\ current_step final <= total_steps final
  /\ spatial_queries final = []
  /\ transformations final = []
  /\ (forall hint parsed,
        _extract_number (w2n_word_to_num self) request = Returned hint ->
        llm_plan self request = Returned parsed ->
        workflow_plan final = planned parsed request hint
        /\ exists entries,
             messages final
             = HumanMessage request
               :: AIMessage ("Workflow planned with "
                             ++ PyStr.str_of_nat (List.length (workflow_plan final))
                             ++ " steps: "
                             ++ PyStr.join ", "
                                  (map step_type_shown (workflow_plan final)))%string
               :: entries).
Proof.
  intros self passes request. cbv zeta. unfold invoke.
  destruct (_plan_workflow self (initial_state request)) as [start|msg] eqn:Hp.
  - destruct (_plan_workflow_fields _ _ _ Hp)
      as [limit [reply [Hl [Hr [Hwp [Hts [Hcs [Hm [Hu [_ [Hsq [Htr _]]]]]]]]]]]].
    destruct (run_fixed_fields self passes (write_back start)) as [H1 [H2 [H3 [H4 H5]]]].
    pose proof (run_pointer_inside self passes (write_back start)) as Hin.
    destruct (run_logs self passes (write_back start))
      as [new_errors [new_messages [_ [_ Hmsg]]]].
    rewrite H1, H2, H3, H4, H5.
    rewrite write_back_plan in *. rewrite write_back_pointer in Hin.
    change (user_request (write_back start)) with (user_request start).
    change (total_steps (write_back start)) with (total_steps start).
    change (spatial_queries (write_back start)) with (spatial_queries start).
    change (transformations (write_back start)) with (transformations start).
    rewrite Hu, Hts, Hsq, Htr.
    split; [reflexivity|]. split; [reflexivity|].
    split; [apply Hin; lia|]. split; [reflexivity|]. split; [reflexivity|].
    intros hint parsed Hhint Hparsed.
    cbn [user_request initial_state] in Hl, Hr, Hwp.
    rewrite Hhint in Hl. rewrite Hparsed in Hr.
    injection Hl as <-. injection Hr as <-.
    split; [exact Hwp|].
    rewrite Hmsg.
    change (messages (write_back start)) with (messages start ++ messages start).
    rewrite Hm. cbn [messages initial_state app]. eexists. reflexivity.
  - cbn. repeat (split; [first [reflexivity | lia]|]).
    intros hint parsed Hhint Hparsed. exfalso.
    unfold _plan_workflow in Hp. cbn [user_request initial_state] in Hp.
    rewrite Hhint, Hparsed in Hp. discriminate.
Qed.

(** What a node that returned left alone. *)
Lemma node_frame : forall self n state state',
  node_function self n state = Some state' ->
  (filter (executed_by search) [Executed (current_step state) n] = [] ->
   search_results state' = search_results state)
  /\ (filter (executed_by download) [Executed (current_step state) n] = [] ->
      downloaded_data state' = downloaded_data state)
  /\ (filter is_processing_visit [Executed (current_step state) n] = [] ->
      processed_data state' = processed_data state)
  /\ (filter (executed_by analysis) [Executed (current_step state) n] = [] ->
      analysis_results state' = analysis_results state)
  /\ (filter (executed_by visualization) [Executed (current_step state) n] = [] ->
      visualizations state' = visualizations state)
  /\ (filter (executed_by export) [Executed (current_step state) n] = [] ->
      exports state' = exports state /\ final_outputs state' = final_outputs state).
Proof.
  intros self n state state' Hn.
  node_cases Hn; destruct state; cbn;
    repeat split; intros; try reflexivity; discriminate.
Qed.

(** X23. Each collected field has its own writers: [search_results] is
    written by the search node only, [downloaded_data] by the download node,
    [processed_data] by the three processing nodes, [analysis_results] by the
    analysis node, [visualizations] by the visualization node, [exports] and
    [final_outputs] by the export node.  Over a run in which the writers of a
    field did not run, the field keeps its value. *)
Theorem X23_fields_have_their_writers : forall self fuel state,
  let visits := fst (run self fuel state) in
  let final := state_of_outcome (snd (run self fuel state)) in
  (filter (executed_by search) visits = [] ->
   search_results final = search_results state)
  /\ (filter (executed_by download) visits = [] ->
      downloaded_data final = downloaded_data state)
  /\ (filter is_processing_visit visits = [] ->
      processed_data final = processed_data state)
  /\ (filter (executed_by analysis) visits = [] ->
      analysis_results final = analysis_results state)
  /\ (filter (executed_by visualization) visits = [] ->
      visualizations final = visualizations state)
  /\ (filter (executed_by export) visits = [] ->
      exports final = exports state /\ final_outputs final = final_outputs state).
Proof.
  intros self fuel state. cbv zeta. revert fuel state.
  apply (run_trace self
    (fun s v f =>
       (filter (executed_by search) v = [] -> search_results f = search_results s)
       /\ (filter (executed_by download) v = [] ->
           downloaded_data f = downloaded_data s)
       /\ (filter is_processing_visit v = [] -> processed_data f = processed_data s)
       /\ (filter (executed_by analysis) v = [] ->
           analysis_results f = analysis_results s)
       /\ (filter (executed_by visualization) v = [] ->
           visualizations f = visualizations s)
       /\ (filter (executed_by export) v = [] ->
           exports f = exports s /\ final_outputs f = final_outputs s))).
  - intros s. repeat split.
  - intros s. destruct s; repeat split.
  - intros n s s' step _ Hn. exact (node_frame _ _ _ _ Hn).
  - intros s1 v1 s2 v2 s3 [A1 [A2 [A3 [A4 [A5 A6]]]]] [B1 [B2 [B3 [B4 [B5 B6]]]]].
    rewrite !filter_app.
    split; [|split; [|split; [|split; [|split]]]];
      intros H; apply app_eq_nil in H; destruct H as [Ha Hb].
    + rewrite (B1 Hb). exact (A1 Ha).
    + rewrite (B2 Hb). exact (A2 Ha).
    + rewrite (B3 Hb). exact (A3 Ha).
    + rewrite (B4 Hb). exact (A4 Ha).
    + rewrite (B5 Hb). exact (A5 Ha).
    + rewrite (proj1 (B6 Hb)), (proj2 (B6 Hb)). exact (A6 Ha).
Qed.
